(** * Digital journal: a shallow embedding of [app.py]

    The Flask application of the repository keeps users, groups, group
    memberships, log entries, assignments, submissions and feedback in a
    relational database and serves them through request handlers.  This
    development embeds the handlers as functions over an explicit state (the
    tables, the upload directory) and proves the properties the
    specification states about them.

    Conventions of the embedding:
    - a table is the list of its rows in insertion order; [Query.first] takes
      the first matching row of that list, [order_by] is a stable sort;
    - an auto-increment primary key is one more than the largest key in use
      (no handler deletes a row);
    - string columns compare by equality; the length limits of VARCHAR
      columns and the rounding of DECIMAL columns are left to the database;
    - a Python [float] is an IEEE binary64 value, [SpecFloat.spec_float] at
      precision 53 and maximal exponent 1024;
    - library functions whose text is not part of the repository
      ([float] on a [str], [secure_filename], [generate_password_hash]) and
      the installation directory are fields of a [Runtime] record;
    - [print] calls write to the console only and are left out. *)

From Stdlib Require Import List Bool Arith ZArith Lia ZifyNat.
From Stdlib Require Import Ascii String DecimalString.
From Stdlib Require Import SpecFloat.
From Stdlib Require Import Sorted Permutation.
Import ListNotations.

Local Open Scope string_scope.
Local Open Scope nat_scope.

Set Warnings "-register-all".

(** ** Python values *)

Module Py.

(** *** Strings *)

(** [str.lower] on the bytes of the ASCII range. *)
Definition lower_char (c : ascii) : ascii :=
  let n := nat_of_ascii c in
  if (65 <=? n) && (n <=? 90) then ascii_of_nat (n + 32) else c.

Fixpoint lower (s : string) : string :=
  match s with
  | EmptyString => EmptyString
  | String c r => String (lower_char c) (lower r)
  end.

(** [c in s] for a one-character [c]. *)
Fixpoint contains_char (c : ascii) (s : string) : bool :=
  match s with
  | EmptyString => false
  | String d r => Ascii.eqb c d || contains_char c r
  end.

(** [s.rsplit(c, 1)[1]]: the text after the last [c]; [None] when [s] has
    no [c] (the list then has one element and the index fails). *)
Fixpoint rsplit1_tail (c : ascii) (s : string) : option string :=
  match s with
  | EmptyString => None
  | String d r =>
      match rsplit1_tail c r with
      | Some t => Some t
      | None => if Ascii.eqb c d then Some r else None
      end
  end.

(** [s.endswith(suffix)]. *)
Definition endswith (s suffix : string) : bool :=
  let n := String.length s in
  let k := String.length suffix in
  (k <=? n) && String.eqb (substring (n - k) k s) suffix.

(** [s[:n]]. *)
Definition slice_to (n : nat) (s : string) : string := substring 0 n s.

(** [x in xs] for strings. *)
Definition str_in (x : string) (xs : list string) : bool :=
  existsb (String.eqb x) xs.

(** [str(n)] for a non-negative integer. *)
Definition str_of_nat (n : nat) : string :=
  NilZero.string_of_uint (Nat.to_uint n).

(** *** Integers as text *)

Definition digit_char (n : nat) : ascii := ascii_of_nat (48 + n mod 10).

(** [%02d] and [%04d] of a field that fits the width. *)
Definition pad2 (n : nat) : string :=
  String (digit_char (n / 10)) (String (digit_char n) EmptyString).

Definition pad4 (n : nat) : string :=
  String (digit_char (n / 1000))
    (String (digit_char (n / 100)) (pad2 n)).

(** *** datetime *)

Record datetime := mk_datetime {
  year : nat;
  month : nat;
  day : nat;
  hour : nat;
  minute : nat;
  second : nat;
  microsecond : nat
}.

Definition dt_fields (d : datetime) : list nat :=
  [year d; month d; day d; hour d; minute d; second d; microsecond d].

Fixpoint lex_compare (a b : list nat) : comparison :=
  match a, b with
  | [], [] => Eq
  | [], _ :: _ => Lt
  | _ :: _, [] => Gt
  | x :: a', y :: b' =>
      match Nat.compare x y with
      | Eq => lex_compare a' b'
      | c => c
      end
  end.

(** Comparison of two datetimes: field by field, most significant first. *)
Definition dt_compare (a b : datetime) : comparison :=
  lex_compare (dt_fields a) (dt_fields b).

Definition dt_ltb (a b : datetime) : bool :=
  match dt_compare a b with Lt => true | _ => false end.

Definition dt_leb (a b : datetime) : bool :=
  match dt_compare a b with Gt => false | _ => true end.

(** [d.strftime('%Y-%m-%d')]. *)
Definition strftime_date (d : datetime) : string :=
  pad4 (year d) ++ "-" ++ pad2 (month d) ++ "-" ++ pad2 (day d).

(** [d.strftime("%Y%m%d_%H%M%S")]. *)
Definition strftime_stamp (d : datetime) : string :=
  pad4 (year d) ++ pad2 (month d) ++ pad2 (day d) ++ "_" ++
  pad2 (hour d) ++ pad2 (minute d) ++ pad2 (second d).

(** The range of a DATETIME or TIMESTAMP column. *)
Definition sql_datetime_ok (d : datetime) : Prop :=
  1000 <= year d < 10 * 1000 /\ 1 <= month d <= 12 /\ 1 <= day d <= 31.

(** *** Floats *)

Definition float := spec_float.

Definition float_of_Z (m e : Z) : float := binary_normalize 53 1024 m e false.

Definition float_zero : float := S754_zero false.
Definition float_100 : float := float_of_Z 100 0.

Definition float_ltb (a b : float) : bool := SFltb a b.
Definition float_eqb (a b : float) : bool := SFeqb a b.

(** *** JSON values, as [json.loads] builds them *)

Inductive json :=
| JNull
| JBool (b : bool)
| JInt (z : Z)
| JFloat (f : float)
| JStr (s : string)
| JList (l : list json)
| JDict (d : list (string * json)).

(** [bool(v)]. *)
Definition truthy (v : json) : bool :=
  match v with
  | JNull => false
  | JBool b => b
  | JInt z => negb (Z.eqb z 0)
  | JFloat f => negb (float_eqb f float_zero)
  | JStr s => negb (String.eqb s "")
  | JList l => match l with [] => false | _ => true end
  | JDict d => match d with [] => false | _ => true end
  end.

(** [v != ''].  A value of another type is never equal to a [str]. *)
Definition ne_empty_str (v : json) : bool :=
  match v with
  | JStr s => negb (String.eqb s "")
  | _ => true
  end.

(** [d.get(key)] and [d.get(key, default)] of a Python [dict]. *)
Fixpoint dict_find {V : Type} (key : string) (d : list (string * V)) : option V :=
  match d with
  | [] => None
  | (k, v) :: r => if String.eqb k key then Some v else dict_find key r
  end.

Definition dict_get (d : list (string * json)) (key : string) : json :=
  match dict_find key d with Some v => v | None => JNull end.

Definition dict_get_default (d : list (string * json)) (key : string) (default : json) : json :=
  match dict_find key d with Some v => v | None => default end.

Inductive exn := ValueError | TypeError | OverflowError | AttributeError | DatabaseError.

(** [float(v)].  [float_of_str] is the conversion of a [str], [None] when
    it raises [ValueError].  An [int] too large for a binary64 raises
    [OverflowError]. *)
Definition py_float (float_of_str : string -> option float) (v : json) : float + exn :=
  match v with
  | JNull => inr TypeError
  | JBool b => inl (if b then float_of_Z 1 0 else float_zero)
  | JInt z =>
      match float_of_Z z 0 with
      | S754_infinity _ => inr OverflowError
      | f => inl f
      end
  | JFloat f => inl f
  | JStr s =>
      match float_of_str s with
      | Some f => inl f
      | None => inr ValueError
      end
  | JList _ => inr TypeError
  | JDict _ => inr TypeError
  end.

(** *** os.path.join on POSIX *)

Definition starts_with_slash (s : string) : bool :=
  match s with
  | String c _ => Ascii.eqb c "/"
  | EmptyString => false
  end.

Definition path_join (a b : string) : string :=
  if starts_with_slash b then b
  else if String.eqb a "" || endswith a "/" then a ++ b
  else a ++ "/" ++ b.

End Py.

(** ** The tables *)

(** The [role] column: [db.Enum('admin', 'teacher', 'student')]. *)
Inductive role_t := role_admin | role_teacher | role_student.

Definition role_eqb (a b : role_t) : bool :=
  match a, b with
  | role_admin, role_admin | role_teacher, role_teacher
  | role_student, role_student => true
  | _, _ => false
  end.

(** The value of the column for a bound string; the database refuses a
    string that is none of the three. *)
Definition role_of_string (s : string) : option role_t :=
  if String.eqb s "admin" then Some role_admin
  else if String.eqb s "teacher" then Some role_teacher
  else if String.eqb s "student" then Some role_student
  else None.

Module User.
Record t := mk {
  id : nat;
  username : string;
  email : string;
  password_hash : string;
  role : role_t;
  full_name : string;
  profile_picture : option string;
  contact_details : option string;
  created_at : Py.datetime
}.
End User.

Module Group.
Record t := mk {
  id : nat;
  name : string;
  description : option string;
  teacher_id : nat;
  join_password : string;
  project_question : option string;
  created_at : Py.datetime
}.
End Group.

Module GroupMember.
Record t := mk {
  id : nat;
  group_id : nat;
  student_id : nat;
  joined_at : Py.datetime
}.
End GroupMember.

Module LogEntry.
Record t := mk {
  id : nat;
  group_id : nat;
  student_id : nat;
  title : string;
  content : string;
  media_url : option string;
  created_at : Py.datetime
}.
End LogEntry.

Module Assignment.
Record t := mk {
  id : nat;
  group_id : nat;
  teacher_id : nat;
  title : string;
  description : string;
  question_file : option string;
  due_date : Py.datetime;
  created_at : Py.datetime
}.
End Assignment.

(** [grade] is the value assigned to the [Numeric(5, 2)] column, [None] for
    NULL; [feedback] is the value bound to the [Text] column, [JNull] for
    NULL. *)
Module Submission.
Record t := mk {
  id : nat;
  assignment_id : nat;
  student_id : nat;
  file_path : string;
  submitted_at : Py.datetime;
  grade : option Py.float;
  feedback : Py.json
}.
End Submission.

Module Feedback.
Record t := mk {
  id : nat;
  log_id : nat;
  teacher_id : nat;
  feedback : string;
  created_at : Py.datetime
}.
End Feedback.

(** The database: one list of rows per table. *)
Record database := mk_database {
  users : list User.t;
  groups : list Group.t;
  group_members : list GroupMember.t;
  log_entries : list LogEntry.t;
  assignments : list Assignment.t;
  submissions : list Submission.t;
  feedbacks : list Feedback.t
}.

(** The upload area of the file system: the directories made and the files
    written. *)
Record filesystem := mk_filesystem {
  fs_dirs : list string;
  fs_files : list string
}.

Record world := mk_world {
  db : database;
  fs : filesystem
}.

(** ** Queries *)

Module Query.

(** [query.filter(...).first()]. *)
Definition first {A : Type} (p : A -> bool) (rows : list A) : option A :=
  find p rows.

(** [query.get(id)]. *)
Definition get {A : Type} (pk : A -> nat) (key : nat) (rows : list A) : option A :=
  find (fun r => pk r =? key) rows.

(** [column.in_(values)]. *)
Definition in_ (x : nat) (values : list nat) : bool :=
  existsb (Nat.eqb x) values.

(** [order_by(key.asc())] and [order_by(key.desc())]: a stable insertion
    sort on the key. *)
Fixpoint insert_by {A : Type} (le : A -> A -> bool) (x : A) (l : list A) : list A :=
  match l with
  | [] => [x]
  | y :: r => if le x y then x :: l else y :: insert_by le x r
  end.

Fixpoint sort_by {A : Type} (le : A -> A -> bool) (l : list A) : list A :=
  match l with
  | [] => []
  | x :: r => insert_by le x (sort_by le r)
  end.

Definition order_by_asc {A : Type} (key : A -> Py.datetime) (rows : list A) : list A :=
  sort_by (fun a b => Py.dt_leb (key a) (key b)) rows.

Definition order_by_desc {A : Type} (key : A -> Py.datetime) (rows : list A) : list A :=
  sort_by (fun a b => Py.dt_leb (key b) (key a)) rows.

(** The next value of an auto-increment key. *)
Definition next_id {A : Type} (pk : A -> nat) (rows : list A) : nat :=
  S (fold_right Nat.max 0 (map pk rows)).

(** [CURRENT_TIMESTAMP] of a TIMESTAMP column: whole seconds. *)
Definition current_timestamp (now : Py.datetime) : Py.datetime :=
  Py.mk_datetime (Py.year now) (Py.month now) (Py.day now)
    (Py.hour now) (Py.minute now) (Py.second now) 0.

(** The comparison of a bound string with an INTEGER column: a string of
    decimal digits stands for its value.  Other strings are given no
    value here. *)
Fixpoint digits_value (acc : nat) (s : string) : option nat :=
  match s with
  | EmptyString => Some acc
  | String c r =>
      let n := nat_of_ascii c in
      if (48 <=? n) && (n <=? 57) then digits_value (10 * acc + (n - 48)) r
      else None
  end.

Definition int_of_string (s : string) : option nat :=
  match s with
  | EmptyString => None
  | _ => digits_value 0 s
  end.

End Query.

(** ** Requests and responses *)

(** An uploaded file, [werkzeug.FileStorage]: only its name matters here.
    [bool(file)] is [bool(file.filename)]. *)
Record FileStorage := mk_file {
  filename : string
}.

Definition file_truthy (file : FileStorage) : bool :=
  negb (String.eqb (filename file) "").

Record request := mk_request {
  method : string;
  form : list (string * string);
  files : list (string * FileStorage);
  get_json : Py.json
}.

(** [request.form.get(key)] and [request.form.get(key, default)]. *)
Definition form_get (req : request) (key : string) : option string :=
  Py.dict_find key (form req).

Definition form_get_default (req : request) (key default : string) : string :=
  match Py.dict_find key (form req) with Some v => v | None => default end.

(** The library functions and the installation the application runs on. *)
Record Runtime := mk_runtime {
  float_of_str : string -> option Py.float;
  secure_filename : string -> string;
  generate_password_hash : string -> string;
  basedir : string
}.

(** The targets of [url_for]. *)
Inductive endpoint :=
| ep_index
| ep_login
| ep_dashboard
| ep_view_group (group_id : nat)
| ep_update_profile.

(** The variables handed to a template. *)
Inductive context :=
| ctx_none
| ctx_teacher_dashboard (groups : list Group.t)
| ctx_student_dashboard (groups : list Group.t)
    (assignments : list Assignment.t)
    (submitted_assignment_ids : list nat) (now : Py.datetime)
| ctx_group (group : Group.t) (log_entries : list LogEntry.t)
    (assignments : list Assignment.t) (members : list GroupMember.t)
    (now : Py.datetime)
| ctx_create_log (groups : list Group.t)
| ctx_submit (assignment : Assignment.t)
    (existing_submission : option Submission.t) (now : Py.datetime).

Inductive response :=
| render_template (name : string) (ctx : context)
| redirect (target : endpoint)
| jsonify (status : nat) (body : Py.json)
| abort (status : nat)
| unhandled (e : Py.exn).

(** What a handler leaves behind: the response, the messages flashed, and
    the state after it. *)
Record result := mk_result {
  resp : response;
  flashed : list (string * string);
  after : world
}.

Definition error_body (msg : string) : Py.json :=
  Py.JDict [("error", Py.JStr msg)].

Definition message_body (msg : string) : Py.json :=
  Py.JDict [("message", Py.JStr msg)].

(** ** File system *)

Definition makedirs (dir : string) (f : filesystem) : filesystem :=
  if Py.str_in dir (fs_dirs f) then f
  else mk_filesystem (fs_dirs f ++ [dir])%list (fs_files f).

Definition file_save (path : string) (f : filesystem) : filesystem :=
  if Py.str_in path (fs_files f) then f
  else mk_filesystem (fs_dirs f) (fs_files f ++ [path])%list.

Definition path_exists (path : string) (f : filesystem) : bool :=
  Py.str_in path (fs_files f) || Py.str_in path (fs_dirs f).

Definition os_remove (path : string) (f : filesystem) : filesystem :=
  mk_filesystem (fs_dirs f)
    (filter (fun p => negb (String.eqb p path)) (fs_files f)).

(** ** The handlers of [app.py] *)

Section Handlers.

Variable rt : Runtime.

Definition UPLOAD_FOLDER : string := Py.path_join (basedir rt) "static/uploads".

Definition ALLOWED_EXTENSIONS : list string :=
  ["png"; "jpg"; "jpeg"; "gif"; "pdf"; "doc"; "docx"; "pptx"].

Definition allowed_file (filename : string) : bool :=
  Py.contains_char "." filename &&
  match Py.rsplit1_tail "." filename with
  | Some ext => Py.str_in (Py.lower ext) ALLOWED_EXTENSIONS
  | None => false
  end.

Definition save_file (now : Py.datetime) (file : FileStorage) (subfolder : string)
    (f : filesystem) : option string * filesystem :=
  if file_truthy file && negb (String.eqb (filename file) "")
     && allowed_file (filename file) then
    let filename := secure_filename rt (filename file) in
    let timestamp := Py.strftime_stamp now in
    let unique_filename := timestamp ++ "_" ++ filename in
    let upload_dir := Py.path_join UPLOAD_FOLDER subfolder in
    let f1 := makedirs upload_dir f in
    let file_path := Py.path_join upload_dir unique_filename in
    let f2 := file_save file_path f1 in
    (Some ("uploads/" ++ subfolder ++ "/" ++ unique_filename), f2)
  else (None, f).

(** [@login_required]: an anonymous visitor is sent to the login page. *)
Definition login_required (view : User.t -> result) (w : world)
    (current_user : option User.t) : result :=
  match current_user with
  | Some u => view u
  | None =>
      mk_result (redirect ep_login)
        [("Please log in to access this page.", "message")] w
  end.

(** [filter_by(column=value)] for a form value, which is NULL when the
    field is absent. *)
Definition col_eq (value : option string) (column : string) : bool :=
  match value with
  | Some v => String.eqb v column
  | None => false
  end.

Definition opt_str_eqb (a b : option string) : bool :=
  match a, b with
  | Some x, Some y => String.eqb x y
  | None, None => true
  | _, _ => false
  end.

Definition membership (d : database) (group_id student_id : nat) : option GroupMember.t :=
  Query.first (fun m => (GroupMember.group_id m =? group_id)
                        && (GroupMember.student_id m =? student_id))
    (group_members d).

Definition set_db (w : world) (d : database) : world := mk_world d (fs w).
Definition set_fs (w : world) (f : filesystem) : world := mk_world (db w) f.

(** *** /register *)

Definition image_suffixes : list string := [".png"; ".jpg"; ".jpeg"; ".gif"].

(** The profile picture of a registration: the stored path, the file system
    after it, and the messages flashed. *)
Definition register_picture (now : Py.datetime) (req : request) (f : filesystem)
    : option string * filesystem * list (string * string) :=
  match Py.dict_find "profile_picture" (files req) with
  | Some file =>
      if file_truthy file && negb (String.eqb (filename file) "") then
        if existsb (Py.endswith (Py.lower (filename file))) image_suffixes then
          let filename := secure_filename rt (filename file) in
          let timestamp := Py.strftime_stamp now in
          let unique_filename := timestamp ++ "_" ++ filename in
          let profiles_dir := Py.path_join (Py.path_join "static" "uploads") "profiles" in
          let f1 := makedirs profiles_dir f in
          let file_path := Py.path_join profiles_dir unique_filename in
          let f2 := file_save file_path f1 in
          (Some ("uploads/profiles/" ++ unique_filename), f2, [])
        else
          (None, f, [("Please upload an image file (PNG, JPG, GIF)", "warning")])
      else (None, f, [])
  | None => (None, f, [])
  end.

(** [db.session.add(user); db.session.commit()]: the NOT NULL columns and
    the role enumeration are checked by the database. *)
Definition insert_user (now : Py.datetime) (d : database)
    (username email full_name : option string) (role : string)
    (password_hash : string) (profile_picture : option string) : option database :=
  match username, email, full_name, role_of_string role with
  | Some u, Some e, Some n, Some r =>
      let row := User.mk (Query.next_id User.id (users d)) u e password_hash r n
                   profile_picture None (Query.current_timestamp now) in
      Some (mk_database (users d ++ [row])%list (groups d) (group_members d)
              (log_entries d) (assignments d) (submissions d) (feedbacks d))
  | _, _, _, _ => None
  end.

Definition register (now : Py.datetime) (w : world) (current_user : option User.t)
    (req : request) : result :=
  match current_user with
  | Some _ => mk_result (redirect ep_dashboard) [] w
  | None =>
      if String.eqb (method req) "POST" then
        let username := form_get req "username" in
        let email := form_get req "email" in
        let full_name := form_get req "full_name" in
        let password := form_get req "password" in
        let confirm_password := form_get req "confirm_password" in
        let role := form_get_default req "role" "student" in
        if negb (opt_str_eqb password confirm_password) then
          mk_result (render_template "auth/register.html" ctx_none)
            [("Passwords do not match", "danger")] w
        else if Query.first (fun u => col_eq username (User.username u)) (users (db w)) is Some _ then
          mk_result (render_template "auth/register.html" ctx_none)
            [("Username already exists", "danger")] w
        else if Query.first (fun u => col_eq email (User.email u)) (users (db w)) is Some _ then
          mk_result (render_template "auth/register.html" ctx_none)
            [("Email already exists", "danger")] w
        else
          let '(profile_picture, f1, fl) := register_picture now req (fs w) in
          match password with
          | None => mk_result (unhandled Py.AttributeError) fl (set_fs w f1)
          | Some pw =>
              match insert_user now (db w) username email full_name role
                      (generate_password_hash rt pw) profile_picture with
              | None => mk_result (unhandled Py.DatabaseError) fl (set_fs w f1)
              | Some d1 =>
                  mk_result (redirect ep_login)
                    (fl ++ [("Registration successful. Please login.", "success")])%list
                    (mk_world d1 f1)
              end
          end
      else mk_result (render_template "auth/register.html" ctx_none) [] w
  end.

(** *** /dashboard *)

Definition dashboard (now : Py.datetime) (w : world) (current_user : User.t) : result :=
  match User.role current_user with
  | role_admin => mk_result (render_template "dashboard/admin.html" ctx_none) [] w
  | role_teacher =>
      let groups :=
        filter (fun g => Group.teacher_id g =? User.id current_user) (groups (db w)) in
      mk_result (render_template "dashboard/teacher.html" (ctx_teacher_dashboard groups)) [] w
  | role_student =>
      let group_memberships :=
        filter (fun gm => GroupMember.student_id gm =? User.id current_user)
          (group_members (db w)) in
      let group_ids := map GroupMember.group_id group_memberships in
      let groups :=
        match group_ids with
        | [] => []
        | _ => filter (fun g => Query.in_ (Group.id g) group_ids) (groups (db w))
        end in
      let assignments :=
        filter (fun a => Query.in_ (Assignment.group_id a) group_ids
                         && Py.dt_ltb now (Assignment.due_date a))
          (assignments (db w)) in
      let submitted_assignments :=
        filter (fun s => (Submission.student_id s =? User.id current_user)
                         && Query.in_ (Submission.assignment_id s)
                              (map Assignment.id assignments))
          (submissions (db w)) in
      let submitted_assignment_ids :=
        map Submission.assignment_id submitted_assignments in
      mk_result
        (render_template "dashboard/student.html"
           (ctx_student_dashboard groups assignments submitted_assignment_ids now))
        [] w
  end.

(** *** /groups/join *)

Definition insert_membership (now : Py.datetime) (d : database)
    (group_id student_id : nat) : database :=
  let row := GroupMember.mk (Query.next_id GroupMember.id (group_members d))
               group_id student_id (Query.current_timestamp now) in
  mk_database (users d) (groups d) (group_members d ++ [row])%list
    (log_entries d) (assignments d) (submissions d) (feedbacks d).

Definition join_group (now : Py.datetime) (w : world) (current_user : User.t)
    (req : request) : result :=
  if negb (role_eqb (User.role current_user) role_student) then
    mk_result (redirect ep_dashboard) [("Only students can join groups", "danger")] w
  else if String.eqb (method req) "POST" then
    match form_get req "password" with
    | None | Some EmptyString =>
        mk_result (render_template "groups/join.html" ctx_none)
          [("Please enter the group password", "danger")] w
    | Some password =>
        match Query.first (fun g => String.eqb (Group.join_password g) password)
                (groups (db w)) with
        | None =>
            mk_result (render_template "groups/join.html" ctx_none)
              [("Invalid group password. Please check the password and try again.",
                "danger")] w
        | Some group =>
            match membership (db w) (Group.id group) (User.id current_user) with
            | Some existing_member =>
                mk_result (redirect (ep_view_group (Group.id group)))
                  [("You are already a member of this group", "info")] w
            | None =>
                mk_result (redirect (ep_view_group (Group.id group)))
                  [("Successfully joined the group: " ++ Group.name group, "success")]
                  (set_db w (insert_membership now (db w) (Group.id group)
                               (User.id current_user)))
            end
        end
    end
  else mk_result (render_template "groups/join.html" ctx_none) [] w.

(** *** /groups/<int:group_id> *)

Definition view_group (now : Py.datetime) (w : world) (current_user : User.t)
    (group_id : nat) : result :=
  match Query.get Group.id group_id (groups (db w)) with
  | None => mk_result (abort 404) [] w
  | Some group =>
      let denied :=
        match User.role current_user with
        | role_student =>
            match membership (db w) group_id (User.id current_user) with
            | None => Some "You are not a member of this group"
            | Some _ => None
            end
        | role_teacher =>
            if negb (Group.teacher_id group =? User.id current_user)
            then Some "You are not the teacher of this group"
            else None
        | role_admin => None
        end in
      match denied with
      | Some msg => mk_result (redirect ep_dashboard) [(msg, "danger")] w
      | None =>
          let log_entries :=
            Query.order_by_desc LogEntry.created_at
              (filter (fun l => LogEntry.group_id l =? group_id) (log_entries (db w))) in
          let assignments :=
            Query.order_by_asc Assignment.due_date
              (filter (fun a => Assignment.group_id a =? group_id) (assignments (db w))) in
          let members :=
            filter (fun m => GroupMember.group_id m =? group_id) (group_members (db w)) in
          mk_result
            (render_template "groups/view.html"
               (ctx_group group log_entries assignments members now))
            [] w
      end
  end.

(** *** /logs/create *)

(** The membership row for a [group_id] taken from the form. *)
Definition membership_of_form (d : database) (group_id : option string)
    (student_id : nat) : option (nat * GroupMember.t) :=
  match group_id with
  | None => None
  | Some s =>
      match Query.int_of_string s with
      | None => None
      | Some g =>
          match membership d g student_id with
          | Some m => Some (g, m)
          | None => None
          end
      end
  end.

Definition insert_log_entry (now : Py.datetime) (d : database) (group_id student_id : nat)
    (title content : option string) (media_url : option string) : option database :=
  match title, content with
  | Some t, Some c =>
      let row := LogEntry.mk (Query.next_id LogEntry.id (log_entries d))
                   group_id student_id t c media_url (Query.current_timestamp now) in
      Some (mk_database (users d) (groups d) (group_members d)
              (log_entries d ++ [row])%list (assignments d) (submissions d) (feedbacks d))
  | _, _ => None
  end.

Definition create_log (now : Py.datetime) (w : world) (current_user : User.t)
    (req : request) : result :=
  if negb (role_eqb (User.role current_user) role_student) then
    mk_result (redirect ep_dashboard) [("Only students can create log entries", "danger")] w
  else
    let group_memberships :=
      filter (fun gm => GroupMember.student_id gm =? User.id current_user)
        (group_members (db w)) in
    let group_ids := map GroupMember.group_id group_memberships in
    let groups :=
      match group_ids with
      | [] => []
      | _ => filter (fun g => Query.in_ (Group.id g) group_ids) (groups (db w))
      end in
    if String.eqb (method req) "POST" then
      let group_id := form_get req "group_id" in
      let title := form_get req "title" in
      let content := form_get req "content" in
      match membership_of_form (db w) group_id (User.id current_user) with
      | None =>
          mk_result (redirect ep_dashboard)
            [("You are not a member of this group", "danger")] w
      | Some (g, _) =>
          let '(media_url, f1) :=
            match Py.dict_find "media" (files req) with
            | Some file => save_file now file "media" (fs w)
            | None => (None, fs w)
            end in
          match insert_log_entry now (db w) g (User.id current_user)
                  title content media_url with
          | None => mk_result (unhandled Py.DatabaseError) [] (set_fs w f1)
          | Some d1 =>
              mk_result (redirect (ep_view_group g))
                [("Log entry created successfully", "success")] (mk_world d1 f1)
          end
      end
    else mk_result (render_template "logs/create.html" (ctx_create_log groups)) [] w.

(** *** /assignments/<int:assignment_id>/submit *)

Definition insert_submission (now : Py.datetime) (d : database)
    (assignment_id student_id : nat) (file_path : string) : database :=
  let row := Submission.mk (Query.next_id Submission.id (submissions d))
               assignment_id student_id file_path (Query.current_timestamp now)
               None Py.JNull in
  mk_database (users d) (groups d) (group_members d) (log_entries d)
    (assignments d) (submissions d ++ [row])%list (feedbacks d).

Definition submission_of (d : database) (assignment_id student_id : nat)
    : option Submission.t :=
  Query.first (fun s => (Submission.assignment_id s =? assignment_id)
                        && (Submission.student_id s =? student_id))
    (submissions d).

Definition submit_assignment (now : Py.datetime) (w : world) (current_user : User.t)
    (assignment_id : nat) (req : request) : result :=
  if negb (role_eqb (User.role current_user) role_student) then
    mk_result (redirect ep_dashboard) [("Only students can submit assignments", "danger")] w
  else
    match Query.get Assignment.id assignment_id (assignments (db w)) with
    | None => mk_result (abort 404) [] w
    | Some assignment =>
        match membership (db w) (Assignment.group_id assignment) (User.id current_user) with
        | None =>
            mk_result (redirect ep_dashboard)
              [("You are not a member of this group", "danger")] w
        | Some _ =>
            let existing_submission :=
              submission_of (db w) assignment_id (User.id current_user) in
            if String.eqb (method req) "POST" then
              match existing_submission with
              | Some _ =>
                  mk_result (redirect (ep_view_group (Assignment.group_id assignment)))
                    [("You have already submitted this assignment", "info")] w
              | None =>
                  let no_file :=
                    mk_result
                      (render_template "assignments/submit.html"
                         (ctx_submit assignment None now))
                      [("Please select a file to upload", "danger")] w in
                  match Py.dict_find "file" (files req) with
                  | None => no_file
                  | Some file =>
                      if String.eqb (filename file) "" then no_file
                      else
                        match save_file now file "submissions" (fs w) with
                        | (None, f1) =>
                            mk_result
                              (render_template "assignments/submit.html"
                                 (ctx_submit assignment None now))
                              [("Invalid file type", "danger")] (set_fs w f1)
                        | (Some file_path, f1) =>
                            mk_result
                              (redirect (ep_view_group (Assignment.group_id assignment)))
                              [("Assignment submitted successfully", "success")]
                              (mk_world
                                 (insert_submission now (db w) assignment_id
                                    (User.id current_user) file_path)
                                 f1)
                        end
                  end
              end
            else
              mk_result
                (render_template "assignments/submit.html"
                   (ctx_submit assignment existing_submission now))
                [] w
        end
    end.

(** *** /assignments/<int:assignment_id>/grade *)

(** The comparison of a bound JSON value with an INTEGER column. *)
Definition sql_eq_int (v : Py.json) (column : nat) : bool :=
  match v with
  | Py.JInt z => Z.eqb z (Z.of_nat column)
  | Py.JBool b => (if b then 1 else 0) =? column
  | Py.JFloat f => Py.float_eqb f (Py.float_of_Z (Z.of_nat column) 0)
  | Py.JStr s =>
      match Query.int_of_string s with
      | Some n => n =? column
      | None => false
      end
  | _ => false
  end.

(** A list or a dict cannot be bound as a query parameter. *)
Definition bindable (v : Py.json) : bool :=
  match v with
  | Py.JList _ | Py.JDict _ => false
  | _ => true
  end.

(** The validation of the grade: the value to store, or the response that
    ends the request. *)
Definition validate_grade (grade : Py.json) : option Py.float + response :=
  if Py.truthy grade && Py.ne_empty_str grade then
    match Py.py_float (float_of_str rt) grade with
    | inl grade_value =>
        if Py.float_ltb grade_value Py.float_zero
           || Py.float_ltb Py.float_100 grade_value
        then inr (jsonify 400 (error_body "Grade must be between 0 and 100"))
        else inl (Some grade_value)
    | inr Py.ValueError => inr (jsonify 400 (error_body "Invalid grade format"))
    | inr e => inr (unhandled e)
    end
  else inl None.

(** [submission.grade = ...; submission.feedback = ...] on the row with the
    primary key of [sub]. *)
Definition update_submission (d : database) (sub : Submission.t)
    (grade_value : option Py.float) (feedback : Py.json) : database :=
  let row := Submission.mk (Submission.id sub) (Submission.assignment_id sub)
               (Submission.student_id sub) (Submission.file_path sub)
               (Submission.submitted_at sub) grade_value feedback in
  mk_database (users d) (groups d) (group_members d) (log_entries d) (assignments d)
    (map (fun s => if Submission.id s =? Submission.id sub then row else s)
       (submissions d))
    (feedbacks d).

(** [Submission.query.filter_by(assignment_id=..., student_id=...).first()]
    with the [student_id] of the JSON body. *)
Definition submission_for (d : database) (assignment_id : nat) (student_id : Py.json)
    : option Submission.t :=
  Query.first (fun s => (Submission.assignment_id s =? assignment_id)
                        && sql_eq_int student_id (Submission.student_id s))
    (submissions d).

Definition grade_assignment (w : world) (current_user : User.t) (assignment_id : nat)
    (req : request) : result :=
  if negb (role_eqb (User.role current_user) role_teacher) then
    mk_result (jsonify 403 (error_body "Only teachers can grade assignments")) [] w
  else
    match Query.get Assignment.id assignment_id (assignments (db w)) with
    | None => mk_result (abort 404) [] w
    | Some assignment =>
        match Query.get Group.id (Assignment.group_id assignment) (groups (db w)) with
        | None => mk_result (unhandled Py.AttributeError) [] w
        | Some group =>
            if negb (Group.teacher_id group =? User.id current_user) then
              mk_result (jsonify 403 (error_body "You are not the teacher of this group"))
                [] w
            else
              match get_json req with
              | Py.JDict data =>
                  let student_id := Py.dict_get data "student_id" in
                  let grade := Py.dict_get data "grade" in
                  let feedback := Py.dict_get_default data "feedback" (Py.JStr "") in
                  match validate_grade grade with
                  | inr r => mk_result r [] w
                  | inl grade_value =>
                      if negb (bindable student_id) then
                        mk_result (unhandled Py.DatabaseError) [] w
                      else
                        match submission_for (db w) assignment_id student_id with
                        | None =>
                            mk_result (jsonify 404 (error_body "Submission not found")) [] w
                        | Some submission =>
                            if bindable feedback then
                              mk_result
                                (jsonify 200 (message_body "Grade updated successfully")) []
                                (set_db w (update_submission (db w) submission
                                             grade_value feedback))
                            else
                              mk_result
                                (jsonify 500 (error_body "Database error occurred")) [] w
                        end
                  end
              | _ => mk_result (unhandled Py.AttributeError) [] w
              end
        end
    end.

(** *** /api/timeline/<int:group_id> *)

(** [text[:100] + '...' if len(text) > 100 else text], the expression both
    loops use for the description. *)
Definition description_of (text : string) : string :=
  if 100 <? String.length text then Py.slice_to 100 text ++ "..." else text.

(** The event of a log entry; [log.student] is the user the row points to. *)
Definition log_event (d : database) (log : LogEntry.t) : option (list (string * Py.json)) :=
  match Query.get User.id (LogEntry.student_id log) (users d) with
  | None => None
  | Some student =>
      Some [("id", Py.JStr ("log_" ++ Py.str_of_nat (LogEntry.id log)));
            ("content", Py.JStr (LogEntry.title log));
            ("start", Py.JStr (Py.strftime_date (LogEntry.created_at log)));
            ("type", Py.JStr "point");
            ("className", Py.JStr "log-entry");
            ("title", Py.JStr ("By: " ++ User.full_name student));
            ("description", Py.JStr (description_of (LogEntry.content log)))]
  end.

Definition assignment_event (assignment : Assignment.t) : list (string * Py.json) :=
  [("id", Py.JStr ("assignment_" ++ Py.str_of_nat (Assignment.id assignment)));
   ("content", Py.JStr (Assignment.title assignment));
   ("start", Py.JStr (Py.strftime_date (Assignment.due_date assignment)));
   ("type", Py.JStr "point");
   ("className", Py.JStr "assignment");
   ("title", Py.JStr "Assignment Due");
   ("description", Py.JStr (description_of (Assignment.description assignment)))].

(** The first loop: every event, or [None] when a row has no author. *)
Fixpoint log_events (d : database) (logs : list LogEntry.t)
    : option (list (list (string * Py.json))) :=
  match logs with
  | [] => Some []
  | log :: rest =>
      match log_event d log, log_events d rest with
      | Some e, Some es => Some (e :: es)
      | _, _ => None
      end
  end.

(** [timeline_data] at the end of the handler. *)
Definition timeline_data (d : database) (group_id : nat)
    : option (list (list (string * Py.json))) :=
  let log_entries :=
    Query.order_by_asc LogEntry.created_at
      (filter (fun l => LogEntry.group_id l =? group_id) (log_entries d)) in
  let assignments :=
    Query.order_by_asc Assignment.due_date
      (filter (fun a => Assignment.group_id a =? group_id) (assignments d)) in
  match log_events d log_entries with
  | Some es => Some (es ++ map assignment_event assignments)%list
  | None => None
  end.

Definition timeline_access (d : database) (current_user : User.t) (group_id : nat) : bool :=
  match User.role current_user with
  | role_student =>
      match membership d group_id (User.id current_user) with
      | Some _ => true
      | None => false
      end
  | role_teacher =>
      match Query.get Group.id group_id (groups d) with
      | Some group => Group.teacher_id group =? User.id current_user
      | None => false
      end
  | role_admin => true
  end.

Definition get_timeline_data (w : world) (current_user : User.t) (group_id : nat) : result :=
  if negb (timeline_access (db w) current_user group_id) then
    mk_result (jsonify 403 (error_body "Access denied")) [] w
  else
    match timeline_data (db w) group_id with
    | Some events => mk_result (jsonify 200 (Py.JList (map Py.JDict events))) [] w
    | None => mk_result (unhandled Py.AttributeError) [] w
    end.

(** *** /profile/update *)

(** The commit of the changed user row: [full_name] and [email] are NOT
    NULL, and [email] is unique. *)
Definition update_user (d : database) (current_user : User.t)
    (full_name email contact_details profile_picture : option string) : option database :=
  match full_name, email with
  | Some n, Some e =>
      if existsb (fun u => negb (User.id u =? User.id current_user)
                           && String.eqb (User.email u) e) (users d)
      then None
      else
        let row := User.mk (User.id current_user) (User.username current_user) e
                     (User.password_hash current_user) (User.role current_user) n
                     profile_picture contact_details (User.created_at current_user) in
        Some (mk_database
                (map (fun u => if User.id u =? User.id current_user then row else u)
                   (users d))
                (groups d) (group_members d) (log_entries d) (assignments d)
                (submissions d) (feedbacks d))
  | _, _ => None
  end.

(** The profile picture of an update: the new value of the column, the file
    system after it, and the messages flashed. *)
Definition update_picture (now : Py.datetime) (current_user : User.t) (req : request)
    (f : filesystem) : option string * filesystem * list (string * string) :=
  match Py.dict_find "profile_picture" (files req) with
  | Some file =>
      if file_truthy file && negb (String.eqb (filename file) "") then
        if allowed_file (filename file) then
          let f0 :=
            match User.profile_picture current_user with
            | None | Some EmptyString => f
            | Some old =>
                let old_file_path := Py.path_join "static" old in
                if path_exists old_file_path f then os_remove old_file_path f else f
            end in
          match save_file now file "profiles" f0 with
          | (Some profile_picture, f1) =>
              (Some profile_picture, f1,
               [("Profile picture updated successfully!", "success")])
          | (None, f1) => (User.profile_picture current_user, f1, [])
          end
        else
          (User.profile_picture current_user, f,
           [("Invalid file type. Please use JPG, PNG, or GIF images.", "danger")])
      else (User.profile_picture current_user, f, [])
  | None => (User.profile_picture current_user, f, [])
  end.

Definition update_profile (now : Py.datetime) (w : world) (current_user : User.t)
    (req : request) : result :=
  if String.eqb (method req) "POST" then
    let full_name := form_get req "full_name" in
    let email := form_get req "email" in
    let contact_details := form_get req "contact_details" in
    let '(profile_picture, f1, fl) := update_picture now current_user req (fs w) in
    match update_user (db w) current_user full_name email contact_details
            profile_picture with
    | Some d1 =>
        mk_result (redirect ep_update_profile)
          (fl ++ [("Profile updated successfully!", "success")])%list (mk_world d1 f1)
    | None =>
        mk_result (redirect ep_update_profile)
          (fl ++ [("Error updating profile. Please try again.", "danger")])%list
          (set_fs w f1)
    end
  else mk_result (render_template "dashboard/profile.html" ctx_none) [] w.

End Handlers.

(** ** The student dashboard's list of pending assignments *)

(** Modelled from the spec: the template [dashboard/student.html], which
    the handler [dashboard] renders, is not among the sources.  Section 4.4
    of the specification describes its pending-assignments view: of the
    assignments the handler hands over, those for which the student has no
    submission, which the handler reports in [submitted_assignment_ids]. *)
Definition pending_assignments (ctx : context) : list Assignment.t :=
  match ctx with
  | ctx_student_dashboard _ assignments submitted_assignment_ids _ =>
      filter (fun a => negb (Query.in_ (Assignment.id a) submitted_assignment_ids))
        assignments
  | _ => []
  end.

(** ** Reading a timeline *)

Definition event_field (e : list (string * Py.json)) (key : string) : string :=
  match Py.dict_get e key with
  | Py.JStr s => s
  | _ => EmptyString
  end.

(** The order of two events by their ['start'] date, as text. *)
Definition event_date_le (e1 e2 : list (string * Py.json)) : Prop :=
  String.leb (event_field e1 "start") (event_field e2 "start") = true.

(** ** A sample runtime *)

(** A conversion of [str] to [float] for plain digit strings, a
    [secure_filename] that finds nothing to change, and a hash that only
    marks its input; enough to run the handlers on examples. *)
Definition sample_float_of_str (s : string) : option Py.float :=
  match Query.int_of_string s with
  | Some n => Some (Py.float_of_Z (Z.of_nat n) 0)
  | None => None
  end.

Definition sample_runtime : Runtime :=
  mk_runtime sample_float_of_str (fun s => s) (fun s => "hash:" ++ s) "/srv/journal".

(** ** Vocabulary of the statements *)

(** The rows of one group. *)
Definition group_logs (d : database) (group_id : nat) : list LogEntry.t :=
  filter (fun l => LogEntry.group_id l =? group_id) (log_entries d).

Definition group_assignments (d : database) (group_id : nat) : list Assignment.t :=
  filter (fun a => Assignment.group_id a =? group_id) (assignments d).


(** The number of membership rows of a student in a group. *)
Definition count_memberships (d : database) (group_id student_id : nat) : nat :=
  List.length
    (filter (fun m => (GroupMember.group_id m =? group_id)
                      && (GroupMember.student_id m =? student_id))
       (group_members d)).

(** The grade stored for a submission, looked up by primary key. *)
Definition stored_grade (d : database) (submission_id : nat) : option (option Py.float) :=
  match Query.get Submission.id submission_id (submissions d) with
  | Some s => Some (Submission.grade s)
  | None => None
  end.

Definition is_some {A : Type} (o : option A) : bool :=
  match o with Some _ => true | None => false end.

(** An assignment is pending for a student at a time: it belongs to a group
    of the student, it is due later, and the student has no submission for
    it. *)
Definition pending_for (d : database) (now : Py.datetime) (u : User.t)
    (a : Assignment.t) : bool :=
  is_some (membership d (Assignment.group_id a) (User.id u))
  && Py.dt_ltb now (Assignment.due_date a)
  && negb (is_some (submission_of d (Assignment.id a) (User.id u))).

(** The teacher [u] owns the group of the assignment: the two checks that
    [grade_assignment] makes before it reads the request. *)
Definition owns_assignment (d : database) (u : User.t) (assignment_id : nat) : Prop :=
  User.role u = role_teacher /\
  exists assignment group,
    Query.get Assignment.id assignment_id (assignments d) = Some assignment /\
    Query.get Group.id (Assignment.group_id assignment) (groups d) = Some group /\
    Group.teacher_id group = User.id u.

(** A grading request with the given JSON object as its body. *)
Definition grading_request (data : list (string * Py.json)) : request :=
  mk_request "POST" [] [] (Py.JDict data).

(** A float outside the interval from 0 to 100, by the two comparisons of
    [validate_grade]. *)
Definition out_of_range (f : Py.float) : bool :=
  Py.float_ltb f Py.float_zero || Py.float_ltb Py.float_100 f.


(** ** Sample data *)

Module Sample.

Definition at_ (y m d : nat) : Py.datetime := Py.mk_datetime y m d 9 30 0 0.

Definition alice : User.t :=
  User.mk 1 "alice" "alice@example.org" "hash:a" role_teacher "Alice A" None None
    (at_ 2024 1 2).
Definition bob : User.t :=
  User.mk 2 "bob" "bob@example.org" "hash:b" role_student "Bob B" None None
    (at_ 2024 1 3).
Definition carol : User.t :=
  User.mk 3 "carol" "carol@example.org" "hash:c" role_student "Carol C" None None
    (at_ 2024 1 4).

Definition cs101 : Group.t :=
  Group.mk 1 "CS101" None 1 "abc123" None (at_ 2024 1 5).

Definition bob_in_cs101 : GroupMember.t := GroupMember.mk 1 1 2 (at_ 2024 1 6).

Definition week1 : LogEntry.t :=
  LogEntry.mk 1 1 2 "Week1" "notes" None (at_ 2024 2 1).

Definition long_text : string :=
  "Monday: read the brief. Tuesday: drafted the outline. Wednesday: wrote the first half. Thursday: revised it all.".

Definition diary : LogEntry.t :=
  LogEntry.mk 2 1 2 "Diary" long_text None (at_ 2024 1 15).

Definition essay : Assignment.t :=
  Assignment.mk 1 1 1 "Essay" "Write an essay" None (at_ 2024 1 1) (at_ 2023 12 20).

Definition project : Assignment.t :=
  Assignment.mk 2 1 1 "Project" "Build it" None (at_ 2024 6 1) (at_ 2024 1 8).

Definition quiz : Assignment.t :=
  Assignment.mk 3 1 1 "Quiz" "Answer it" None (at_ 2024 7 1) (at_ 2024 1 9).

Definition bob_essay : Submission.t :=
  Submission.mk 1 1 2 "uploads/submissions/20231230_093000_essay.pdf" (at_ 2023 12 30)
    (Some (Py.float_of_Z 50 0)) (Py.JStr "ok").

Definition bob_project : Submission.t :=
  Submission.mk 2 2 2 "uploads/submissions/20240110_093000_project.pdf" (at_ 2024 1 10)
    None Py.JNull.

Definition data : database :=
  mk_database [alice; bob; carol] [cs101] [bob_in_cs101] [week1; diary]
    [essay; project; quiz] [bob_essay; bob_project] [].

Definition w0 : world := mk_world data (mk_filesystem [] []).

Definition now0 : Py.datetime := at_ 2024 3 1.

Definition now1 : Py.datetime := at_ 2024 3 2.

Definition upload_quiz : request :=
  mk_request "POST" [] [("file", mk_file "quiz.PDF")] Py.JNull.

Definition upload_cv : request :=
  mk_request "POST" [("full_name", "Bob B"); ("email", "bob@example.org")]
    [("profile_picture", mk_file "cv.pdf")] Py.JNull.


Definition log_to_cs101 : request :=
  mk_request "POST" [("group_id", "1"); ("title", "Hello"); ("content", "First entry")]
    [] Py.JNull.

Definition register_dave : request :=
  mk_request "POST"
    [("username", "dave"); ("email", "dave@example.org"); ("full_name", "Dave D");
     ("password", "pw"); ("confirm_password", "pw"); ("role", "teacher")]
    [] Py.JNull.

(** The events of the timeline of [cs101]. *)
Definition timeline : list (list (string * Py.json)) :=
  Eval vm_compute in
    match timeline_data data 1 with Some es => es | None => [] end.

End Sample.

(** ** The other routes of [app.py] *)

(** Library functions that only these routes call: the check of a password
    against its hash, [None] when it raises (no password given);
    [datetime.strptime(s, '%Y-%m-%dT%H:%M')], [None] when it raises
    [ValueError]; and the text the database stores for a float bound to a
    Text column. *)
Record Library := mk_library {
  check_password_hash : string -> option string -> option bool;
  strptime : string -> option Py.datetime;
  float_text : Py.float -> string
}.

(** The parts of a report, as they are handed to [doc.build]: a paragraph
    with the name of its style, a spacer, and a table with its column
    widths in points (an inch is 72).  The table style, one constant list
    for both tables, is left out. *)
Inductive flowable :=
| Paragraph (text : string) (style : string)
| Spacer (width height : nat)
| Table (data : list (list string)) (colWidths : list nat).

(** The templates of these routes, with their variables. *)
Inductive page :=
| page_index
| page_login
| page_create_group
| page_assignment (assignment : Assignment.t) (submission : option Submission.t)
    (now : Py.datetime)
| page_create_assignment (groups : list Group.t)
| page_log (log_entry : LogEntry.t) (now : Py.datetime).

(** What these routes answer with: a response of the kinds above, one of
    the pages, a redirect to a URL taken from the request, or a file. *)
Inductive answer :=
| answered (r : response)
| rendered (p : page)
| redirected_to (url : string)
| send_file (story : list flowable) (download_name : string).

Record outcome := mk_outcome {
  answer_of : answer;
  notices : list (string * string);
  state : world
}.

Definition lift (r : result) : outcome :=
  mk_outcome (answered (resp r)) (flashed r) (after r).

(** [str(z)] for an integer. *)
Definition str_of_Z (z : Z) : string := NilZero.string_of_int (Z.to_int z).

(** All the values of a loop whose body may fail. *)
Fixpoint traverse {A B : Type} (f : A -> option B) (l : list A) : option (list B) :=
  match l with
  | [] => Some []
  | x :: r =>
      match f x, traverse f r with
      | Some y, Some ys => Some (y :: ys)
      | _, _ => None
      end
  end.

(** [query.limit(n)]. *)
Definition limit {A : Type} (n : nat) (rows : list A) : list A := firstn n rows.

Section Routes.

Variable rt : Runtime.
Variable lib : Library.

(** [@login_required] for the routes of this part. *)
Definition require_login (view : User.t -> outcome) (w : world)
    (current_user : option User.t) : outcome :=
  match current_user with
  | Some u => view u
  | None =>
      mk_outcome (answered (redirect ep_login))
        [("Please log in to access this page.", "message")] w
  end.

(** *** / *)

Definition index (w : world) (current_user : option User.t) : outcome :=
  match current_user with
  | Some _ => mk_outcome (answered (redirect ep_dashboard)) [] w
  | None => mk_outcome (rendered page_index) [] w
  end.

(** *** /login *)

(** The answer, and the user handed to [login_user], if any.  [next_page]
    is [request.args.get('next')]. *)
Definition login (w : world) (current_user : option User.t) (req : request)
    (next_page : option string) : outcome * option User.t :=
  match current_user with
  | Some _ => (mk_outcome (answered (redirect ep_dashboard)) [] w, None)
  | None =>
      if String.eqb (method req) "POST" then
        let username := form_get req "username" in
        let password := form_get req "password" in
        let invalid :=
          (mk_outcome (rendered page_login)
             [("Invalid username or password", "danger")] w, None) in
        match Query.first (fun u => col_eq username (User.username u)) (users (db w)) with
        | Some user =>
            match check_password_hash lib (User.password_hash user) password with
            | None => (mk_outcome (answered (unhandled Py.AttributeError)) [] w, None)
            | Some true =>
                (mk_outcome
                   match next_page with
                   | None | Some EmptyString => answered (redirect ep_dashboard)
                   | Some url => redirected_to url
                   end
                   [] w,
                 Some user)
            | Some false => invalid
            end
        | None => invalid
        end
      else (mk_outcome (rendered page_login) [] w, None)
  end.

(** *** /logout *)

Definition logout (w : world) (current_user : User.t) : outcome :=
  mk_outcome (answered (redirect ep_index)) [] w.

(** *** /groups/create *)

Definition insert_group (now : Py.datetime) (d : database)
    (name description : option string) (teacher_id : nat)
    (join_password project_question : option string) : option database :=
  match name, join_password with
  | Some n, Some p =>
      let row := Group.mk (Query.next_id Group.id (groups d)) n description teacher_id
                   p project_question (Query.current_timestamp now) in
      Some (mk_database (users d) (groups d ++ [row])%list (group_members d)
              (log_entries d) (assignments d) (submissions d) (feedbacks d))
  | _, _ => None
  end.

Definition create_group (now : Py.datetime) (w : world) (current_user : User.t)
    (req : request) : outcome :=
  if negb (role_eqb (User.role current_user) role_teacher) then
    mk_outcome (answered (redirect ep_dashboard))
      [("Only teachers can create groups", "danger")] w
  else if String.eqb (method req) "POST" then
    let name := form_get req "name" in
    let description := form_get req "description" in
    let join_password := form_get req "join_password" in
    let project_question := form_get req "project_question" in
    match insert_group now (db w) name description (User.id current_user)
            join_password project_question with
    | None => mk_outcome (answered (unhandled Py.DatabaseError)) [] w
    | Some d1 =>
        mk_outcome
          (answered (redirect (ep_view_group (Query.next_id Group.id (groups (db w))))))
          [("Group created successfully", "success")] (set_db w d1)
    end
  else mk_outcome (rendered page_create_group) [] w.

(** *** /assignments/<int:assignment_id> *)

Definition view_assignment (now : Py.datetime) (w : world) (current_user : User.t)
    (assignment_id : nat) : outcome :=
  match Query.get Assignment.id assignment_id (assignments (db w)) with
  | None => mk_outcome (answered (abort 404)) [] w
  | Some assignment =>
      let checked : option (string + Py.exn) :=
        match User.role current_user with
        | role_student =>
            match membership (db w) (Assignment.group_id assignment)
                    (User.id current_user) with
            | None => Some (inl "You are not a member of this group")
            | Some _ => None
            end
        | role_teacher =>
            match Query.get Group.id (Assignment.group_id assignment) (groups (db w)) with
            | None => Some (inr Py.AttributeError)
            | Some group =>
                if negb (Group.teacher_id group =? User.id current_user)
                then Some (inl "You are not the teacher of this group")
                else None
            end
        | role_admin => None
        end in
      match checked with
      | Some (inl msg) =>
          mk_outcome (answered (redirect ep_dashboard)) [(msg, "danger")] w
      | Some (inr e) => mk_outcome (answered (unhandled e)) [] w
      | None =>
          let submission :=
            match User.role current_user with
            | role_student => submission_of (db w) assignment_id (User.id current_user)
            | _ => None
            end in
          mk_outcome (rendered (page_assignment assignment submission now)) [] w
      end
  end.

(** *** /assignments/create *)

Definition insert_assignment (now : Py.datetime) (d : database)
    (group_id teacher_id : nat) (title description : option string)
    (question_file : option string) (due_date : Py.datetime) : option database :=
  match title, description with
  | Some t, Some desc =>
      let row := Assignment.mk (Query.next_id Assignment.id (assignments d)) group_id
                   teacher_id t desc question_file due_date
                   (Query.current_timestamp now) in
      Some (mk_database (users d) (groups d) (group_members d) (log_entries d)
              (assignments d ++ [row])%list (submissions d) (feedbacks d))
  | _, _ => None
  end.

(** [Group.query.get(group_id)] for a [group_id] taken from the form. *)
Definition group_of_form (d : database) (group_id : option string) : option Group.t :=
  match group_id with
  | None => None
  | Some s =>
      match Query.int_of_string s with
      | None => None
      | Some g => Query.get Group.id g (groups d)
      end
  end.

(** The question file of a new assignment: the stored path and the file
    system after it, or [None] when the type of the file is refused. *)
Definition question_upload (now : Py.datetime) (req : request) (f : filesystem)
    : option (option string * filesystem) :=
  match Py.dict_find "question_file" (files req) with
  | Some file =>
      if file_truthy file && negb (String.eqb (filename file) "") then
        if allowed_file (filename file) then Some (save_file rt now file "questions" f)
        else None
      else Some (None, f)
  | None => Some (None, f)
  end.

Definition create_assignment (now : Py.datetime) (w : world) (current_user : User.t)
    (req : request) : outcome :=
  if negb (role_eqb (User.role current_user) role_teacher) then
    mk_outcome (answered (redirect ep_dashboard))
      [("Only teachers can create assignments", "danger")] w
  else
    let groups :=
      filter (fun g => Group.teacher_id g =? User.id current_user) (groups (db w)) in
    if String.eqb (method req) "POST" then
      let group_id := form_get req "group_id" in
      let title := form_get req "title" in
      let description := form_get req "description" in
      let due_date_str := form_get req "due_date" in
      let invalid_group :=
        mk_outcome (rendered (page_create_assignment groups))
          [("Invalid group selection", "danger")] w in
      match group_of_form (db w) group_id with
      | None => invalid_group
      | Some group =>
          if negb (Group.teacher_id group =? User.id current_user) then invalid_group
          else
            match due_date_str with
            | None => mk_outcome (answered (unhandled Py.TypeError)) [] w
            | Some text =>
                match strptime lib text with
                | None =>
                    mk_outcome (rendered (page_create_assignment groups))
                      [("Invalid date format", "danger")] w
                | Some due_date =>
                    match question_upload now req (fs w) with
                    | None =>
                        mk_outcome (rendered (page_create_assignment groups))
                          [("Invalid file type. Allowed: PDF, DOC, DOCX, PPT, PPTX",
                            "danger")] w
                    | Some (question_file, f1) =>
                        match insert_assignment now (db w) (Group.id group)
                                (User.id current_user) title description
                                question_file due_date with
                        | None =>
                            mk_outcome (answered (unhandled Py.DatabaseError)) []
                              (set_fs w f1)
                        | Some d1 =>
                            mk_outcome (answered (redirect (ep_view_group (Group.id group))))
                              [("Assignment created successfully", "success")]
                              (mk_world d1 f1)
                        end
                    end
                end
            end
      end
    else mk_outcome (rendered (page_create_assignment groups)) [] w.

(** *** /logs/<int:log_id> *)

Definition view_log (now : Py.datetime) (w : world) (current_user : User.t)
    (log_id : nat) : outcome :=
  match Query.get LogEntry.id log_id (log_entries (db w)) with
  | None => mk_outcome (answered (abort 404)) [] w
  | Some log_entry =>
      if role_eqb (User.role current_user) role_student
         && negb (LogEntry.student_id log_entry =? User.id current_user) then
        mk_outcome (answered (redirect ep_dashboard))
          [("You can only view your own log entries", "danger")] w
      else if role_eqb (User.role current_user) role_teacher then
        match Query.get Group.id (LogEntry.group_id log_entry) (groups (db w)) with
        | None => mk_outcome (answered (unhandled Py.AttributeError)) [] w
        | Some group =>
            if negb (Group.teacher_id group =? User.id current_user) then
              mk_outcome (answered (redirect ep_dashboard))
                [("You are not the teacher of this group", "danger")] w
            else mk_outcome (rendered (page_log log_entry now)) [] w
        end
      else mk_outcome (rendered (page_log log_entry now)) [] w
  end.

(** *** /logs/<int:log_id>/feedback *)

(** The text stored for the value bound to the [feedback] column; a list
    or a dict cannot be bound. *)
Definition feedback_text_of (v : Py.json) : option string :=
  match v with
  | Py.JStr s => Some s
  | Py.JInt z => Some (str_of_Z z)
  | Py.JBool b => Some (if b then "1" else "0")
  | Py.JFloat f => Some (float_text lib f)
  | Py.JNull | Py.JList _ | Py.JDict _ => None
  end.

Definition insert_feedback (now : Py.datetime) (d : database) (log_id teacher_id : nat)
    (text : string) : database :=
  let row := Feedback.mk (Query.next_id Feedback.id (feedbacks d)) log_id teacher_id
               text (Query.current_timestamp now) in
  mk_database (users d) (groups d) (group_members d) (log_entries d) (assignments d)
    (submissions d) (feedbacks d ++ [row])%list.

Definition add_feedback (now : Py.datetime) (w : world) (current_user : User.t)
    (log_id : nat) (req : request) : outcome :=
  if negb (role_eqb (User.role current_user) role_teacher) then
    mk_outcome (answered (jsonify 403 (error_body "Only teachers can provide feedback")))
      [] w
  else
    match Query.get LogEntry.id log_id (log_entries (db w)) with
    | None => mk_outcome (answered (abort 404)) [] w
    | Some log_entry =>
        match Query.get Group.id (LogEntry.group_id log_entry) (groups (db w)) with
        | None => mk_outcome (answered (unhandled Py.AttributeError)) [] w
        | Some group =>
            if negb (Group.teacher_id group =? User.id current_user) then
              mk_outcome
                (answered (jsonify 403 (error_body "You are not the teacher of this group")))
                [] w
            else
              match get_json req with
              | Py.JDict data =>
                  let feedback_text := Py.dict_get data "feedback" in
                  if negb (Py.truthy feedback_text) then
                    mk_outcome
                      (answered (jsonify 400 (error_body "Feedback cannot be empty"))) [] w
                  else
                    match feedback_text_of feedback_text with
                    | None => mk_outcome (answered (unhandled Py.DatabaseError)) [] w
                    | Some text =>
                        mk_outcome
                          (answered (jsonify 200 (message_body "Feedback added successfully")))
                          []
                          (set_db w (insert_feedback now (db w) log_id
                                       (User.id current_user) text))
                    end
              | _ => mk_outcome (answered (unhandled Py.AttributeError)) [] w
              end
        end
    end.

(** *** /generate-report/<int:group_id> *)

Definition member_row (d : database) (member : GroupMember.t) : option (list string) :=
  match Query.get User.id (GroupMember.student_id member) (users d) with
  | Some student =>
      Some [User.full_name student; Py.strftime_date (GroupMember.joined_at member)]
  | None => None
  end.

Definition log_flowables (d : database) (log : LogEntry.t) : option (list flowable) :=
  match Query.get User.id (LogEntry.student_id log) (users d) with
  | Some student =>
      Some [Paragraph (LogEntry.title log ++ " - by " ++ User.full_name student ++ " on "
                       ++ Py.strftime_date (LogEntry.created_at log)) "Heading3";
            Paragraph (LogEntry.content log) "Normal";
            Spacer 1 6]
  | None => None
  end.

Definition assignment_row (d : database) (group_id : nat) (assignment : Assignment.t)
    : list string :=
  let submission_count :=
    List.length (filter (fun s => Submission.assignment_id s =? Assignment.id assignment)
                   (submissions d)) in
  let member_count :=
    List.length (filter (fun m => GroupMember.group_id m =? group_id) (group_members d)) in
  let status := Py.str_of_nat submission_count ++ "/" ++ Py.str_of_nat member_count
                ++ " submitted" in
  [Assignment.title assignment; Py.strftime_date (Assignment.due_date assignment); status].

(** The story of the report of a group, [None] when a row points to no
    user. *)
Definition report_story (d : database) (group : Group.t) (group_id : nat)
    : option (list flowable) :=
  match Query.get User.id (Group.teacher_id group) (users d) with
  | None => None
  | Some teacher =>
      let members :=
        filter (fun m => GroupMember.group_id m =? group_id) (group_members d) in
      let log_entries :=
        limit 10 (Query.order_by_desc LogEntry.created_at
                    (filter (fun l => LogEntry.group_id l =? group_id) (log_entries d))) in
      let assignments :=
        Query.order_by_asc Assignment.due_date
          (filter (fun a => Assignment.group_id a =? group_id) (assignments d)) in
      match traverse (member_row d) members, traverse (log_flowables d) log_entries with
      | Some member_rows, Some log_parts =>
          Some ([Paragraph ("Group Report: " ++ Group.name group) "CustomTitle";
                 Spacer 1 12;
                 Paragraph ("Teacher: " ++ User.full_name teacher) "Normal";
                 Paragraph ("Created: " ++ Py.strftime_date (Group.created_at group))
                   "Normal";
                 Spacer 1 12;
                 Paragraph "Members:" "Heading2";
                 Table (["Name"; "Joined Date"] :: member_rows) [216; 144];
                 Spacer 1 12;
                 Paragraph "Recent Log Entries:" "Heading2"]
                ++ List.concat log_parts
                ++ [Paragraph "Assignments:" "Heading2";
                    Table (["Title"; "Due Date"; "Status"]
                           :: map (assignment_row d group_id) assignments)
                      [180; 108; 108]])%list
      | _, _ => None
      end
  end.

Definition generate_report (w : world) (current_user : User.t) (group_id : nat)
    : outcome :=
  match Query.get Group.id group_id (groups (db w)) with
  | None => mk_outcome (answered (abort 404)) [] w
  | Some group =>
      let denied :=
        match User.role current_user with
        | role_student =>
            match membership (db w) group_id (User.id current_user) with
            | None => Some "You are not a member of this group"
            | Some _ => None
            end
        | role_teacher =>
            if negb (Group.teacher_id group =? User.id current_user)
            then Some "You are not the teacher of this group"
            else None
        | role_admin => None
        end in
      match denied with
      | Some msg => mk_outcome (answered (redirect ep_dashboard)) [(msg, "danger")] w
      | None =>
          match report_story (db w) group group_id with
          | Some story =>
              mk_outcome (send_file story ("report_" ++ Group.name group ++ ".pdf")) [] w
          | None => mk_outcome (answered (unhandled Py.AttributeError)) [] w
          end
      end
  end.

(** *** The application *)

(** The routes, each with what the URL and the request carry. *)
Inductive route :=
| route_index
| route_login (req : request) (next_page : option string)
| route_register (req : request)
| route_dashboard
| route_logout
| route_create_group (req : request)
| route_join_group (req : request)
| route_view_group (group_id : nat)
| route_create_log (req : request)
| route_view_assignment (assignment_id : nat)
| route_create_assignment (req : request)
| route_submit_assignment (assignment_id : nat) (req : request)
| route_grade_assignment (assignment_id : nat) (req : request)
| route_view_log (log_id : nat)
| route_add_feedback (log_id : nat) (req : request)
| route_generate_report (group_id : nat)
| route_get_timeline_data (group_id : nat)
| route_update_profile (req : request).

(** [load_user]: the user of the session, if the session names one. *)
Definition load_user (d : database) (session : option nat) : option User.t :=
  match session with
  | Some user_id => Query.get User.id user_id (users d)
  | None => None
  end.

(** A route declared with [methods=['POST']] answers 405 to another
    method. *)
Definition post_only (req : request) (w : world) (o : outcome) : outcome :=
  if String.eqb (method req) "POST" then o
  else mk_outcome (answered (abort 405)) [] w.

(** One request: the answer and the state after it, and the session after
    it. *)
Definition serve (now : Py.datetime) (w : world) (session : option nat) (r : route)
    : outcome * option nat :=
  let current_user := load_user (db w) session in
  match r with
  | route_index => (index w current_user, session)
  | route_login req next_page =>
      match login w current_user req next_page with
      | (o, Some user) => (o, Some (User.id user))
      | (o, None) => (o, session)
      end
  | route_register req => (lift (register rt now w current_user req), session)
  | route_dashboard =>
      (lift (login_required (dashboard now w) w current_user), session)
  | route_logout =>
      (require_login (logout w) w current_user,
       match current_user with Some _ => None | None => session end)
  | route_create_group req =>
      (require_login (fun u => create_group now w u req) w current_user, session)
  | route_join_group req =>
      (lift (login_required (fun u => join_group now w u req) w current_user), session)
  | route_view_group group_id =>
      (lift (login_required (fun u => view_group now w u group_id) w current_user),
       session)
  | route_create_log req =>
      (lift (login_required (fun u => create_log rt now w u req) w current_user), session)
  | route_view_assignment assignment_id =>
      (require_login (fun u => view_assignment now w u assignment_id) w current_user,
       session)
  | route_create_assignment req =>
      (require_login (fun u => create_assignment now w u req) w current_user, session)
  | route_submit_assignment assignment_id req =>
      (lift (login_required (fun u => submit_assignment rt now w u assignment_id req)
               w current_user), session)
  | route_grade_assignment assignment_id req =>
      (post_only req w
         (lift (login_required (fun u => grade_assignment rt w u assignment_id req)
                  w current_user)), session)
  | route_view_log log_id =>
      (require_login (fun u => view_log now w u log_id) w current_user, session)
  | route_add_feedback log_id req =>
      (post_only req w
         (require_login (fun u => add_feedback now w u log_id req) w current_user),
       session)
  | route_generate_report group_id =>
      (require_login (fun u => generate_report w u group_id) w current_user, session)
  | route_get_timeline_data group_id =>
      (lift (login_required (fun u => get_timeline_data w u group_id) w current_user),
       session)
  | route_update_profile req =>
      (lift (login_required (fun u => update_profile rt now w u req) w current_user),
       session)
  end.

(** A sequence of requests of one browser, each with the time it arrives
    at. *)
Fixpoint run (trace : list (Py.datetime * route)) (w : world) (session : option nat)
    : world * option nat :=
  match trace with
  | [] => (w, session)
  | (now, r) :: rest =>
      let '(o, session1) := serve now w session r in
      run rest (state o) session1
  end.

(** The requests of any number of browsers, handled one after another:
    each comes with the time it arrives at and the session of its
    browser. *)
Fixpoint handle (traffic : list (Py.datetime * option nat * route)) (w : world) : world :=
  match traffic with
  | [] => w
  | (now, session, r) :: rest => handle rest (state (fst (serve now w session r)))
  end.

End Routes.

(** ** Vocabulary of the properties of the application *)

(** No two rows of a table share a primary key. *)
Definition keys_unique (d : database) : Prop :=
  NoDup (map User.id (users d)) /\
  NoDup (map Group.id (groups d)) /\
  NoDup (map GroupMember.id (group_members d)) /\
  NoDup (map LogEntry.id (log_entries d)) /\
  NoDup (map Assignment.id (assignments d)) /\
  NoDup (map Submission.id (submissions d)) /\
  NoDup (map Feedback.id (feedbacks d)).

(** No two users share a username or an email. *)
Definition accounts_unique (d : database) : Prop :=
  NoDup (map User.username (users d)) /\ NoDup (map User.email (users d)).

(** A student has at most one membership row in a group. *)
Definition single_membership (d : database) : Prop :=
  forall group_id student_id, count_memberships d group_id student_id <= 1.

(** The number of submission rows of a student for an assignment. *)
Definition count_submissions (d : database) (assignment_id student_id : nat) : nat :=
  List.length
    (filter (fun s => (Submission.assignment_id s =? assignment_id)
                      && (Submission.student_id s =? student_id))
       (submissions d)).

Definition single_submission (d : database) : Prop :=
  forall assignment_id student_id, count_submissions d assignment_id student_id <= 1.

(** Every stored grade passed the two comparisons of [validate_grade]. *)
Definition grades_in_range (d : database) : Prop :=
  forall sub f,
    In sub (submissions d) -> Submission.grade sub = Some f -> out_of_range f = false.

Definition has_role (d : database) (user_id : nat) (r : role_t) : Prop :=
  exists u, In u (users d) /\ User.id u = user_id /\ User.role u = r.

Definition is_member (d : database) (group_id student_id : nat) : Prop :=
  exists m, In m (group_members d) /\ GroupMember.group_id m = group_id /\
            GroupMember.student_id m = student_id.

Definition teaches (d : database) (teacher_id group_id : nat) : Prop :=
  exists g, In g (groups d) /\ Group.id g = group_id /\ Group.teacher_id g = teacher_id.

(** What the rows point to: a group to a teacher; a membership to a group
    and a student; a log entry to a membership of its author; an assignment
    to a group of its teacher; a submission to an assignment of a group of
    its student; a feedback to a log entry of a group of its teacher. *)
Definition references_hold (d : database) : Prop :=
  (forall g, In g (groups d) -> has_role d (Group.teacher_id g) role_teacher) /\
  (forall m, In m (group_members d) ->
     (exists g, In g (groups d) /\ Group.id g = GroupMember.group_id m) /\
     has_role d (GroupMember.student_id m) role_student) /\
  (forall l, In l (log_entries d) ->
     is_member d (LogEntry.group_id l) (LogEntry.student_id l)) /\
  (forall a, In a (assignments d) ->
     teaches d (Assignment.teacher_id a) (Assignment.group_id a)) /\
  (forall s, In s (submissions d) ->
     exists a, In a (assignments d) /\ Assignment.id a = Submission.assignment_id s /\
               is_member d (Assignment.group_id a) (Submission.student_id s)) /\
  (forall f, In f (feedbacks d) ->
     exists l, In l (log_entries d) /\ LogEntry.id l = Feedback.log_id f /\
               teaches d (Feedback.teacher_id f) (LogEntry.group_id l)).

Definition consistent (d : database) : Prop :=
  keys_unique d /\ accounts_unique d /\ single_membership d /\ single_submission d /\
  grades_in_range d /\ references_hold d.

(** The writes of the application, each with the user who acts and what
    the route has checked before it writes. *)
Inductive write (actor : option User.t) (d : database) : database -> Prop :=
| write_nothing : write actor d d
| write_user (now : Py.datetime) (username email full_name : option string)
    (role password_hash : string) (profile_picture : option string) (d' : database) :
    actor = None ->
    insert_user now d username email full_name role password_hash profile_picture
      = Some d' ->
    Query.first (fun u => col_eq username (User.username u)) (users d) = None ->
    Query.first (fun u => col_eq email (User.email u)) (users d) = None ->
    write actor d d'
| write_group (cu : User.t) (now : Py.datetime)
    (name description join_password project_question : option string) (d' : database) :
    actor = Some cu -> In cu (users d) -> User.role cu = role_teacher ->
    insert_group now d name description (User.id cu) join_password project_question
      = Some d' ->
    write actor d d'
| write_membership (cu : User.t) (now : Py.datetime) (group : Group.t) :
    actor = Some cu -> In cu (users d) -> User.role cu = role_student ->
    In group (groups d) ->
    membership d (Group.id group) (User.id cu) = None ->
    write actor d (insert_membership now d (Group.id group) (User.id cu))
| write_log_entry (cu : User.t) (now : Py.datetime) (group_id : nat)
    (title content media_url : option string) (d' : database) :
    actor = Some cu -> In cu (users d) -> User.role cu = role_student ->
    is_member d group_id (User.id cu) ->
    insert_log_entry now d group_id (User.id cu) title content media_url = Some d' ->
    write actor d d'
| write_assignment (cu : User.t) (now : Py.datetime) (group : Group.t)
    (title description question_file : option string) (due_date : Py.datetime)
    (d' : database) :
    actor = Some cu -> In cu (users d) -> User.role cu = role_teacher ->
    In group (groups d) -> Group.teacher_id group = User.id cu ->
    insert_assignment now d (Group.id group) (User.id cu) title description
      question_file due_date = Some d' ->
    write actor d d'
| write_submission (cu : User.t) (now : Py.datetime) (assignment : Assignment.t)
    (file_path : string) :
    actor = Some cu -> In cu (users d) -> User.role cu = role_student ->
    In assignment (assignments d) ->
    is_member d (Assignment.group_id assignment) (User.id cu) ->
    submission_of d (Assignment.id assignment) (User.id cu) = None ->
    write actor d
      (insert_submission now d (Assignment.id assignment) (User.id cu) file_path)
| write_grade (cu : User.t) (assignment : Assignment.t) (sub : Submission.t)
    (grade_value : option Py.float) (feedback : Py.json) :
    actor = Some cu -> In cu (users d) -> User.role cu = role_teacher ->
    In assignment (assignments d) ->
    teaches d (User.id cu) (Assignment.group_id assignment) ->
    In sub (submissions d) ->
    Submission.assignment_id sub = Assignment.id assignment ->
    (forall f, grade_value = Some f -> out_of_range f = false) ->
    write actor d (update_submission d sub grade_value feedback)
| write_feedback (cu : User.t) (now : Py.datetime) (log_entry : LogEntry.t)
    (text : string) :
    actor = Some cu -> In cu (users d) -> User.role cu = role_teacher ->
    In log_entry (log_entries d) ->
    teaches d (User.id cu) (LogEntry.group_id log_entry) ->
    write actor d (insert_feedback now d (LogEntry.id log_entry) (User.id cu) text)
| write_profile (cu : User.t)
    (full_name email contact_details profile_picture : option string) (d' : database) :
    actor = Some cu -> In cu (users d) ->
    update_user d cu full_name email contact_details profile_picture = Some d' ->
    write actor d d'.

(** What a request never takes back: the part of a user row that no route
    assigns to, and the part of a submission row that grading leaves. *)
Definition user_core (u : User.t) : nat * string * string * role_t * Py.datetime :=
  (User.id u, User.username u, User.password_hash u, User.role u, User.created_at u).

Definition submission_core (s : Submission.t) : nat * nat * nat * string * Py.datetime :=
  (Submission.id s, Submission.assignment_id s, Submission.student_id s,
   Submission.file_path s, Submission.submitted_at s).

Definition prefix_of {A : Type} (l l' : list A) : Prop := exists more, l' = (l ++ more)%list.

(** [d'] keeps all that [d] holds: the tables only grow at their end, and
    the rows of users and submissions keep their cores. *)
Definition extends (d d' : database) : Prop :=
  prefix_of (map user_core (users d)) (map user_core (users d')) /\
  prefix_of (groups d) (groups d') /\
  prefix_of (group_members d) (group_members d') /\
  prefix_of (log_entries d) (log_entries d') /\
  prefix_of (assignments d) (assignments d') /\
  prefix_of (map submission_core (submissions d)) (map submission_core (submissions d')) /\
  prefix_of (feedbacks d) (feedbacks d').



(** The texts of the paragraphs of a style in a story. *)
Fixpoint paragraphs_of (style : string) (story : list flowable) : list string :=
  match story with
  | [] => []
  | Paragraph text s :: rest =>
      if String.eqb s style then text :: paragraphs_of style rest
      else paragraphs_of style rest
  | _ :: rest => paragraphs_of style rest
  end.

Definition empty_database : database := mk_database [] [] [] [] [] [] [].

Definition empty_world : world := mk_world empty_database (mk_filesystem [] []).

(** ** A sample library and a sample session *)

Definition sample_strptime (s : string) : option Py.datetime :=
  if String.eqb s "2024-06-01T12:00" then Some (Py.mk_datetime 2024 6 1 12 0 0 0)
  else None.

Definition sample_library : Library :=
  mk_library
    (fun h p => match p with
                | Some pw => Some (String.eqb h ("hash:" ++ pw))
                | None => None
                end)
    sample_strptime
    (fun _ => "0").

Module Session.

Definition post (fields : list (string * string)) : request :=
  mk_request "POST" fields [] Py.JNull.

Definition register_teacher : request :=
  post [("username", "tina"); ("email", "tina@example.org"); ("full_name", "Tina T");
        ("password", "t-pw"); ("confirm_password", "t-pw"); ("role", "teacher")].

Definition register_student : request :=
  post [("username", "sam"); ("email", "sam@example.org"); ("full_name", "Sam S");
        ("password", "s-pw"); ("confirm_password", "s-pw")].

Definition login_teacher : request := post [("username", "tina"); ("password", "t-pw")].
Definition login_student : request := post [("username", "sam"); ("password", "s-pw")].

Definition new_group : request :=
  post [("name", "CS101"); ("description", "Intro"); ("join_password", "abc123")].

Definition new_assignment : request :=
  post [("group_id", "1"); ("title", "Essay"); ("description", "Write an essay");
        ("due_date", "2024-06-01T12:00")].

Definition join : request := post [("password", "abc123")].

Definition new_log : request :=
  post [("group_id", "1"); ("title", "Week1"); ("content", "notes")].

Definition hand_in : request :=
  mk_request "POST" [] [("file", mk_file "essay.pdf")] Py.JNull.

Definition give_grade : request :=
  grading_request [("student_id", Py.JInt 2); ("grade", Py.JInt 90);
                   ("feedback", Py.JStr "well done")].

Definition give_feedback : request :=
  mk_request "POST" [] [] (Py.JDict [("feedback", Py.JStr "Good start")]).

Definition t (d : nat) : Py.datetime := Py.mk_datetime 2024 5 d 10 0 0 0.

(** A teacher registers, logs in, creates a group and an assignment, and
    logs out; a student registers, logs in, joins the group, writes a log
    entry, hands in the assignment, and logs out; the teacher logs in
    again, grades the submission and comments on the log entry. *)
Definition term : list (Py.datetime * route) :=
  [(t 1, route_register register_teacher);
   (t 2, route_login login_teacher None);
   (t 3, route_create_group new_group);
   (t 4, route_create_assignment new_assignment);
   (t 5, route_logout);
   (t 6, route_register register_student);
   (t 7, route_login login_student None);
   (t 8, route_join_group join);
   (t 9, route_create_log new_log);
   (t 10, route_submit_assignment 1 hand_in);
   (t 11, route_logout);
   (t 12, route_login login_teacher None);
   (t 13, route_grade_assignment 1 give_grade);
   (t 14, route_add_feedback 1 give_feedback)].

(** The same term with two browsers: the teacher and the student stay
    logged in, each request carries the session of its browser. *)
Definition traffic : list (Py.datetime * option nat * route) :=
  [(t 1, None, route_register register_teacher);
   (t 2, None, route_login login_teacher None);
   (t 3, Some 1, route_create_group new_group);
   (t 4, Some 1, route_create_assignment new_assignment);
   (t 6, None, route_register register_student);
   (t 7, None, route_login login_student None);
   (t 8, Some 2, route_join_group join);
   (t 9, Some 2, route_create_log new_log);
   (t 10, Some 2, route_submit_assignment 1 hand_in);
   (t 13, Some 1, route_grade_assignment 1 give_grade);
   (t 14, Some 1, route_add_feedback 1 give_feedback)].

(** The state after the traffic. *)
Definition busy : world :=
  Eval vm_compute in handle sample_runtime sample_library traffic empty_world.

(** The state after the term. *)
Definition final : world :=
  Eval vm_compute in fst (run sample_runtime sample_library term empty_world None).


Definition tina : User.t :=
  User.mk 1 "tina" "tina@example.org" "hash:t-pw" role_teacher "Tina T" None None (t 1).

Definition sam : User.t :=
  User.mk 2 "sam" "sam@example.org" "hash:s-pw" role_student "Sam S" None None (t 6).

Definition register_admin : request :=
  post [("username", "root"); ("email", "root@example.org"); ("full_name", "Root R");
        ("password", "r-pw"); ("confirm_password", "r-pw"); ("role", "admin")].

(** The state after the teacher has logged out and an admin has
    registered. *)
Definition office : world :=
  Eval vm_compute in
    fst (run sample_runtime sample_library
           [(t 15, route_logout); (t 16, route_register register_admin)] final (Some 1)).

(** A student registers with a picture, and later sends a new picture
    together with the email of another user. *)
Definition register_pia : request :=
  mk_request "POST"
    [("username", "pia"); ("email", "pia@example.org"); ("full_name", "Pia P");
     ("password", "p-pw"); ("confirm_password", "p-pw")]
    [("profile_picture", mk_file "me.png")] Py.JNull.

Definition gallery : world :=
  Eval vm_compute in
    fst (run sample_runtime sample_library [(t 17, route_register register_pia)]
           office None).

Definition pia : User.t :=
  User.mk 4 "pia" "pia@example.org" "hash:p-pw" role_student "Pia P"
    (Some "uploads/profiles/20240517_100000_me.png") None (t 17).

Definition change_picture : request :=
  mk_request "POST" [("full_name", "Pia P"); ("email", "tina@example.org")]
    [("profile_picture", mk_file "new.png")] Py.JNull.

(** A second student registers and joins the group before anything is
    handed in. *)
Definition register_sue : request :=
  post [("username", "sue"); ("email", "sue@example.org"); ("full_name", "Sue S");
        ("password", "u-pw"); ("confirm_password", "u-pw")].

Definition login_sue : request := post [("username", "sue"); ("password", "u-pw")].

Definition classroom : world :=
  Eval vm_compute in
    fst (run sample_runtime sample_library
           (firstn 9 term ++
            [(t 10, route_logout); (t 11, route_register register_sue);
             (t 12, route_login login_sue None); (t 13, route_join_group join)])
           empty_world None).

Definition sue : User.t :=
  User.mk 3 "sue" "sue@example.org" "hash:u-pw" role_student "Sue S" None None (t 11).

End Session.
(** * Properties *)

(** ** Lists, sorting and queries *)

Lemma insert_by_perm {A : Type} (le : A -> A -> bool) (x : A) (l : list A) :
  Permutation (Query.insert_by le x l) (x :: l).
Proof.
  induction l as [|y r IH]; simpl.
  - apply Permutation_refl.
  - destruct (le x y).
    + apply Permutation_refl.
    + eapply perm_trans; [apply perm_skip, IH | apply perm_swap].
Qed.

Lemma sort_by_perm {A : Type} (le : A -> A -> bool) (l : list A) :
  Permutation (Query.sort_by le l) l.
Proof.
  induction l as [|x r IH]; simpl.
  - apply perm_nil.
  - eapply perm_trans; [apply insert_by_perm | apply perm_skip, IH].
Qed.

Lemma insert_by_sorted {A : Type} (le : A -> A -> bool) (x : A) (l : list A) :
  (forall a b, le a b = false -> le b a = true) ->
  Sorted (fun a b => le a b = true) l ->
  Sorted (fun a b => le a b = true) (Query.insert_by le x l).
Proof.
  intros Htot Hs. induction Hs as [|y r Hr IH Hhd]; simpl.
  - repeat constructor.
  - destruct (le x y) eqn:Hxy.
    + constructor; [constructor; assumption | constructor; exact Hxy].
    + constructor; [exact IH |].
      destruct Hhd as [|z r' Hyz]; simpl.
      * constructor. apply Htot, Hxy.
      * destruct (le x z); constructor; [apply Htot, Hxy | exact Hyz].
Qed.

Lemma sort_by_sorted {A : Type} (le : A -> A -> bool) (l : list A) :
  (forall a b, le a b = false -> le b a = true) ->
  Sorted (fun a b => le a b = true) (Query.sort_by le l).
Proof.
  intros Htot. induction l as [|x r IH]; simpl.
  - constructor.
  - apply insert_by_sorted; assumption.
Qed.

(** A sorted list stays sorted under a map that respects the order on the
    elements of the list. *)
Lemma Sorted_map_in {A B : Type} (R : A -> A -> Prop) (R' : B -> B -> Prop)
    (f : A -> B) (l : list A) :
  (forall a b, In a l -> In b l -> R a b -> R' (f a) (f b)) ->
  Sorted R l -> Sorted R' (map f l).
Proof.
  intros Hm Hs. induction Hs as [|x r Hr IH Hhd]; simpl.
  - constructor.
  - constructor.
    + apply IH. intros a b Ha Hb. apply Hm; right; assumption.
    + destruct Hhd as [|y r' Hxy]; simpl; constructor.
      apply Hm; [left; reflexivity | right; left; reflexivity | exact Hxy].
Qed.

Lemma lex_compare_antisym (a b : list nat) :
  Py.lex_compare a b = CompOpp (Py.lex_compare b a).
Proof.
  revert b. induction a as [|x a IH]; intros [|y b]; simpl; try reflexivity.
  rewrite (Nat.compare_antisym y x).
  destruct (Nat.compare y x); simpl; [apply IH | reflexivity | reflexivity].
Qed.

Lemma dt_leb_total (a b : Py.datetime) :
  Py.dt_leb a b = false -> Py.dt_leb b a = true.
Proof.
  unfold Py.dt_leb, Py.dt_compare.
  rewrite (lex_compare_antisym (Py.dt_fields b)).
  destruct (Py.lex_compare (Py.dt_fields a) (Py.dt_fields b)); simpl; congruence.
Qed.

Lemma order_by_asc_perm {A : Type} (key : A -> Py.datetime) (rows : list A) :
  Permutation (Query.order_by_asc key rows) rows.
Proof. apply sort_by_perm. Qed.

Lemma order_by_asc_sorted {A : Type} (key : A -> Py.datetime) (rows : list A) :
  Sorted (fun a b => Py.dt_leb (key a) (key b) = true) (Query.order_by_asc key rows).
Proof.
  unfold Query.order_by_asc.
  apply (sort_by_sorted (fun a b => Py.dt_leb (key a) (key b))).
  intros a b. apply dt_leb_total.
Qed.

(** ** Dates as text *)

Lemma ascii_compare_refl (c : ascii) : Ascii.compare c c = Eq.
Proof. unfold Ascii.compare. apply N.compare_refl. Qed.

Lemma digit_char_compare (a b : nat) :
  Ascii.compare (Py.digit_char a) (Py.digit_char b) = Nat.compare (a mod 10) (b mod 10).
Proof.
  unfold Py.digit_char.
  assert (Ha : a mod 10 < 10) by (apply Nat.mod_upper_bound; discriminate).
  assert (Hb : b mod 10 < 10) by (apply Nat.mod_upper_bound; discriminate).
  revert Ha Hb. generalize (a mod 10) as x, (b mod 10) as y. intros x y Hx Hy.
  do 10 (destruct x as [|x]; [ do 10 (destruct y as [|y]; [reflexivity|]); lia | ]).
  lia.
Qed.

(** The calendar day decides the order of two datetimes before the time of
    day does. *)
Lemma date_order_of_dt_leb (a b : Py.datetime) :
  Py.dt_leb a b = true ->
  Py.year a < Py.year b \/
  (Py.year a = Py.year b /\
   (Py.month a < Py.month b \/ (Py.month a = Py.month b /\ Py.day a <= Py.day b))).
Proof.
  unfold Py.dt_leb, Py.dt_compare, Py.dt_fields. cbn [Py.lex_compare].
  destruct (Nat.compare_spec (Py.year a) (Py.year b)); [ | lia | discriminate ].
  destruct (Nat.compare_spec (Py.month a) (Py.month b)); [ | lia | discriminate ].
  destruct (Nat.compare_spec (Py.day a) (Py.day b)); [ lia | lia | discriminate ].
Qed.

Ltac by_digits :=
  repeat match goal with
  | |- context [Nat.compare (?x mod 10) (?y mod 10)] =>
      destruct (Nat.compare_spec (x mod 10) (y mod 10))
  end; try reflexivity; exfalso; lia.

(** On the range of the date columns, the text [YYYY-MM-DD] orders as the
    datetimes do. *)
Lemma strftime_date_mono (a b : Py.datetime) :
  Py.sql_datetime_ok a -> Py.sql_datetime_ok b ->
  Py.dt_leb a b = true ->
  String.leb (Py.strftime_date a) (Py.strftime_date b) = true.
Proof.
  intros (Hya & Hma & Hda) (Hyb & Hmb & Hdb) Hle.
  apply date_order_of_dt_leb in Hle.
  unfold Py.strftime_date, Py.pad4, Py.pad2, String.leb.
  cbn [append String.compare].
  rewrite !digit_char_compare, !ascii_compare_refl.
  by_digits.
Qed.

(** ** Text *)





(** ** The timeline *)

Lemma log_events_Forall2 (d : database) (logs : list LogEntry.t)
    (es : list (list (string * Py.json))) :
  log_events d logs = Some es ->
  Forall2 (fun log e => log_event d log = Some e) logs es.
Proof.
  revert es. induction logs as [|log rest IH]; simpl; intros es H.
  - injection H as <-. constructor.
  - destruct (log_event d log) as [e|] eqn:He; [| discriminate].
    destruct (log_events d rest) as [es'|]; [| discriminate].
    injection H as <-. constructor; [exact He | apply IH; reflexivity].
Qed.

Lemma log_events_total (d : database) (logs : list LogEntry.t) :
  (forall log, In log logs ->
     Query.get User.id (LogEntry.student_id log) (users d) <> None) ->
  exists es, log_events d logs = Some es.
Proof.
  induction logs as [|log rest IH]; simpl; intros H.
  - eexists; reflexivity.
  - destruct IH as [es Hes]; [intros; apply H; right; assumption |].
    rewrite Hes. unfold log_event.
    destruct (Query.get User.id (LogEntry.student_id log) (users d)) eqn:Hu.
    + eexists; reflexivity.
    + exfalso. apply (H log); [left; reflexivity | exact Hu].
Qed.

Lemma log_event_fields (d : database) (log : LogEntry.t) (e : list (string * Py.json)) :
  log_event d log = Some e ->
  event_field e "start" = Py.strftime_date (LogEntry.created_at log) /\
  Py.dict_get e "description" = Py.JStr (description_of (LogEntry.content log)) /\
  Py.dict_get e "className" = Py.JStr "log-entry".
Proof.
  unfold log_event.
  destruct (Query.get User.id (LogEntry.student_id log) (users d)); [| discriminate].
  intros H. injection H as <-. repeat split.
Qed.


Lemma Sorted_Forall2 {A B : Type} (R : A -> A -> Prop) (R' : B -> B -> Prop)
    (Q : A -> B -> Prop) (l : list A) (l' : list B) :
  Forall2 Q l l' ->
  (forall a b a' b', In a l -> In b l -> Q a a' -> Q b b' -> R a b -> R' a' b') ->
  Sorted R l -> Sorted R' l'.
Proof.
  intros HQ. induction HQ as [|x x' r r' Hx Hr IH]; intros Hm Hs.
  - constructor.
  - apply Sorted_inv in Hs. destruct Hs as [Hs Hhd]. constructor.
    + apply IH; [| exact Hs]. intros a b a' b' Ha Hb. apply Hm; right; assumption.
    + destruct Hr as [|y y' t t' Hy Ht]; constructor.
      apply HdRel_inv in Hhd.
      apply (Hm x y); [left; reflexivity | right; left; reflexivity | | | ]; assumption.
Qed.


Lemma in_group_logs (d : database) (gid : nat) (log : LogEntry.t) :
  In log (Query.order_by_asc LogEntry.created_at (group_logs d gid)) ->
  In log (log_entries d) /\ LogEntry.group_id log = gid.
Proof.
  intros H. apply (Permutation_in _ (order_by_asc_perm _ _)) in H.
  unfold group_logs in H. apply filter_In in H. destruct H as [Hin Hg].
  split; [exact Hin | now apply Nat.eqb_eq].
Qed.

Lemma in_group_assignments (d : database) (gid : nat) (a : Assignment.t) :
  In a (Query.order_by_asc Assignment.due_date (group_assignments d gid)) ->
  In a (assignments d) /\ Assignment.group_id a = gid.
Proof.
  intros H. apply (Permutation_in _ (order_by_asc_perm _ _)) in H.
  unfold group_assignments in H. apply filter_In in H. destruct H as [Hin Hg].
  split; [exact Hin | now apply Nat.eqb_eq].
Qed.


(** C1, as amended: for a caller with access to the group, whose log
    entries have authors and whose dates lie in the range of the date
    columns, [get_timeline_data] answers with the events of the group's log
    entries in ascending order of their dates, followed by the events of the
    group's assignments in ascending order of their due dates.  Each of the
    two runs is sorted by date; the runs are put one after the other. *)
Theorem timeline_two_ascending_runs (w : world) (u : User.t) (gid : nat) :
  timeline_access (db w) u gid = true ->
  (forall log, In log (log_entries (db w)) -> LogEntry.group_id log = gid ->
     Query.get User.id (LogEntry.student_id log) (users (db w)) <> None /\
     Py.sql_datetime_ok (LogEntry.created_at log)) ->
  (forall a, In a (assignments (db w)) -> Assignment.group_id a = gid ->
     Py.sql_datetime_ok (Assignment.due_date a)) ->
  exists logs asgs log_evs,
    Permutation logs (group_logs (db w) gid) /\
    Permutation asgs (group_assignments (db w) gid) /\
    Forall2 (fun log e => log_event (db w) log = Some e) logs log_evs /\
    get_timeline_data w u gid
      = mk_result
          (jsonify 200 (Py.JList (map Py.JDict (log_evs ++ map assignment_event asgs)%list)))
          [] w /\
    Sorted event_date_le log_evs /\
    Sorted event_date_le (map assignment_event asgs).
Proof.
  intros Hacc Hlogs Hasgs.
  set (logs := Query.order_by_asc LogEntry.created_at (group_logs (db w) gid)).
  set (asgs := Query.order_by_asc Assignment.due_date (group_assignments (db w) gid)).
  destruct (log_events_total (db w) logs) as [es Hes].
  { intros log Hin. apply in_group_logs in Hin. destruct Hin as [Hin Hg].
    apply (Hlogs log Hin Hg). }
  pose proof (log_events_Forall2 _ _ _ Hes) as HF.
  exists logs, asgs, es. repeat split.
  - apply order_by_asc_perm.
  - apply order_by_asc_perm.
  - exact HF.
  - unfold get_timeline_data, timeline_data. rewrite Hacc. simpl.
    fold (group_logs (db w) gid). fold (group_assignments (db w) gid).
    fold logs. fold asgs. rewrite Hes. reflexivity.
  - apply (Sorted_Forall2
             (fun a b => Py.dt_leb (LogEntry.created_at a) (LogEntry.created_at b) = true)
             event_date_le
             (fun log e => log_event (db w) log = Some e) logs es HF).
    + intros a b a' b' Ha Hb Qa Qb Hab. unfold event_date_le.
      apply log_event_fields in Qa. apply log_event_fields in Qb.
      destruct Qa as [-> _]. destruct Qb as [-> _].
      apply in_group_logs in Ha. apply in_group_logs in Hb.
      apply strftime_date_mono; [apply Hlogs | apply Hlogs | exact Hab]; tauto.
    + apply order_by_asc_sorted.
  - apply (Sorted_map_in
             (fun a b => Py.dt_leb (Assignment.due_date a) (Assignment.due_date b) = true)).
    + intros a b Ha Hb Hab. unfold event_date_le.
      apply in_group_assignments in Ha. apply in_group_assignments in Hb.
      apply strftime_date_mono; [apply Hasgs | apply Hasgs | exact Hab]; tauto.
    + apply order_by_asc_sorted.
Qed.

Lemma timeline_two_ascending_runs_witness :
  timeline_access (db Sample.w0) Sample.bob 1 = true /\
  exists logs asgs log_evs,
    Permutation logs (group_logs (db Sample.w0) 1) /\
    Permutation asgs (group_assignments (db Sample.w0) 1) /\
    Forall2 (fun log e => log_event (db Sample.w0) log = Some e) logs log_evs /\
    get_timeline_data Sample.w0 Sample.bob 1
      = mk_result
          (jsonify 200 (Py.JList (map Py.JDict (log_evs ++ map assignment_event asgs)%list)))
          [] Sample.w0 /\
    Sorted event_date_le log_evs /\
    Sorted event_date_le (map assignment_event asgs).
Proof.
  split; [reflexivity |].
  apply (timeline_two_ascending_runs Sample.w0 Sample.bob 1).
  - reflexivity.
  - intros log [<- | [<- | []]] _; (split; [discriminate |]);
      unfold Py.sql_datetime_ok; simpl; lia.
  - intros a [<- | [<- | [<- | []]]] _; unfold Py.sql_datetime_ok; simpl; lia.
Defined.

(** C1, as stated, fails: in the sample group a log entry of 1 February
    precedes an assignment due on 1 January in the answer. *)
Lemma timeline_not_ascending :
  get_timeline_data Sample.w0 Sample.bob 1
    = mk_result (jsonify 200 (Py.JList (map Py.JDict Sample.timeline))) [] Sample.w0 /\
  map (fun e => event_field e "start") Sample.timeline
    = ["2024-01-15"; "2024-02-01"; "2024-01-01"; "2024-06-01"; "2024-07-01"] /\
  ~ Sorted event_date_le Sample.timeline.
Proof.
  split; [reflexivity |]. split; [reflexivity |].
  intros H. apply Sorted_inv in H. destruct H as [H _].
  apply Sorted_inv in H. destruct H as [_ Hd].
  apply HdRel_inv in Hd. discriminate Hd.
Qed.



(** ** Grading *)

(** Past the checks of role, assignment and ownership, the answer of
    [grade_assignment] is decided by the validation of the grade, the lookup
    of the submission and the binding of the feedback. *)
Lemma grade_assignment_owner (rt : Runtime) (w : world) (u : User.t) (aid : nat)
    (data : list (string * Py.json)) :
  owns_assignment (db w) u aid ->
  grade_assignment rt w u aid (grading_request data)
  = match validate_grade rt (Py.dict_get data "grade") with
    | inr r => mk_result r [] w
    | inl grade_value =>
        if negb (bindable (Py.dict_get data "student_id")) then
          mk_result (unhandled Py.DatabaseError) [] w
        else
          match submission_for (db w) aid (Py.dict_get data "student_id") with
          | None => mk_result (jsonify 404 (error_body "Submission not found")) [] w
          | Some submission =>
              if bindable (Py.dict_get_default data "feedback" (Py.JStr "")) then
                mk_result (jsonify 200 (message_body "Grade updated successfully")) []
                  (set_db w (update_submission (db w) submission grade_value
                               (Py.dict_get_default data "feedback" (Py.JStr ""))))
              else mk_result (jsonify 500 (error_body "Database error occurred")) [] w
          end
    end.
Proof.
  intros (Hrole & assignment & group & Ha & Hg & Ht).
  unfold grade_assignment. rewrite Hrole, Ha, Hg, Ht, Nat.eqb_refl. reflexivity.
Qed.

Lemma find_map_replace {A : Type} (pk : A -> nat) (k : nat) (row : A) (l : list A) :
  pk row = k -> (exists s, In s l /\ pk s = k) ->
  find (fun r => pk r =? k) (map (fun s => if pk s =? k then row else s) l) = Some row.
Proof.
  intros Hrow (s & Hs & Hk). induction l as [|x r IH]; [destruct Hs |].
  simpl. destruct (Nat.eqb_spec (pk x) k) as [Hx | Hx].
  - rewrite Hrow, Nat.eqb_refl. reflexivity.
  - destruct (Nat.eqb_spec (pk x) k); [contradiction |].
    apply IH. destruct Hs as [-> | Hs]; [contradiction | exact Hs].
Qed.

(** After the update the row of the submission carries the new grade. *)
Lemma stored_grade_update (d : database) (aid : nat) (student_id : Py.json)
    (sub : Submission.t) (grade_value : option Py.float) (feedback : Py.json) :
  submission_for d aid student_id = Some sub ->
  stored_grade (update_submission d sub grade_value feedback) (Submission.id sub)
  = Some grade_value.
Proof.
  intros Hsub. apply find_some in Hsub. destruct Hsub as [Hin _].
  unfold stored_grade, update_submission, Query.get. cbn [submissions].
  rewrite (find_map_replace Submission.id); [reflexivity | reflexivity |].
  exists sub. split; [exact Hin | reflexivity].
Qed.

(** A grade that Python takes for false is not validated: nothing is to be
    stored. *)
Lemma validate_grade_falsy (rt : Runtime) (grade : Py.json) :
  Py.truthy grade && Py.ne_empty_str grade = false ->
  validate_grade rt grade = inl None.
Proof. intros H. unfold validate_grade. rewrite H. reflexivity. Qed.



Lemma grade_cleared (rt : Runtime) (w : world) (u : User.t) (aid : nat)
    (data : list (string * Py.json)) (sub : Submission.t) :
  owns_assignment (db w) u aid ->
  Py.truthy (Py.dict_get data "grade") && Py.ne_empty_str (Py.dict_get data "grade") = false ->
  bindable (Py.dict_get data "student_id") = true ->
  submission_for (db w) aid (Py.dict_get data "student_id") = Some sub ->
  bindable (Py.dict_get_default data "feedback" (Py.JStr "")) = true ->
  grade_assignment rt w u aid (grading_request data)
  = mk_result (jsonify 200 (message_body "Grade updated successfully")) []
      (set_db w (update_submission (db w) sub None
                   (Py.dict_get_default data "feedback" (Py.JStr "")))) /\
  stored_grade (db (after (grade_assignment rt w u aid (grading_request data))))
    (Submission.id sub) = Some None.
Proof.
  intros Hown Hfalsy Hsid Hsub Hfb.
  assert (Heq : grade_assignment rt w u aid (grading_request data)
    = mk_result (jsonify 200 (message_body "Grade updated successfully")) []
      (set_db w (update_submission (db w) sub None
                   (Py.dict_get_default data "feedback" (Py.JStr ""))))).
  { rewrite (grade_assignment_owner rt w u aid data Hown).
    rewrite (validate_grade_falsy rt _ Hfalsy), Hsid, Hsub, Hfb. reflexivity. }
  split; [exact Heq |]. rewrite Heq. simpl.
  apply (stored_grade_update _ _ _ _ _ _ Hsub).
Qed.


Lemma sample_alice_owns_essay : owns_assignment (db Sample.w0) Sample.alice 1.
Proof.
  split; [reflexivity |]. exists Sample.essay, Sample.cs101. repeat split.
Defined.



(** C9: for a teacher who owns the assignment's group and a submission
    that exists, a grade that is the number 0 is taken for an empty grade:
    the request succeeds and the stored grade is cleared, not set to 0. *)
Theorem grade_zero_clears (rt : Runtime) (w : world) (u : User.t) (aid : nat)
    (data : list (string * Py.json)) (sub : Submission.t) :
  owns_assignment (db w) u aid ->
  (Py.dict_get data "grade" = Py.JInt 0 \/
   exists f, Py.dict_get data "grade" = Py.JFloat f /\ Py.float_eqb f Py.float_zero = true) ->
  bindable (Py.dict_get data "student_id") = true ->
  submission_for (db w) aid (Py.dict_get data "student_id") = Some sub ->
  bindable (Py.dict_get_default data "feedback" (Py.JStr "")) = true ->
  resp (grade_assignment rt w u aid (grading_request data))
  = jsonify 200 (message_body "Grade updated successfully") /\
  stored_grade (db (after (grade_assignment rt w u aid (grading_request data))))
    (Submission.id sub) = Some None /\
  stored_grade (db (after (grade_assignment rt w u aid (grading_request data))))
    (Submission.id sub) <> Some (Some Py.float_zero).
Proof.
  intros Hown Hzero Hsid Hsub Hfb.
  destruct (grade_cleared rt w u aid data sub Hown) as [Heq Hst]; try assumption.
  - destruct Hzero as [-> | (f & -> & Hf)]; simpl; [reflexivity |].
    rewrite Hf. reflexivity.
  - split; [rewrite Heq; reflexivity |]. split; [exact Hst |].
    rewrite Hst. discriminate.
Qed.

Lemma grade_zero_clears_witness :
  owns_assignment (db Sample.w0) Sample.alice 1 /\
  stored_grade (db Sample.w0) 1 = Some (Some (Py.float_of_Z 50 0)) /\
  resp (grade_assignment sample_runtime Sample.w0 Sample.alice 1
          (grading_request [("student_id", Py.JInt 2); ("grade", Py.JInt 0)]))
  = jsonify 200 (message_body "Grade updated successfully") /\
  stored_grade
    (db (after (grade_assignment sample_runtime Sample.w0 Sample.alice 1
                  (grading_request [("student_id", Py.JInt 2); ("grade", Py.JInt 0)]))))
    1 = Some None /\
  stored_grade
    (db (after (grade_assignment sample_runtime Sample.w0 Sample.alice 1
                  (grading_request [("student_id", Py.JInt 2); ("grade", Py.JInt 0)]))))
    1 <> Some (Some Py.float_zero).
Proof.
  split; [exact sample_alice_owns_essay |]. split; [reflexivity |].
  apply (grade_zero_clears sample_runtime Sample.w0 Sample.alice 1
           [("student_id", Py.JInt 2); ("grade", Py.JInt 0)] Sample.bob_essay).
  - exact sample_alice_owns_essay.
  - left. reflexivity.
  - reflexivity.
  - reflexivity.
  - reflexivity.
Defined.

(** ** Uploads *)

Lemma str_in_app (x : string) (l1 l2 : list string) :
  Py.str_in x (l1 ++ l2)%list = Py.str_in x l1 || Py.str_in x l2.
Proof. unfold Py.str_in. apply existsb_app. Qed.

Lemma file_save_in (path : string) (f : filesystem) :
  Py.str_in path (fs_files (file_save path f)) = true.
Proof.
  unfold file_save. destruct (Py.str_in path (fs_files f)) eqn:H; [exact H |].
  cbn [fs_files]. rewrite str_in_app. simpl. rewrite String.eqb_refl.
  now rewrite orb_true_r.
Qed.

(** [save_file] refuses a file exactly when its name is empty or its
    extension is not among [ALLOWED_EXTENSIONS], whatever the subfolder; a
    refused file leaves the file system as it was. *)
Lemma save_file_rejects_iff (rt : Runtime) (now : Py.datetime) (file : FileStorage)
    (subfolder : string) (f : filesystem) :
  (fst (save_file rt now file subfolder f) = None <->
   filename file = "" \/ allowed_file (filename file) = false) /\
  (fst (save_file rt now file subfolder f) = None ->
   snd (save_file rt now file subfolder f) = f).
Proof.
  unfold save_file, file_truthy.
  destruct (String.eqb_spec (filename file) "") as [He | He]; simpl.
  - split; [split; [left; exact He | reflexivity] | reflexivity].
  - destruct (allowed_file (filename file)); simpl.
    + split; [split; [discriminate | intros [H | H]; [contradiction | discriminate]] |
              discriminate].
    + split; [split; [right; reflexivity | reflexivity] | reflexivity].
Qed.

(** C3, at the failing input: [save_file] takes a PDF for the [profiles]
    subfolder and writes it there, as it does for every other subfolder,
    while the check that [register] makes for the same subfolder refuses
    the file; through [update_profile] the PDF becomes the profile picture
    of the sample student. *)
Theorem profile_upload_accepts_pdf (rt : Runtime) (now : Py.datetime) (f : filesystem) :
  let name := Py.strftime_stamp now ++ "_" ++ secure_filename rt "cv.pdf" in
  fst (save_file rt now (mk_file "cv.pdf") "profiles" f)
    = Some ("uploads/profiles/" ++ name) /\
  Py.str_in (Py.path_join (Py.path_join (UPLOAD_FOLDER rt) "profiles") name)
    (fs_files (snd (save_file rt now (mk_file "cv.pdf") "profiles" f))) = true /\
  (forall subfolder,
     fst (save_file rt now (mk_file "cv.pdf") subfolder f)
       = Some ("uploads/" ++ subfolder ++ "/" ++ name)) /\
  register_picture rt now
    (mk_request "POST" [] [("profile_picture", mk_file "cv.pdf")] Py.JNull) f
    = (None, f, [("Please upload an image file (PNG, JPG, GIF)", "warning")]) /\
  (let r := update_profile sample_runtime Sample.now0 Sample.w0 Sample.bob
              Sample.upload_cv in
   flashed r = [("Profile picture updated successfully!", "success");
                ("Profile updated successfully!", "success")] /\
   option_map User.profile_picture (Query.get User.id 2 (users (db (after r))))
     = Some (Some "uploads/profiles/20240301_093000_cv.pdf") /\
   fs_files (fs (after r))
     = ["/srv/journal/static/uploads/profiles/20240301_093000_cv.pdf"]).
Proof.
  intros name. split; [reflexivity |]. split; [| split; [| split]].
  - unfold save_file. simpl. apply file_save_in.
  - intros subfolder. reflexivity.
  - reflexivity.
  - repeat split.
Qed.

(** ** Submissions *)

(** C4: when a submission of the student for the assignment exists, a POST
    to [submit_assignment] by that student, a member of the assignment's
    group, is answered with the notice that the assignment is already
    submitted, and the database and the files, the submissions among them,
    are left as they were. *)
Theorem submit_twice_rejected (rt : Runtime) (now : Py.datetime) (w : world)
    (u : User.t) (aid : nat) (req : request) (assignment : Assignment.t) :
  User.role u = role_student ->
  Query.get Assignment.id aid (assignments (db w)) = Some assignment ->
  membership (db w) (Assignment.group_id assignment) (User.id u) <> None ->
  submission_of (db w) aid (User.id u) <> None ->
  method req = "POST" ->
  submit_assignment rt now w u aid req
  = mk_result (redirect (ep_view_group (Assignment.group_id assignment)))
      [("You have already submitted this assignment", "info")] w /\
  submissions (db (after (submit_assignment rt now w u aid req))) = submissions (db w).
Proof.
  intros Hrole Ha Hm Hsub Hpost.
  assert (Heq : submit_assignment rt now w u aid req
    = mk_result (redirect (ep_view_group (Assignment.group_id assignment)))
        [("You have already submitted this assignment", "info")] w).
  { unfold submit_assignment. rewrite Hrole, Ha. simpl.
    destruct (membership (db w) (Assignment.group_id assignment) (User.id u));
      [| contradiction].
    rewrite Hpost. simpl.
    destruct (submission_of (db w) aid (User.id u)); [reflexivity | contradiction]. }
  split; [exact Heq | rewrite Heq; reflexivity].
Qed.

(** A first submission that succeeds leaves a submission of the student
    for the assignment behind, with the assignment and the membership still
    in place. *)
Lemma submit_then_exists (rt : Runtime) (now : Py.datetime) (w : world) (u : User.t)
    (aid : nat) (req : request) :
  flashed (submit_assignment rt now w u aid req)
    = [("Assignment submitted successfully", "success")] ->
  let w1 := after (submit_assignment rt now w u aid req) in
  assignments (db w1) = assignments (db w) /\
  group_members (db w1) = group_members (db w) /\
  submission_of (db w1) aid (User.id u) <> None /\
  List.length (submissions (db w1)) = S (List.length (submissions (db w))).
Proof.
  unfold submit_assignment.
  destruct (negb (role_eqb (User.role u) role_student)); [discriminate |].
  destruct (Query.get Assignment.id aid (assignments (db w))) as [assignment|];
    [| discriminate].
  destruct (membership (db w) (Assignment.group_id assignment) (User.id u));
    [| discriminate].
  destruct (String.eqb (method req) "POST"); [| discriminate].
  destruct (submission_of (db w) aid (User.id u)) eqn:Hnone; [discriminate |].
  destruct (Py.dict_find "file" (files req)) as [file|]; [| discriminate].
  destruct (String.eqb (filename file) ""); [discriminate |].
  destruct (save_file rt now file "submissions" (fs w)) as [[p|] f1]; [| discriminate].
  intros _. cbn. repeat split.
  - unfold submission_of, Query.first in *. cbn [submissions insert_submission].
    intros H. apply find_none with (x := Submission.mk
        (Query.next_id Submission.id (submissions (db w))) aid (User.id u) p
        (Query.current_timestamp now) None Py.JNull) in H.
    + cbn in H. rewrite !Nat.eqb_refl in H. discriminate.
    + apply in_or_app. right. left. reflexivity.
  - rewrite length_app. simpl. lia.
Qed.

(** ** Joining a group *)

Lemma find_none_filter {A : Type} (p : A -> bool) (l : list A) :
  find p l = None -> filter p l = [].
Proof.
  induction l as [|x r IH]; simpl; [reflexivity |].
  destruct (p x); [discriminate | exact IH].
Qed.

Lemma find_app_last {A : Type} (p : A -> bool) (l : list A) (x : A) :
  p x = true -> find p (l ++ [x]) <> None.
Proof.
  intros Hx H. apply find_none with (x := x) in H; [congruence |].
  apply in_or_app. right. left. reflexivity.
Qed.





(** ** Access of a student without a membership *)

(** C6: a student who has no membership in an existing group is turned
    away from the page of the group, from the creation of a log entry in
    it, and from its timeline, and the state stays as it was: the two pages
    redirect to the dashboard with a message, the timeline answers 403. *)
Theorem non_member_denied (rt : Runtime) (now : Py.datetime) (w : world) (u : User.t)
    (gid : nat) (group : Group.t) :
  User.role u = role_student ->
  Query.get Group.id gid (groups (db w)) = Some group ->
  membership (db w) gid (User.id u) = None ->
  view_group now w u gid
  = mk_result (redirect ep_dashboard) [("You are not a member of this group", "danger")] w /\
  (forall req s,
     method req = "POST" ->
     form_get req "group_id" = Some s ->
     Query.int_of_string s = Some gid ->
     create_log rt now w u req
     = mk_result (redirect ep_dashboard)
         [("You are not a member of this group", "danger")] w) /\
  get_timeline_data w u gid = mk_result (jsonify 403 (error_body "Access denied")) [] w.
Proof.
  intros Hrole Hg Hm. split; [| split].
  - unfold view_group. rewrite Hg, Hrole, Hm. reflexivity.
  - intros req s Hpost Hs Hint. unfold create_log, membership_of_form.
    rewrite Hrole, Hpost, Hs, Hint, Hm. reflexivity.
  - unfold get_timeline_data, timeline_access. rewrite Hrole, Hm. reflexivity.
Qed.

Lemma submit_twice_rejected_witness :
  let first :=
    submit_assignment sample_runtime Sample.now0 Sample.w0 Sample.bob 3 Sample.upload_quiz in
  flashed first = [("Assignment submitted successfully", "success")] /\
  List.length (submissions (db (after first))) = 3 /\
  submit_assignment sample_runtime Sample.now1 (after first) Sample.bob 3 Sample.upload_quiz
  = mk_result (redirect (ep_view_group 1))
      [("You have already submitted this assignment", "info")] (after first) /\
  submissions
    (db (after (submit_assignment sample_runtime Sample.now1 (after first) Sample.bob 3
                  Sample.upload_quiz)))
  = submissions (db (after first)).
Proof.
  intros first. split; [reflexivity |]. split; [reflexivity |].
  apply (submit_twice_rejected sample_runtime Sample.now1 (after first) Sample.bob 3
           Sample.upload_quiz Sample.quiz).
  - reflexivity.
  - reflexivity.
  - discriminate.
  - discriminate.
  - reflexivity.
Defined.


Lemma non_member_denied_witness :
  membership (db Sample.w0) 1 (User.id Sample.carol) = None /\
  view_group Sample.now0 Sample.w0 Sample.carol 1
  = mk_result (redirect ep_dashboard) [("You are not a member of this group", "danger")]
      Sample.w0 /\
  create_log sample_runtime Sample.now0 Sample.w0 Sample.carol Sample.log_to_cs101
  = mk_result (redirect ep_dashboard) [("You are not a member of this group", "danger")]
      Sample.w0 /\
  get_timeline_data Sample.w0 Sample.carol 1
  = mk_result (jsonify 403 (error_body "Access denied")) [] Sample.w0.
Proof.
  destruct (non_member_denied sample_runtime Sample.now0 Sample.w0 Sample.carol 1
              Sample.cs101)
    as (Hview & Hlog & Htimeline).
  - reflexivity.
  - reflexivity.
  - reflexivity.
  - split; [reflexivity |]. split; [exact Hview |]. split; [| exact Htimeline].
    apply (Hlog Sample.log_to_cs101 "1"); reflexivity.
Defined.

(** ** The student dashboard *)

Lemma filter_filter_and {A : Type} (f g : A -> bool) (l : list A) :
  filter f (filter g l) = filter (fun x => g x && f x) l.
Proof.
  induction l as [|x r IH]; simpl; [reflexivity |].
  destruct (g x); simpl; [destruct (f x) |]; now rewrite IH.
Qed.

(** [group_id in group_ids] says that the student has a membership in the
    group. *)
Lemma in_group_ids (d : database) (uid gid : nat) :
  Query.in_ gid
    (map GroupMember.group_id
       (filter (fun gm => GroupMember.student_id gm =? uid) (group_members d)))
  = is_some (membership d gid uid).
Proof.
  unfold membership, Query.first, Query.in_.
  induction (group_members d) as [|m r IH]; simpl; [reflexivity |].
  rewrite (Nat.eqb_sym (GroupMember.group_id m) gid).
  destruct (GroupMember.student_id m =? uid); simpl.
  - destruct (gid =? GroupMember.group_id m); simpl; [reflexivity | exact IH].
  - rewrite andb_false_r. exact IH.
Qed.

(** For an assignment among those handed to the template,
    [submitted_assignment_ids] holds its key exactly when the student has a
    submission for it. *)
Lemma in_submitted_ids (d : database) (uid x : nat) (ids : list nat) :
  Query.in_ x ids = true ->
  Query.in_ x
    (map Submission.assignment_id
       (filter (fun s => (Submission.student_id s =? uid)
                         && Query.in_ (Submission.assignment_id s) ids)
          (submissions d)))
  = is_some (submission_of d x uid).
Proof.
  intros Hx. unfold submission_of, Query.first.
  induction (submissions d) as [|s r IH]; simpl; [reflexivity |].
  destruct (Nat.eqb_spec (Submission.assignment_id s) x) as [He | Hn]; simpl.
  - rewrite He, Hx, andb_true_r.
    destruct (Submission.student_id s =? uid); simpl; [| exact IH].
    unfold Query.in_ at 1. simpl. rewrite He, Nat.eqb_refl. reflexivity.
  - destruct ((Submission.student_id s =? uid)
              && Query.in_ (Submission.assignment_id s) ids); simpl; [| exact IH].
    unfold Query.in_ at 1. simpl.
    destruct (Nat.eqb_spec x (Submission.assignment_id s)); [congruence |]. exact IH.
Qed.

(** C8: for a student, [dashboard] renders the student template, and the
    pending-assignments view of that template lists exactly the assignments
    of the database that belong to a group of the student, are due after
    the time of the request, and have no submission by the student.  The
    handler hands over the assignments of the student's groups that are due
    later, and the keys of those the student has submitted. *)
Theorem dashboard_pending_assignments (now : Py.datetime) (w : world) (u : User.t) :
  User.role u = role_student ->
  exists of_groups handed submitted_ids,
    dashboard now w u
    = mk_result
        (render_template "dashboard/student.html"
           (ctx_student_dashboard of_groups handed submitted_ids now))
        [] w /\
    handed
    = filter (fun a => is_some (membership (db w) (Assignment.group_id a) (User.id u))
                       && Py.dt_ltb now (Assignment.due_date a))
        (assignments (db w)) /\
    (forall a, In a handed ->
       Query.in_ (Assignment.id a) submitted_ids
       = is_some (submission_of (db w) (Assignment.id a) (User.id u))) /\
    pending_assignments
      (ctx_student_dashboard of_groups handed submitted_ids now)
    = filter (pending_for (db w) now u) (assignments (db w)).
Proof.
  intros Hrole. unfold dashboard. rewrite Hrole.
  do 3 eexists. split; [reflexivity |].
  assert (Hasg :
    filter (fun a =>
              Query.in_ (Assignment.group_id a)
                (map GroupMember.group_id
                   (filter (fun gm => GroupMember.student_id gm =? User.id u)
                      (group_members (db w))))
              && Py.dt_ltb now (Assignment.due_date a))
      (assignments (db w))
    = filter (fun a => is_some (membership (db w) (Assignment.group_id a) (User.id u))
                       && Py.dt_ltb now (Assignment.due_date a))
        (assignments (db w))).
  { apply filter_ext. intros a. now rewrite in_group_ids. }
  rewrite Hasg.
  assert (Hids : forall a,
    In a (filter (fun a => is_some (membership (db w) (Assignment.group_id a) (User.id u))
                           && Py.dt_ltb now (Assignment.due_date a))
            (assignments (db w))) ->
    Query.in_ (Assignment.id a)
      (map Submission.assignment_id
         (filter (fun s => (Submission.student_id s =? User.id u)
                           && Query.in_ (Submission.assignment_id s)
                                (map Assignment.id
                                   (filter (fun a =>
                                      is_some (membership (db w) (Assignment.group_id a)
                                                 (User.id u))
                                      && Py.dt_ltb now (Assignment.due_date a))
                                      (assignments (db w)))))
            (submissions (db w))))
    = is_some (submission_of (db w) (Assignment.id a) (User.id u))).
  { intros a Ha. apply in_submitted_ids.
    unfold Query.in_. apply existsb_exists. exists (Assignment.id a).
    split; [apply in_map; exact Ha | apply Nat.eqb_refl]. }
  split; [reflexivity |]. split; [exact Hids |].
  unfold pending_assignments.
  rewrite (filter_ext_in _
             (fun a => negb (is_some (submission_of (db w) (Assignment.id a) (User.id u))))).
  - rewrite filter_filter_and. reflexivity.
  - intros a Ha. now rewrite (Hids a Ha).
Qed.

Lemma dashboard_pending_assignments_witness :
  User.role Sample.bob = role_student /\
  exists of_groups handed submitted_ids,
    dashboard Sample.now0 Sample.w0 Sample.bob
    = mk_result
        (render_template "dashboard/student.html"
           (ctx_student_dashboard of_groups handed submitted_ids Sample.now0))
        [] Sample.w0 /\
    handed = [Sample.project; Sample.quiz] /\
    pending_assignments
      (ctx_student_dashboard of_groups handed submitted_ids Sample.now0)
    = [Sample.quiz].
Proof.
  split; [reflexivity |].
  destruct (dashboard_pending_assignments Sample.now0 Sample.w0 Sample.bob eq_refl)
    as (of_groups & handed & ids & Hd & Ha & _ & Hp).
  exists of_groups, handed, ids. split; [exact Hd |]. split; [exact Ha | exact Hp].
Defined.

(** ** Registration *)

(** C10: a registration that succeeds adds one user whose role is the role
    named in the form, or student when the form names none; and a visitor
    without a session who sends a fresh username and email, a full name,
    matching passwords and any of the three roles, teacher and admin
    included, succeeds. *)
Theorem register_role_unrestricted (rt : Runtime) (now : Py.datetime) (w : world)
    (req : request) :
  method req = "POST" ->
  (resp (register rt now w None req) = redirect ep_login ->
   exists row,
     users (db (after (register rt now w None req))) = (users (db w) ++ [row])%list /\
     role_of_string (form_get_default req "role" "student") = Some (User.role row)) /\
  (forall username email full_name password r,
     form_get req "username" = Some username ->
     form_get req "email" = Some email ->
     form_get req "full_name" = Some full_name ->
     form_get req "password" = Some password ->
     form_get req "confirm_password" = Some password ->
     Query.first (fun u => String.eqb username (User.username u)) (users (db w)) = None ->
     Query.first (fun u => String.eqb email (User.email u)) (users (db w)) = None ->
     role_of_string (form_get_default req "role" "student") = Some r ->
     resp (register rt now w None req) = redirect ep_login /\
     exists row,
       users (db (after (register rt now w None req))) = (users (db w) ++ [row])%list /\
       User.username row = username /\ User.role row = r).
Proof.
  intros Hpost. split.
  - unfold register. rewrite Hpost. simpl.
    destruct (negb (opt_str_eqb _ _)); [discriminate |].
    destruct (Query.first _ _); [discriminate |].
    destruct (Query.first _ _); [discriminate |].
    destruct (register_picture rt now req (fs w)) as [[picture f1] fl].
    destruct (form_get req "password") as [pw|]; [| discriminate].
    unfold insert_user.
    destruct (form_get req "username") as [un|]; [| discriminate].
    destruct (form_get req "email") as [em|]; [| discriminate].
    destruct (form_get req "full_name") as [fn|]; [| discriminate].
    destruct (role_of_string (form_get_default req "role" "student")) as [r|];
      [| discriminate].
    intros _. eexists. split; reflexivity.
  - intros username email full_name password r Hu He Hn Hp Hc Hfu Hfe Hr.
    unfold register. rewrite Hpost, Hu, He, Hn, Hp, Hc. simpl.
    rewrite String.eqb_refl. simpl. rewrite Hfu, Hfe.
    destruct (register_picture rt now req (fs w)) as [[picture f1] fl].
    unfold insert_user. rewrite Hr. simpl.
    split; [reflexivity |]. eexists. repeat split.
Qed.

Lemma register_role_unrestricted_witness :
  method Sample.register_dave = "POST" /\
  resp (register sample_runtime Sample.now0 Sample.w0 None Sample.register_dave)
    = redirect ep_login /\
  exists row,
    users (db (after (register sample_runtime Sample.now0 Sample.w0 None
                        Sample.register_dave)))
      = (users (db Sample.w0) ++ [row])%list /\
    User.username row = "dave" /\ User.role row = role_teacher.
Proof.
  split; [reflexivity |].
  destruct (register_role_unrestricted sample_runtime Sample.now0 Sample.w0
              Sample.register_dave eq_refl) as [_ Hany].
  apply (Hany "dave" "dave@example.org" "Dave D" "pw" role_teacher); reflexivity.
Defined.

(** * Properties of the application *)

(** ** Keys, lookups and tables that grow *)

Lemma get_In {A : Type} (pk : A -> nat) (k : nat) (l : list A) (x : A) :
  Query.get pk k l = Some x -> In x l /\ pk x = k.
Proof.
  unfold Query.get. intros H. apply find_some in H. destruct H as [Hin Hk].
  split; [exact Hin | now apply Nat.eqb_eq].
Qed.

Lemma first_In {A : Type} (p : A -> bool) (l : list A) (x : A) :
  Query.first p l = Some x -> In x l /\ p x = true.
Proof. unfold Query.first. apply find_some. Qed.

Lemma max_ge_all (l : list nat) (x : nat) : In x l -> x <= fold_right Nat.max 0 l.
Proof.
  induction l as [|y r IH]; simpl; [tauto |].
  intros [-> | H]; [lia | specialize (IH H); lia].
Qed.

(** The next key is none of the keys in use. *)
Lemma next_id_fresh {A : Type} (pk : A -> nat) (l : list A) :
  ~ In (Query.next_id pk l) (map pk l).
Proof.
  unfold Query.next_id. intros H. apply max_ge_all in H. lia.
Qed.

Lemma NoDup_snoc {A : Type} (l : list A) (x : A) :
  NoDup l -> ~ In x l -> NoDup (l ++ [x]).
Proof.
  intros Hl Hx. induction Hl as [|y r Hy Hr IH]; simpl.
  - constructor; [tauto | constructor].
  - constructor.
    + intros H. apply in_app_or in H. destruct H as [H | [H | []]].
      * contradiction.
      * subst. apply Hx. left. reflexivity.
    + apply IH. intros H. apply Hx. right. exact H.
Qed.

Lemma keys_snoc {A : Type} (pk : A -> nat) (l : list A) (row : A) :
  NoDup (map pk l) -> pk row = Query.next_id pk l -> NoDup (map pk (l ++ [row])).
Proof.
  intros Hl Hk. rewrite map_app. simpl. apply NoDup_snoc; [exact Hl |].
  rewrite Hk. apply next_id_fresh.
Qed.

(** With unique keys a key names one row. *)
Lemma unique_key {A : Type} (pk : A -> nat) (l : list A) (x y : A) :
  NoDup (map pk l) -> In x l -> In y l -> pk x = pk y -> x = y.
Proof.
  induction l as [|z r IH]; simpl; [tauto |].
  intros Hnd Hx Hy Hk. inversion Hnd as [|? ? Hz Hr]; subst.
  destruct Hx as [-> | Hx], Hy as [-> | Hy].
  - reflexivity.
  - exfalso. apply Hz. rewrite Hk. apply in_map. exact Hy.
  - exfalso. apply Hz. rewrite <- Hk. apply in_map. exact Hx.
  - apply IH; assumption.
Qed.

(** Replacing the row of a key by a row that agrees with it under [f] is
    not seen through [f]. *)
Lemma map_replace_same {A B : Type} (pk : A -> nat) (f : A -> B) (l : list A)
    (x row : A) :
  NoDup (map pk l) -> In x l -> f row = f x ->
  map f (map (fun s => if pk s =? pk x then row else s) l) = map f l.
Proof.
  intros Hnd Hx Hf. rewrite map_map. apply map_ext_in. intros s Hs.
  destruct (Nat.eqb_spec (pk s) (pk x)) as [He | Hn]; [| reflexivity].
  rewrite (unique_key pk l s x Hnd Hs Hx He). exact Hf.
Qed.

Lemma in_replace {A : Type} (pk : A -> nat) (l : list A) (x row y : A) :
  In y (map (fun s => if pk s =? pk x then row else s) l) ->
  y = row \/ In y l.
Proof.
  intros H. apply in_map_iff in H. destruct H as (s & Hs & Hin).
  destruct (pk s =? pk x); [left; now symmetry | right; now subst].
Qed.

Lemma filter_snoc {A : Type} (p : A -> bool) (l : list A) (x : A) :
  filter p (l ++ [x]) = (filter p l ++ if p x then [x] else [])%list.
Proof. rewrite filter_app. simpl. destruct (p x); reflexivity. Qed.

Lemma filter_length_map {A : Type} (p : A -> bool) (h : A -> A) (l : list A) :
  (forall x, In x l -> p (h x) = p x) ->
  List.length (filter p (map h l)) = List.length (filter p l).
Proof.
  induction l as [|x r IH]; simpl; [reflexivity |]. intros H.
  rewrite (H x) by (left; reflexivity).
  destruct (p x); simpl; rewrite IH; auto.
Qed.

Lemma prefix_of_refl {A : Type} (l : list A) : prefix_of l l.
Proof. exists []. now rewrite app_nil_r. Qed.

Lemma prefix_of_app {A : Type} (l more : list A) : prefix_of l (l ++ more).
Proof. exists more. reflexivity. Qed.

Lemma prefix_of_trans {A : Type} (l1 l2 l3 : list A) :
  prefix_of l1 l2 -> prefix_of l2 l3 -> prefix_of l1 l3.
Proof.
  intros [a ->] [b ->]. exists (a ++ b)%list. now rewrite app_assoc.
Qed.

Lemma prefix_of_incl {A : Type} (l l' : list A) : prefix_of l l' -> incl l l'.
Proof. intros [more ->]. apply incl_appl, incl_refl. Qed.

(** ** What the rows point to, as the tables grow *)

Lemma has_role_grow (d d' : database) :
  prefix_of (map user_core (users d)) (map user_core (users d')) ->
  forall k r, has_role d k r -> has_role d' k r.
Proof.
  intros [more Hcore] k r (u & Hu & Hk & Hr).
  assert (Hin : In (user_core u) (map user_core (users d'))).
  { rewrite Hcore. apply in_or_app. left. apply in_map. exact Hu. }
  apply in_map_iff in Hin. destruct Hin as (u' & Hc & Hu').
  exists u'. unfold user_core in Hc. injection Hc as H1 H2 H3 H4 H5.
  repeat split; [exact Hu' | congruence | congruence].
Qed.

Lemma is_member_grow (d d' : database) :
  incl (group_members d) (group_members d') ->
  forall g s, is_member d g s -> is_member d' g s.
Proof. intros Hi g s (m & Hm & H). exists m. split; [apply Hi, Hm | exact H]. Qed.

Lemma teaches_grow (d d' : database) :
  incl (groups d) (groups d') ->
  forall t g, teaches d t g -> teaches d' t g.
Proof. intros Hi t g (grp & Hg & H). exists grp. split; [apply Hi, Hg | exact H]. Qed.

(** The references hold in a database that keeps the users' cores and the
    rows of groups, memberships, log entries and assignments of another in
    which they hold, when its new rows point to rows of its own. *)
Lemma references_grow (d d' : database) :
  references_hold d ->
  prefix_of (map user_core (users d)) (map user_core (users d')) ->
  incl (groups d) (groups d') ->
  incl (group_members d) (group_members d') ->
  incl (log_entries d) (log_entries d') ->
  incl (assignments d) (assignments d') ->
  (forall g, In g (groups d') ->
     In g (groups d) \/ has_role d' (Group.teacher_id g) role_teacher) ->
  (forall m, In m (group_members d') ->
     In m (group_members d) \/
     ((exists g, In g (groups d') /\ Group.id g = GroupMember.group_id m) /\
      has_role d' (GroupMember.student_id m) role_student)) ->
  (forall l, In l (log_entries d') ->
     In l (log_entries d) \/ is_member d' (LogEntry.group_id l) (LogEntry.student_id l)) ->
  (forall a, In a (assignments d') ->
     In a (assignments d) \/ teaches d' (Assignment.teacher_id a) (Assignment.group_id a)) ->
  (forall s, In s (submissions d') ->
     (exists s0, In s0 (submissions d) /\
                 Submission.assignment_id s0 = Submission.assignment_id s /\
                 Submission.student_id s0 = Submission.student_id s) \/
     (exists a, In a (assignments d') /\ Assignment.id a = Submission.assignment_id s /\
                is_member d' (Assignment.group_id a) (Submission.student_id s))) ->
  (forall f, In f (feedbacks d') ->
     In f (feedbacks d) \/
     (exists l, In l (log_entries d') /\ LogEntry.id l = Feedback.log_id f /\
                teaches d' (Feedback.teacher_id f) (LogEntry.group_id l))) ->
  references_hold d'.
Proof.
  intros (Rg & Rm & Rl & Ra & Rs & Rf) Hu Hg Hm Hl Ha Ng Nm Nl Na Ns Nf.
  pose proof (has_role_grow d d' Hu) as Hrole.
  pose proof (is_member_grow d d' Hm) as Hmem.
  pose proof (teaches_grow d d' Hg) as Hteach.
  repeat split.
  - intros g Hin. destruct (Ng g Hin) as [H | H]; [apply Hrole, Rg, H | exact H].
  - destruct (Nm m H) as [H0 | [H0 _]]; [| exact H0].
    destruct (Rm m H0) as [(g & Hg1 & Hg2) _]. exists g. split; [apply Hg, Hg1 | exact Hg2].
  - destruct (Nm m H) as [H0 | [_ H0]]; [| exact H0].
    destruct (Rm m H0) as [_ Hr]. apply Hrole, Hr.
  - intros l Hin. destruct (Nl l Hin) as [H | H]; [apply Hmem, Rl, H | exact H].
  - intros a Hin. destruct (Na a Hin) as [H | H]; [apply Hteach, Ra, H | exact H].
  - intros s Hin. destruct (Ns s Hin) as [(s0 & Hs0 & Ea & Es) | H]; [| exact H].
    destruct (Rs s0 Hs0) as (a & Ha1 & Ha2 & Ha3).
    exists a. split; [apply Ha, Ha1 |]. split; [congruence |].
    rewrite <- Es. apply Hmem, Ha3.
  - intros f Hin. destruct (Nf f Hin) as [H | H]; [| exact H].
    destruct (Rf f H) as (l & Hl1 & Hl2 & Hl3).
    exists l. split; [apply Hl, Hl1 |]. split; [exact Hl2 | apply Hteach, Hl3].
Qed.

(** ** The writes keep the database consistent *)

Ltac same_rows :=
  first [ apply incl_refl
        | apply prefix_of_refl
        | apply incl_appl; apply incl_refl
        | (let x := fresh in let H := fresh in intros x H; left; exact H)
        | (let x := fresh in let H := fresh in
           intros x H; left; exists x; repeat split; exact H) ].

Lemma not_found_not_in (value : string) (column : User.t -> string) (l : list User.t) :
  Query.first (fun u => col_eq (Some value) (column u)) l = None ->
  ~ In value (map column l).
Proof.
  unfold Query.first. intros Hnone Hin. apply in_map_iff in Hin.
  destruct Hin as (u & Hu & Hin).
  apply (find_none _ _ Hnone) in Hin. simpl in Hin. rewrite Hu, String.eqb_refl in Hin.
  discriminate.
Qed.

Lemma insert_user_consistent (now : Py.datetime) (d d' : database)
    (username email full_name : option string) (role password_hash : string)
    (profile_picture : option string) :
  consistent d ->
  insert_user now d username email full_name role password_hash profile_picture = Some d' ->
  Query.first (fun u => col_eq username (User.username u)) (users d) = None ->
  Query.first (fun u => col_eq email (User.email u)) (users d) = None ->
  consistent d'.
Proof.
  intros (K & A & M & S & G & R) Hins Hu He. unfold insert_user in Hins.
  destruct username as [un|]; [| discriminate].
  destruct email as [em|]; [| discriminate].
  destruct full_name as [fn|]; [| discriminate].
  destruct (role_of_string role) as [r|]; [| discriminate].
  injection Hins as <-.
  destruct K as (K1 & K2 & K3 & K4 & K5 & K6 & K7). destruct A as [A1 A2].
  split; [| split; [| split; [| split; [| split]]]].
  - unfold keys_unique. cbn. repeat split; try assumption.
    apply keys_snoc; [exact K1 | reflexivity].
  - unfold accounts_unique. cbn. rewrite !map_app. cbn. split.
    + apply NoDup_snoc; [exact A1 | apply not_found_not_in, Hu].
    + apply NoDup_snoc; [exact A2 | apply not_found_not_in, He].
  - exact M.
  - exact S.
  - exact G.
  - apply (references_grow d); try same_rows; try exact R.
    cbn. rewrite map_app. apply prefix_of_app.
Qed.

Lemma insert_group_consistent (now : Py.datetime) (d d' : database)
    (name description : option string) (teacher_id : nat)
    (join_password project_question : option string) :
  consistent d ->
  insert_group now d name description teacher_id join_password project_question = Some d' ->
  has_role d teacher_id role_teacher ->
  consistent d'.
Proof.
  intros (K & A & M & S & G & R) Hins Ht. unfold insert_group in Hins.
  destruct name as [n|]; [| discriminate].
  destruct join_password as [p|]; [| discriminate].
  injection Hins as <-.
  destruct K as (K1 & K2 & K3 & K4 & K5 & K6 & K7).
  split; [| split; [| split; [| split; [| split]]]];
    [ | exact A | exact M | exact S | exact G | ].
  - unfold keys_unique. cbn. repeat split; try assumption.
    apply keys_snoc; [exact K2 | reflexivity].
  - apply (references_grow d); try same_rows; try exact R.
    cbn. intros g Hg. apply in_app_or in Hg. destruct Hg as [Hg | [<- | []]].
    + left. exact Hg.
    + right. exact Ht.
Qed.

Lemma count_zero_of_none (d : database) (g s : nat) :
  membership d g s = None -> count_memberships d g s = 0.
Proof.
  unfold membership, Query.first, count_memberships. intros H.
  now rewrite (find_none_filter _ _ H).
Qed.

Lemma insert_membership_consistent (now : Py.datetime) (d : database)
    (group : Group.t) (student_id : nat) :
  consistent d ->
  In group (groups d) ->
  has_role d student_id role_student ->
  membership d (Group.id group) student_id = None ->
  consistent (insert_membership now d (Group.id group) student_id).
Proof.
  intros (K & A & M & S & G & R) Hg Hs Hnone.
  destruct K as (K1 & K2 & K3 & K4 & K5 & K6 & K7).
  split; [| split; [| split; [| split; [| split]]]];
    [ | exact A | | exact S | exact G | ].
  - unfold keys_unique. cbn. repeat split; try assumption.
    apply keys_snoc; [exact K3 | reflexivity].
  - intros g s. unfold count_memberships. cbn. rewrite filter_snoc, length_app. cbn.
    destruct (Nat.eqb_spec (Group.id group) g) as [<- | Hn]; cbn.
    + destruct (Nat.eqb_spec student_id s) as [<- | Hn]; cbn.
      * pose proof (count_zero_of_none d _ _ Hnone) as Hz.
        unfold count_memberships in Hz. rewrite Hz. reflexivity.
      * rewrite Nat.add_0_r. apply (M (Group.id group) s).
    + rewrite Nat.add_0_r. apply (M g s).
  - apply (references_grow d); try same_rows; try exact R.
    cbn. intros m Hm. apply in_app_or in Hm. destruct Hm as [Hm | [<- | []]].
    + left. exact Hm.
    + right. cbn. split; [exists group; split; [exact Hg | reflexivity] | exact Hs].
Qed.

Lemma membership_is_member (d : database) (g s : nat) (m : GroupMember.t) :
  membership d g s = Some m -> is_member d g s.
Proof.
  unfold membership. intros H. apply first_In in H. destruct H as [Hin Hp].
  apply andb_true_iff in Hp. destruct Hp as [Hg Hs].
  exists m. split; [exact Hin |]. split; now apply Nat.eqb_eq.
Qed.

Lemma insert_log_entry_consistent (now : Py.datetime) (d d' : database)
    (group_id student_id : nat) (title content media_url : option string) :
  consistent d ->
  insert_log_entry now d group_id student_id title content media_url = Some d' ->
  is_member d group_id student_id ->
  consistent d'.
Proof.
  intros (K & A & M & S & G & R) Hins Hm. unfold insert_log_entry in Hins.
  destruct title as [t|]; [| discriminate].
  destruct content as [c|]; [| discriminate].
  injection Hins as <-.
  destruct K as (K1 & K2 & K3 & K4 & K5 & K6 & K7).
  split; [| split; [| split; [| split; [| split]]]];
    [ | exact A | exact M | exact S | exact G | ].
  - unfold keys_unique. cbn. repeat split; try assumption.
    apply keys_snoc; [exact K4 | reflexivity].
  - apply (references_grow d); try same_rows; try exact R.
    cbn. intros l Hl. apply in_app_or in Hl. destruct Hl as [Hl | [<- | []]].
    + left. exact Hl.
    + right. exact Hm.
Qed.

Lemma insert_assignment_consistent (now : Py.datetime) (d d' : database)
    (group_id teacher_id : nat) (title description question_file : option string)
    (due_date : Py.datetime) :
  consistent d ->
  insert_assignment now d group_id teacher_id title description question_file due_date
    = Some d' ->
  teaches d teacher_id group_id ->
  consistent d'.
Proof.
  intros (K & A & M & S & G & R) Hins Ht. unfold insert_assignment in Hins.
  destruct title as [t|]; [| discriminate].
  destruct description as [c|]; [| discriminate].
  injection Hins as <-.
  destruct K as (K1 & K2 & K3 & K4 & K5 & K6 & K7).
  split; [| split; [| split; [| split; [| split]]]];
    [ | exact A | exact M | exact S | exact G | ].
  - unfold keys_unique. cbn. repeat split; try assumption.
    apply keys_snoc; [exact K5 | reflexivity].
  - apply (references_grow d); try same_rows; try exact R.
    cbn. intros a Ha. apply in_app_or in Ha. destruct Ha as [Ha | [<- | []]].
    + left. exact Ha.
    + right. exact Ht.
Qed.

Lemma count_submissions_zero (d : database) (a s : nat) :
  submission_of d a s = None -> count_submissions d a s = 0.
Proof.
  unfold submission_of, Query.first, count_submissions. intros H.
  now rewrite (find_none_filter _ _ H).
Qed.

Lemma insert_submission_consistent (now : Py.datetime) (d : database)
    (assignment : Assignment.t) (student_id : nat) (file_path : string) :
  consistent d ->
  In assignment (assignments d) ->
  is_member d (Assignment.group_id assignment) student_id ->
  submission_of d (Assignment.id assignment) student_id = None ->
  consistent (insert_submission now d (Assignment.id assignment) student_id file_path).
Proof.
  intros (K & A & M & S & G & R) Ha Hm Hnone.
  destruct K as (K1 & K2 & K3 & K4 & K5 & K6 & K7).
  split; [| split; [| split; [| split; [| split]]]];
    [ | exact A | exact M | | | ].
  - unfold keys_unique. cbn. repeat split; try assumption.
    apply keys_snoc; [exact K6 | reflexivity].
  - intros a s. unfold count_submissions. cbn. rewrite filter_snoc, length_app. cbn.
    destruct (Nat.eqb_spec (Assignment.id assignment) a) as [<- | Hn]; cbn.
    + destruct (Nat.eqb_spec student_id s) as [<- | Hn]; cbn.
      * pose proof (count_submissions_zero d _ _ Hnone) as Hz.
        unfold count_submissions in Hz. rewrite Hz. reflexivity.
      * rewrite Nat.add_0_r. apply (S (Assignment.id assignment) s).
    + rewrite Nat.add_0_r. apply (S a s).
  - intros sub f Hin Hgr. cbn in Hin. apply in_app_or in Hin.
    destruct Hin as [Hin | [<- | []]]; [apply (G sub f Hin Hgr) | discriminate Hgr].
  - apply (references_grow d); try same_rows; try exact R.
    cbn. intros s Hs. apply in_app_or in Hs. destruct Hs as [Hs | [<- | []]].
    + left. exists s. repeat split. exact Hs.
    + right. exists assignment. cbn. repeat split; assumption.
Qed.

Lemma insert_feedback_consistent (now : Py.datetime) (d : database)
    (log_entry : LogEntry.t) (teacher_id : nat) (text : string) :
  consistent d ->
  In log_entry (log_entries d) ->
  teaches d teacher_id (LogEntry.group_id log_entry) ->
  consistent (insert_feedback now d (LogEntry.id log_entry) teacher_id text).
Proof.
  intros (K & A & M & S & G & R) Hl Ht.
  destruct K as (K1 & K2 & K3 & K4 & K5 & K6 & K7).
  split; [| split; [| split; [| split; [| split]]]];
    [ | exact A | exact M | exact S | exact G | ].
  - unfold keys_unique. cbn. repeat split; try assumption.
    apply keys_snoc; [exact K7 | reflexivity].
  - apply (references_grow d); try same_rows; try exact R.
    cbn. intros f Hf. apply in_app_or in Hf. destruct Hf as [Hf | [<- | []]].
    + left. exact Hf.
    + right. exists log_entry. cbn. repeat split; assumption.
Qed.

Lemma update_submission_consistent (d : database) (sub : Submission.t)
    (grade_value : option Py.float) (feedback : Py.json) :
  consistent d ->
  In sub (submissions d) ->
  (forall f, grade_value = Some f -> out_of_range f = false) ->
  consistent (update_submission d sub grade_value feedback).
Proof.
  intros (K & A & M & S & G & R) Hsub Hgrade.
  destruct K as (K1 & K2 & K3 & K4 & K5 & K6 & K7).
  split; [| split; [| split; [| split; [| split]]]];
    [ | exact A | exact M | | | ].
  - unfold keys_unique. cbn. repeat split; try assumption.
    rewrite (map_replace_same Submission.id Submission.id); [exact K6 | exact K6 | exact Hsub
                                                            | reflexivity].
  - intros a s. unfold count_submissions. cbn.
    rewrite filter_length_map; [apply (S a s) |].
    intros x Hx. destruct (Nat.eqb_spec (Submission.id x) (Submission.id sub)) as [He | Hn];
      [| reflexivity].
    rewrite (unique_key Submission.id _ x sub K6 Hx Hsub He). reflexivity.
  - intros s f Hin Hgr. cbn in Hin. apply in_replace in Hin.
    destruct Hin as [-> | Hin]; [apply Hgrade; exact Hgr | apply (G s f Hin Hgr)].
  - apply (references_grow d); try same_rows; try exact R.
    cbn. intros s Hs. left. apply in_replace in Hs. destruct Hs as [-> | Hs].
    + exists sub. repeat split. exact Hsub.
    + exists s. repeat split. exact Hs.
Qed.

Lemma update_user_consistent (d d' : database) (current_user : User.t)
    (full_name email contact_details profile_picture : option string) :
  consistent d ->
  In current_user (users d) ->
  update_user d current_user full_name email contact_details profile_picture = Some d' ->
  consistent d'.
Proof.
  intros (K & A & M & S & G & R) Hcu Hupd. unfold update_user in Hupd.
  destruct full_name as [n|]; [| discriminate].
  destruct email as [e|]; [| discriminate].
  destruct (existsb _ (users d)) eqn:Hother; [discriminate |].
  injection Hupd as <-.
  destruct K as (K1 & K2 & K3 & K4 & K5 & K6 & K7). destruct A as [A1 A2].
  assert (Hcore : forall (B : Type) (f : User.t -> B) row,
            f row = f current_user ->
            map f (map (fun u => if User.id u =? User.id current_user then row else u)
                     (users d)) = map f (users d)).
  { intros B f row Hf. apply (map_replace_same User.id f); assumption. }
  split; [| split; [| split; [| split; [| split]]]];
    [ | | exact M | exact S | exact G | ].
  - unfold keys_unique. cbn. repeat split; try assumption.
    rewrite Hcore; [exact K1 | reflexivity].
  - unfold accounts_unique. cbn. split.
    + rewrite Hcore; [exact A1 | reflexivity].
    + apply in_split in Hcu. destruct Hcu as (l1 & l2 & Hl).
      assert (Hids : forall u, In u (l1 ++ l2) -> User.id u <> User.id current_user).
      { intros u Hu He. rewrite Hl in K1. rewrite map_app in K1. cbn in K1.
        apply NoDup_remove_2 in K1. apply K1. rewrite <- He, <- map_app.
        apply in_map. exact Hu. }
      assert (Hemails : forall u, In u (l1 ++ l2) -> User.email u <> e).
      { intros u Hu He.
        assert (Hfalse : existsb
                  (fun u0 => negb (User.id u0 =? User.id current_user)
                             && String.eqb (User.email u0) e) (users d) = true).
        { apply existsb_exists. exists u. split.
          - rewrite Hl. apply in_app_or in Hu. apply in_or_app.
            destruct Hu as [Hu | Hu]; [left; exact Hu | right; right; exact Hu].
          - destruct (Nat.eqb_spec (User.id u) (User.id current_user)) as [Hi | _];
              [exfalso; apply (Hids u Hu Hi) |].
            cbn. rewrite He. apply String.eqb_refl. }
        congruence. }
      assert (Hsame : forall l, (forall u, In u l -> In u (l1 ++ l2)) ->
                map User.email
                  (map (fun u => if User.id u =? User.id current_user
                                 then User.mk (User.id current_user)
                                        (User.username current_user) e
                                        (User.password_hash current_user)
                                        (User.role current_user) n profile_picture
                                        contact_details (User.created_at current_user)
                                 else u) l) = map User.email l).
      { intros l Hsub. rewrite map_map. apply map_ext_in. intros u Hu.
        destruct (Nat.eqb_spec (User.id u) (User.id current_user)) as [Hi | _];
          [exfalso; apply (Hids u (Hsub u Hu) Hi) | reflexivity]. }
      rewrite Hl, !map_app. cbn. rewrite Nat.eqb_refl. cbn.
      rewrite !Hsame by (intros u Hu; apply in_or_app; tauto).
      rewrite Hl, map_app in A2. cbn in A2.
      apply NoDup_remove_1 in A2.
      apply (Permutation_NoDup (Permutation_middle _ _ e)).
      constructor; [| exact A2].
      intros Hin. rewrite <- map_app in Hin. apply in_map_iff in Hin.
      destruct Hin as (u & Hu & Hin). apply (Hemails u Hin Hu).
  - apply (references_grow d); try same_rows; try exact R.
    cbn. rewrite Hcore; [apply prefix_of_refl | reflexivity].
Qed.

(** ** Every request is one write *)

Lemma write_consistent (actor : option User.t) (d d' : database) :
  consistent d -> write actor d d' -> consistent d'.
Proof.
  intros Hc Hw. destruct Hw.
  - exact Hc.
  - eapply insert_user_consistent; eassumption.
  - eapply insert_group_consistent; [exact Hc | eassumption |].
    exists cu. repeat split; assumption.
  - apply insert_membership_consistent; try assumption.
    exists cu. repeat split; assumption.
  - eapply insert_log_entry_consistent; eassumption.
  - eapply insert_assignment_consistent; [exact Hc | eassumption |].
    exists group. repeat split; assumption.
  - apply insert_submission_consistent; assumption.
  - apply update_submission_consistent; assumption.
  - apply insert_feedback_consistent; assumption.
  - eapply update_user_consistent; eassumption.
Qed.

Lemma write_extends (actor : option User.t) (d d' : database) :
  keys_unique d -> write actor d d' -> extends d d'.
Proof.
  intros (K1 & K2 & K3 & K4 & K5 & K6 & K7) Hw.
  destruct Hw as
    [ | now un em fn role h pic d' _ Hins _ _
      | cu now n de jp pq d' _ _ _ Hins
      | cu now group _ _ _ _ _
      | cu now g t c m d' _ _ _ _ Hins
      | cu now group t de q due d' _ _ _ _ _ Hins
      | cu now a p _ _ _ _ _ _
      | cu a sub gv fb _ _ _ _ _ Hsub _ _
      | cu now l text _ _ _ _ _
      | cu fn em cd pic d' _ Hcu Hupd ].
  - repeat split; apply prefix_of_refl.
  - unfold insert_user in Hins.
    destruct un, em, fn, (role_of_string role); try discriminate.
    injection Hins as <-. unfold extends. cbn. rewrite map_app.
    repeat split; try apply prefix_of_refl. apply prefix_of_app.
  - unfold insert_group in Hins. destruct n, jp; try discriminate.
    injection Hins as <-. unfold extends. cbn.
    repeat split; try apply prefix_of_refl. apply prefix_of_app.
  - unfold extends. cbn. repeat split; try apply prefix_of_refl. apply prefix_of_app.
  - unfold insert_log_entry in Hins. destruct t, c; try discriminate.
    injection Hins as <-. unfold extends. cbn.
    repeat split; try apply prefix_of_refl. apply prefix_of_app.
  - unfold insert_assignment in Hins. destruct t, de; try discriminate.
    injection Hins as <-. unfold extends. cbn.
    repeat split; try apply prefix_of_refl. apply prefix_of_app.
  - unfold extends. cbn. rewrite map_app.
    repeat split; try apply prefix_of_refl. apply prefix_of_app.
  - unfold extends. cbn.
    rewrite (map_replace_same Submission.id submission_core); try assumption;
      [| reflexivity].
    repeat split; apply prefix_of_refl.
  - unfold extends. cbn. repeat split; try apply prefix_of_refl. apply prefix_of_app.
  - unfold update_user in Hupd. destruct fn, em; try discriminate.
    destruct (existsb _ (users d)); [discriminate |].
    injection Hupd as <-. unfold extends. cbn.
    rewrite (map_replace_same User.id user_core); try assumption; [| reflexivity].
    repeat split; apply prefix_of_refl.
Qed.

Lemma extends_refl (d : database) : extends d d.
Proof. repeat split; apply prefix_of_refl. Qed.

Lemma extends_trans (d1 d2 d3 : database) :
  extends d1 d2 -> extends d2 d3 -> extends d1 d3.
Proof.
  intros (A1 & A2 & A3 & A4 & A5 & A6 & A7) (B1 & B2 & B3 & B4 & B5 & B6 & B7).
  repeat split; eapply prefix_of_trans; eassumption.
Qed.

Lemma role_eqb_eq (a b : role_t) : role_eqb a b = true <-> a = b.
Proof. destruct a, b; simpl; split; congruence. Qed.

Lemma role_checked (a b : role_t) : negb (role_eqb a b) = false -> a = b.
Proof. intros H. apply role_eqb_eq. now apply negb_false_iff. Qed.

Lemma owner_checked (a b : nat) : negb (a =? b) = false -> a = b.
Proof. intros H. apply Nat.eqb_eq. now apply negb_false_iff. Qed.

Ltac break :=
  match goal with
  | |- context [match ?x with _ => _ end] => destruct x eqn:?
  end.

(** A grade that passes the validation lies in the range. *)
Lemma validate_grade_range (rt : Runtime) (grade : Py.json) (f : Py.float) :
  validate_grade rt grade = inl (Some f) -> out_of_range f = false.
Proof.
  unfold validate_grade, out_of_range.
  destruct (Py.truthy grade && Py.ne_empty_str grade); [| discriminate].
  destruct (Py.py_float (float_of_str rt) grade) as [g | e].
  - destruct (Py.float_ltb g Py.float_zero || Py.float_ltb Py.float_100 g) eqn:Hr;
      [discriminate |].
    intros H. injection H as <-. exact Hr.
  - destruct e; discriminate.
Qed.

Lemma submission_for_In (d : database) (aid : nat) (student_id : Py.json)
    (sub : Submission.t) :
  submission_for d aid student_id = Some sub ->
  In sub (submissions d) /\ Submission.assignment_id sub = aid.
Proof.
  unfold submission_for. intros H. apply first_In in H. destruct H as [Hin Hp].
  apply andb_true_iff in Hp. destruct Hp as [Ha _].
  split; [exact Hin | now apply Nat.eqb_eq].
Qed.

Section Writes.

Variable rt : Runtime.
Variable lib : Library.

Lemma register_write (now : Py.datetime) (w : world) (current_user : option User.t)
    (req : request) :
  write current_user (db w) (db (after (register rt now w current_user req))).
Proof.
  unfold register. destruct current_user as [u|]; [apply write_nothing |].
  repeat break; cbn [after db set_fs]; try apply write_nothing.
  eapply write_user; [reflexivity | eassumption | assumption | assumption].
Qed.

Lemma join_group_write (now : Py.datetime) (w : world) (cu : User.t) (req : request) :
  In cu (users (db w)) ->
  write (Some cu) (db w) (db (after (join_group now w cu req))).
Proof.
  intros Hcu. unfold join_group.
  repeat break; cbn [after db set_db]; try apply write_nothing.
  match goal with H : Query.first _ _ = Some _ |- _ => apply first_In in H; destruct H end.
  apply write_membership with (cu := cu); try assumption; try reflexivity.
  now apply role_checked.
Qed.

Lemma create_log_write (now : Py.datetime) (w : world) (cu : User.t) (req : request) :
  In cu (users (db w)) ->
  write (Some cu) (db w) (db (after (create_log rt now w cu req))).
Proof.
  intros Hcu. unfold create_log.
  repeat break; cbn [after db set_db set_fs]; try apply write_nothing.
  match goal with H : membership_of_form _ _ _ = Some _ |- _ =>
    unfold membership_of_form in H end.
  repeat match goal with
  | H : match ?x with _ => _ end = Some _ |- _ => destruct x eqn:?; try discriminate
  end.
  match goal with H : Some _ = Some _ |- _ => injection H as <- <- end.
  eapply write_log_entry with (cu := cu); try eassumption; try reflexivity.
  - now apply role_checked.
  - eapply membership_is_member. eassumption.
Qed.

Lemma submit_assignment_write (now : Py.datetime) (w : world) (cu : User.t)
    (aid : nat) (req : request) :
  In cu (users (db w)) ->
  write (Some cu) (db w) (db (after (submit_assignment rt now w cu aid req))).
Proof.
  intros Hcu. unfold submit_assignment.
  repeat break; cbn [after db set_db set_fs]; try apply write_nothing.
  match goal with H : Query.get _ _ _ = Some _ |- _ => apply get_In in H; destruct H end.
  subst aid.
  apply write_submission with (cu := cu); try assumption; try reflexivity.
  - now apply role_checked.
  - eapply membership_is_member. eassumption.
Qed.

Lemma grade_assignment_write (w : world) (cu : User.t) (aid : nat) (req : request) :
  In cu (users (db w)) ->
  write (Some cu) (db w) (db (after (grade_assignment rt w cu aid req))).
Proof.
  intros Hcu. unfold grade_assignment.
  repeat break; cbn [after db set_db set_fs]; try apply write_nothing.
  repeat match goal with
  | H : Query.get _ _ _ = Some _ |- _ => apply get_In in H; destruct H
  | H : submission_for _ _ _ = Some _ |- _ => apply submission_for_In in H; destruct H
  end.
  eapply write_grade with (cu := cu); try eassumption; try reflexivity.
  - now apply role_checked.
  - eexists. split; [eassumption |]. split; [assumption |]. now apply owner_checked.
  - congruence.
  - intros f ->. eapply validate_grade_range. eassumption.
Qed.

Lemma update_profile_write (now : Py.datetime) (w : world) (cu : User.t) (req : request) :
  In cu (users (db w)) ->
  write (Some cu) (db w) (db (after (update_profile rt now w cu req))).
Proof.
  intros Hcu. unfold update_profile.
  repeat break; cbn [after db set_db set_fs]; try apply write_nothing.
  eapply write_profile; [reflexivity | exact Hcu | eassumption].
Qed.

Lemma create_group_write (now : Py.datetime) (w : world) (cu : User.t) (req : request) :
  In cu (users (db w)) ->
  write (Some cu) (db w) (db (state (create_group now w cu req))).
Proof.
  intros Hcu. unfold create_group.
  repeat break; cbn [state db set_db set_fs]; try apply write_nothing.
  eapply write_group; [reflexivity | exact Hcu | now apply role_checked | eassumption].
Qed.

Lemma create_assignment_write (now : Py.datetime) (w : world) (cu : User.t)
    (req : request) :
  In cu (users (db w)) ->
  write (Some cu) (db w) (db (state (create_assignment rt lib now w cu req))).
Proof.
  intros Hcu. unfold create_assignment.
  repeat break; cbn [state db set_db set_fs]; try apply write_nothing.
  match goal with H : group_of_form _ _ = Some _ |- _ => unfold group_of_form in H end.
  repeat match goal with
  | H : match ?x with _ => _ end = Some _ |- _ => destruct x eqn:?; try discriminate
  end.
  match goal with H : Query.get _ _ _ = Some _ |- _ => apply get_In in H; destruct H end.
  eapply write_assignment with (cu := cu); try eassumption; try reflexivity.
  - now apply role_checked.
  - now apply owner_checked.
Qed.

Lemma add_feedback_write (now : Py.datetime) (w : world) (cu : User.t) (log_id : nat)
    (req : request) :
  In cu (users (db w)) ->
  write (Some cu) (db w) (db (state (add_feedback lib now w cu log_id req))).
Proof.
  intros Hcu. unfold add_feedback.
  repeat break; cbn [state db set_db set_fs]; try apply write_nothing.
  repeat match goal with
  | H : Query.get _ _ _ = Some _ |- _ => apply get_In in H; destruct H
  end.
  subst log_id.
  apply write_feedback with (cu := cu); try assumption; try reflexivity.
  - now apply role_checked.
  - eexists. split; [eassumption |]. split; [assumption |]. now apply owner_checked.
Qed.

Lemma load_user_In (d : database) (session : option nat) (u : User.t) :
  load_user d session = Some u -> In u (users d).
Proof.
  unfold load_user. destruct session as [k|]; [| discriminate].
  intros H. apply get_In in H. tauto.
Qed.

Lemma login_state (w : world) (current_user : option User.t) (req : request)
    (next_page : option string) :
  state (fst (login lib w current_user req next_page)) = w.
Proof. unfold login. repeat break; reflexivity. Qed.

Lemma serve_login_state (now : Py.datetime) (w : world) (session : option nat)
    (req : request) (next_page : option string) :
  state (fst (serve rt lib now w session (route_login req next_page))) = w.
Proof.
  unfold serve.
  pose proof (login_state w (load_user (db w) session) req next_page) as H.
  destruct (login lib w (load_user (db w) session) req next_page) as [o [user|]];
    exact H.
Qed.

(** Every request leaves the database as it is, or makes one of the
    writes, with the user of the session as the actor. *)
Lemma serve_write (now : Py.datetime) (w : world) (session : option nat) (r : route) :
  write (load_user (db w) session) (db w)
    (db (state (fst (serve rt lib now w session r)))).
Proof.
  destruct r; try (rewrite serve_login_state; apply write_nothing);
    unfold serve; cbn [fst]; unfold post_only, login_required, require_login, lift, index;
    destruct (load_user (db w) session) as [cu|] eqn:Hload;
    try pose proof (load_user_In _ _ _ Hload) as Hcu;
    try break; cbn [state after fst]; try apply write_nothing.
  - apply register_write.
  - unfold dashboard. repeat break; apply write_nothing.
  - now apply create_group_write.
  - now apply join_group_write.
  - unfold view_group. repeat break; apply write_nothing.
  - now apply create_log_write.
  - unfold view_assignment. repeat break; apply write_nothing.
  - now apply create_assignment_write.
  - now apply submit_assignment_write.
  - now apply grade_assignment_write.
  - unfold view_log. repeat break; apply write_nothing.
  - now apply add_feedback_write.
  - unfold generate_report. repeat break; apply write_nothing.
  - unfold get_timeline_data. repeat break; apply write_nothing.
  - now apply update_profile_write.
Qed.

End Writes.

(** ** What holds after every sequence of requests *)

Lemma empty_consistent : consistent empty_database.
Proof.
  unfold consistent, keys_unique, accounts_unique, single_membership, single_submission,
    grades_in_range, references_hold, count_memberships, count_submissions. cbn.
  repeat split; try constructor; try (intros; contradiction); lia.
Qed.

Lemma run_consistent (rt : Runtime) (lib : Library) (trace : list (Py.datetime * route))
    (w : world) (session : option nat) :
  consistent (db w) -> consistent (db (fst (run rt lib trace w session))).
Proof.
  revert w session. induction trace as [|[now r] rest IH]; intros w session Hc.
  - exact Hc.
  - cbn [run]. pose proof (serve_write rt lib now w session r) as Hw.
    destruct (serve rt lib now w session r) as [o session1]. cbn [fst] in Hw.
    apply IH. eapply write_consistent; eassumption.
Qed.

Lemma handle_consistent (rt : Runtime) (lib : Library)
    (traffic : list (Py.datetime * option nat * route)) (w : world) :
  consistent (db w) -> consistent (db (handle rt lib traffic w)).
Proof.
  revert w. induction traffic as [|[[now session] r] rest IH]; intros w Hc.
  - exact Hc.
  - cbn [handle]. apply IH.
    eapply write_consistent; [exact Hc | apply serve_write].
Qed.

Lemma handle_extends (rt : Runtime) (lib : Library)
    (traffic : list (Py.datetime * option nat * route)) (w : world) :
  consistent (db w) -> extends (db w) (db (handle rt lib traffic w)).
Proof.
  revert w. induction traffic as [|[[now session] r] rest IH]; intros w Hc.
  - apply extends_refl.
  - cbn [handle].
    apply extends_trans with (d2 := db (state (fst (serve rt lib now w session r)))).
    + eapply write_extends; [apply Hc | apply serve_write].
    + apply IH. eapply write_consistent; [exact Hc | apply serve_write].
Qed.

(** X1: from a consistent database, after every sequence of requests no two
    rows of a table share a primary key. *)
Theorem keys_stay_unique (rt : Runtime) (lib : Library)
    (traffic : list (Py.datetime * option nat * route)) (w : world) :
  consistent (db w) -> keys_unique (db (handle rt lib traffic w)).
Proof. intros Hc. apply (handle_consistent rt lib traffic w Hc). Qed.

Lemma keys_stay_unique_witness :
  consistent (db empty_world) /\ keys_unique (db Session.busy).
Proof.
  split; [exact empty_consistent |].
  apply (keys_stay_unique sample_runtime sample_library Session.traffic empty_world).
  exact empty_consistent.
Defined.

(** X2: from a consistent database, after every sequence of requests no two
    users share a username, and no two share an email. *)
Theorem accounts_stay_unique (rt : Runtime) (lib : Library)
    (traffic : list (Py.datetime * option nat * route)) (w : world) :
  consistent (db w) -> accounts_unique (db (handle rt lib traffic w)).
Proof. intros Hc. apply (handle_consistent rt lib traffic w Hc). Qed.

Lemma accounts_stay_unique_witness :
  consistent (db empty_world) /\ accounts_unique (db Session.busy).
Proof.
  split; [exact empty_consistent |].
  apply (accounts_stay_unique sample_runtime sample_library Session.traffic empty_world).
  exact empty_consistent.
Defined.

(** X3: from a consistent database, after every sequence of requests a
    student has at most one membership row in a group. *)
Theorem memberships_stay_single (rt : Runtime) (lib : Library)
    (traffic : list (Py.datetime * option nat * route)) (w : world) :
  consistent (db w) -> single_membership (db (handle rt lib traffic w)).
Proof. intros Hc. apply (handle_consistent rt lib traffic w Hc). Qed.

Lemma memberships_stay_single_witness :
  consistent (db empty_world) /\ single_membership (db Session.busy) /\
  count_memberships (db Session.busy) 1 2 = 1.
Proof.
  split; [exact empty_consistent |]. split; [| reflexivity].
  apply (memberships_stay_single sample_runtime sample_library Session.traffic
           empty_world).
  exact empty_consistent.
Defined.

(** X4: from a consistent database, after every sequence of requests a
    student has at most one submission row for an assignment. *)
Theorem submissions_stay_single (rt : Runtime) (lib : Library)
    (traffic : list (Py.datetime * option nat * route)) (w : world) :
  consistent (db w) -> single_submission (db (handle rt lib traffic w)).
Proof. intros Hc. apply (handle_consistent rt lib traffic w Hc). Qed.

Lemma submissions_stay_single_witness :
  consistent (db empty_world) /\ single_submission (db Session.busy) /\
  count_submissions (db Session.busy) 1 2 = 1.
Proof.
  split; [exact empty_consistent |]. split; [| reflexivity].
  apply (submissions_stay_single sample_runtime sample_library Session.traffic
           empty_world).
  exact empty_consistent.
Defined.

(** X5: from a consistent database, after every sequence of requests every
    stored grade is one that the two comparisons of the validation let
    pass: it is not below 0 and not above 100. *)
Theorem grades_stay_in_range (rt : Runtime) (lib : Library)
    (traffic : list (Py.datetime * option nat * route)) (w : world) :
  consistent (db w) -> grades_in_range (db (handle rt lib traffic w)).
Proof. intros Hc. apply (handle_consistent rt lib traffic w Hc). Qed.

Lemma grades_stay_in_range_witness :
  consistent (db empty_world) /\ grades_in_range (db Session.busy) /\
  stored_grade (db Session.busy) 1 = Some (Some (Py.float_of_Z 90 0)).
Proof.
  split; [exact empty_consistent |]. split; [| reflexivity].
  apply (grades_stay_in_range sample_runtime sample_library Session.traffic empty_world).
  exact empty_consistent.
Defined.

(** X6: from a consistent database, after every sequence of requests every
    group has a teacher for its owner, every membership joins a student to
    a group, every log entry is by a member of its group, every assignment
    is by the teacher of its group, every submission is by a member of the
    assignment's group, and every feedback is by the teacher of the log
    entry's group. *)
Theorem references_stay (rt : Runtime) (lib : Library)
    (traffic : list (Py.datetime * option nat * route)) (w : world) :
  consistent (db w) -> references_hold (db (handle rt lib traffic w)).
Proof. intros Hc. apply (handle_consistent rt lib traffic w Hc). Qed.

Lemma references_stay_witness :
  consistent (db empty_world) /\ references_hold (db Session.busy).
Proof.
  split; [exact empty_consistent |].
  apply (references_stay sample_runtime sample_library Session.traffic empty_world).
  exact empty_consistent.
Defined.

(** X7: from a consistent database, requests remove and rewrite nothing: every table keeps its rows in place and grows at its
    end only, where a user row keeps its key, username, password hash,
    role and creation time, and a submission row its key, assignment,
    student, file path and time. *)
Theorem nothing_is_taken_back (rt : Runtime) (lib : Library)
    (traffic : list (Py.datetime * option nat * route)) (w : world) :
  consistent (db w) -> extends (db w) (db (handle rt lib traffic w)).
Proof. intros Hc. apply (handle_extends rt lib traffic w Hc). Qed.

Lemma nothing_is_taken_back_witness :
  consistent (db empty_world) /\ extends (db empty_world) (db Session.busy).
Proof.
  split; [exact empty_consistent |].
  apply (nothing_is_taken_back sample_runtime sample_library Session.traffic
           empty_world).
  exact empty_consistent.
Defined.

(** ** Who may change what *)

Lemma in_snoc {A : Type} (l : list A) (x y : A) : In y (l ++ [x]) -> In y l \/ y = x.
Proof.
  intros H. apply in_app_or in H. destruct H as [H | [H | []]]; [now left | now right].
Qed.

Lemma actor_is (cu cu0 : User.t) : Some cu = Some cu0 -> cu0 = cu.
Proof. congruence. Qed.

Ltac clash_roles :=
  match goal with
  | Ha : Some ?a = Some ?b, H1 : User.role ?a = _, H2 : User.role ?b = _ |- _ =>
      apply actor_is in Ha; subst; rewrite H1 in H2; discriminate
  | Ha : Some _ = None |- _ => discriminate Ha
  | Ha : None = Some _ |- _ => discriminate Ha
  end.

Ltac inserted H :=
  match type of H with
  | insert_user _ _ ?a ?b ?c ?r _ _ = Some _ =>
      unfold insert_user in H; destruct a, b, c, (role_of_string r); try discriminate H;
      injection H as <-
  | insert_group _ _ ?a _ _ ?b _ = Some _ =>
      unfold insert_group in H; destruct a, b; try discriminate H; injection H as <-
  | insert_log_entry _ _ _ _ ?a ?b _ = Some _ =>
      unfold insert_log_entry in H; destruct a, b; try discriminate H; injection H as <-
  | insert_assignment _ _ _ _ ?a ?b _ _ = Some _ =>
      unfold insert_assignment in H; destruct a, b; try discriminate H; injection H as <-
  | update_user ?d _ ?a ?b _ _ = Some _ =>
      unfold update_user in H; destruct a, b; try discriminate H;
      destruct (existsb _ (users d)); [discriminate H |]; injection H as <-
  end.

(** X8: a request of a logged-in student changes no group, no assignment, no
    feedback and no stored submission (so no grade); a membership, a log
    entry or a submission it adds is the student's own. *)
Theorem student_writes_own_rows (rt : Runtime) (lib : Library) (now : Py.datetime)
    (w : world) (session : option nat) (r : route) (cu : User.t) :
  load_user (db w) session = Some cu -> User.role cu = role_student ->
  let d := db w in
  let d' := db (state (fst (serve rt lib now w session r))) in
  groups d' = groups d /\ assignments d' = assignments d /\ feedbacks d' = feedbacks d /\
  prefix_of (submissions d) (submissions d') /\
  (forall m, In m (group_members d') ->
     In m (group_members d) \/ GroupMember.student_id m = User.id cu) /\
  (forall l, In l (log_entries d') ->
     In l (log_entries d) \/ LogEntry.student_id l = User.id cu) /\
  (forall s, In s (submissions d') ->
     In s (submissions d) \/ Submission.student_id s = User.id cu).
Proof.
  intros Hload Hrole d d'. pose proof (serve_write rt lib now w session r) as Hw.
  rewrite Hload in Hw. fold d d' in Hw. clearbody d d'.
  destruct Hw as
    [ | ? ? ? ? ? ? ? ? Ha Hins ? ?
      | ? ? ? ? ? ? ? Ha ? Hr Hins
      | ? ? ? Ha ? Hr ? ?
      | ? ? ? ? ? ? ? Ha ? Hr ? Hins
      | ? ? ? ? ? ? ? ? Ha ? Hr ? ? Hins
      | ? ? ? ? Ha ? Hr ? ? ?
      | ? ? ? ? ? Ha ? Hr ? ? ? ? ?
      | ? ? ? ? Ha ? Hr ? ?
      | ? ? ? ? ? ? Ha ? Hins ]; try clash_roles.
  - repeat split; auto using prefix_of_refl.
  - apply actor_is in Ha; subst. cbn.
    repeat split; auto using prefix_of_refl.
    intros m Hm. apply in_snoc in Hm. destruct Hm as [Hm | ->]; [now left | now right].
  - apply actor_is in Ha; subst. inserted Hins. cbn.
    repeat split; auto using prefix_of_refl.
    intros l Hl. apply in_snoc in Hl. destruct Hl as [Hl | ->]; [now left | now right].
  - apply actor_is in Ha; subst. cbn.
    repeat split; auto using prefix_of_refl, prefix_of_app.
    intros s Hs. apply in_snoc in Hs. destruct Hs as [Hs | ->]; [now left | now right].
  - inserted Hins. cbn. repeat split; auto using prefix_of_refl.
Qed.

Lemma student_writes_own_rows_witness :
  (exists cu, load_user (db Session.final) (Some 2) = Some cu /\
              User.role cu = role_student) /\
  groups (db (state (fst (serve sample_runtime sample_library (Session.t 20)
                            Session.final (Some 2)
                            (route_create_group Session.new_group)))))
    = groups (db Session.final).
Proof.
  split; [eexists; split; reflexivity |].
  eapply (student_writes_own_rows sample_runtime sample_library (Session.t 20)
            Session.final (Some 2) (route_create_group Session.new_group));
    reflexivity.
Defined.

(** X9: a request of a logged-in teacher changes no membership and no log
    entry.  A group it adds is the teacher's own; an assignment it adds is
    the teacher's and lies in a group of the teacher; a submission row it
    leaves is a row from before, or such a row with a new grade and feedback
    whose assignment lies in a group of the teacher; a feedback it adds is
    the teacher's, on a log entry of a group of the teacher. *)
Theorem teacher_writes_own_groups (rt : Runtime) (lib : Library) (now : Py.datetime)
    (w : world) (session : option nat) (r : route) (cu : User.t) :
  load_user (db w) session = Some cu -> User.role cu = role_teacher ->
  let d := db w in
  let d' := db (state (fst (serve rt lib now w session r))) in
  group_members d' = group_members d /\ log_entries d' = log_entries d /\
  (forall g, In g (groups d') -> In g (groups d) \/ Group.teacher_id g = User.id cu) /\
  (forall a, In a (assignments d') ->
     In a (assignments d) \/
     (Assignment.teacher_id a = User.id cu /\
      teaches d (User.id cu) (Assignment.group_id a))) /\
  (forall s', In s' (submissions d') ->
     In s' (submissions d) \/
     exists s a, In s (submissions d) /\ submission_core s' = submission_core s /\
                 In a (assignments d) /\ Assignment.id a = Submission.assignment_id s /\
                 teaches d (User.id cu) (Assignment.group_id a)) /\
  (forall f, In f (feedbacks d') ->
     In f (feedbacks d) \/
     (Feedback.teacher_id f = User.id cu /\
      exists l, In l (log_entries d) /\ LogEntry.id l = Feedback.log_id f /\
                teaches d (User.id cu) (LogEntry.group_id l))).
Proof.
  intros Hload Hrole d d'. pose proof (serve_write rt lib now w session r) as Hw.
  rewrite Hload in Hw. fold d d' in Hw. clearbody d d'.
  destruct Hw as
    [ | ? ? ? ? ? ? ? ? Ha Hins ? ?
      | ? ? ? ? ? ? ? Ha ? Hr Hins
      | ? ? ? Ha ? Hr ? ?
      | ? ? ? ? ? ? ? Ha ? Hr ? Hins
      | ? ? group ? ? ? ? ? Ha ? Hr Hg Ht Hins
      | ? ? ? ? Ha ? Hr ? ? ?
      | ? assignment sub ? ? Ha ? Hr Hasg Hteach Hsub Hsa ?
      | ? ? log_entry ? Ha ? Hr Hl Hteach
      | ? ? ? ? ? ? Ha ? Hins ]; try clash_roles.
  - repeat split; auto.
  - apply actor_is in Ha; subst. inserted Hins. cbn. repeat split; auto.
    intros g Hg. apply in_snoc in Hg. destruct Hg as [Hg | ->]; [now left | now right].
  - apply actor_is in Ha; subst. inserted Hins. cbn. repeat split; auto.
    intros a Hin. apply in_snoc in Hin. destruct Hin as [Hin | ->]; [now left | right].
    cbn. split; [reflexivity |]. exists group.
    split; [assumption |]. split; [reflexivity | assumption].
  - apply actor_is in Ha; subst. cbn. repeat split; auto.
    intros s' Hs'. apply in_replace in Hs'. destruct Hs' as [-> | Hs']; [right | now left].
    exists sub, assignment.
    split; [assumption |]. split; [reflexivity |]. split; [assumption |].
    split; [now symmetry | assumption].
  - apply actor_is in Ha; subst. cbn. repeat split; auto.
    intros f Hf. apply in_snoc in Hf. destruct Hf as [Hf | ->]; [now left | right].
    cbn. split; [reflexivity |]. exists log_entry.
    split; [assumption |]. split; [reflexivity | assumption].
  - inserted Hins. cbn. repeat split; auto.
Qed.

Lemma teacher_writes_own_groups_witness :
  (exists cu, load_user (db Session.final) (Some 1) = Some cu /\
              User.role cu = role_teacher) /\
  group_members (db (state (fst (serve sample_runtime sample_library (Session.t 20)
                                   Session.final (Some 1)
                                   (route_join_group Session.join)))))
    = group_members (db Session.final).
Proof.
  split; [eexists; split; reflexivity |].
  eapply (teacher_writes_own_groups sample_runtime sample_library (Session.t 20)
            Session.final (Some 1) (route_join_group Session.join));
    reflexivity.
Defined.

(** X10: a request of a logged-in user adds no user row and changes no
    row of another user: the keys of the users stay as they are, and a
    row that is new differs from the row of the user who sent the request
    in full name, email, contact details and picture at most. *)
Theorem accounts_of_others_untouched (rt : Runtime) (lib : Library) (now : Py.datetime)
    (w : world) (session : option nat) (r : route) (cu : User.t) :
  load_user (db w) session = Some cu ->
  let d := db w in
  let d' := db (state (fst (serve rt lib now w session r))) in
  map User.id (users d') = map User.id (users d) /\
  (forall u, In u (users d') -> In u (users d) \/ user_core u = user_core cu).
Proof.
  intros Hload d d'. pose proof (serve_write rt lib now w session r) as Hw.
  rewrite Hload in Hw. fold d d' in Hw. clearbody d d'.
  destruct Hw as
    [ | ? ? ? ? ? ? ? ? Ha Hins ? ?
      | ? ? ? ? ? ? ? Ha ? Hr Hins
      | ? ? ? Ha ? Hr ? ?
      | ? ? ? ? ? ? ? Ha ? Hr ? Hins
      | ? ? ? ? ? ? ? ? Ha ? Hr ? ? Hins
      | ? ? ? ? Ha ? Hr ? ? ?
      | ? ? ? ? ? Ha ? Hr ? ? ? ? ?
      | ? ? ? ? Ha ? Hr ? ?
      | ? ? ? ? ? ? Ha ? Hins ]; try discriminate Ha;
    try (inserted Hins); cbn; try (split; [reflexivity | intros u Hu; now left]).
  apply actor_is in Ha; subst. split.
  - rewrite map_map. apply map_ext. intros u.
    destruct (Nat.eqb_spec (User.id u) (User.id cu)) as [He | Hn]; [now rewrite He | easy].
  - intros u Hu. apply in_replace in Hu. destruct Hu as [-> | Hu]; [now right | now left].
Qed.

Lemma accounts_of_others_untouched_witness :
  (exists cu, load_user (db Session.final) (Some 2) = Some cu) /\
  map User.id
    (users (db (state (fst (serve sample_runtime sample_library (Session.t 20)
                              Session.final (Some 2)
                              (route_register Session.register_teacher))))))
    = map User.id (users (db Session.final)).
Proof.
  split; [eexists; reflexivity |].
  eapply (accounts_of_others_untouched sample_runtime sample_library (Session.t 20)
            Session.final (Some 2) (route_register Session.register_teacher));
    reflexivity.
Defined.

(** X11: a request of a logged-in admin changes no table but that of the
    users. *)
Theorem admin_writes_no_table (rt : Runtime) (lib : Library) (now : Py.datetime)
    (w : world) (session : option nat) (r : route) (cu : User.t) :
  load_user (db w) session = Some cu -> User.role cu = role_admin ->
  let d := db w in
  let d' := db (state (fst (serve rt lib now w session r))) in
  groups d' = groups d /\ group_members d' = group_members d /\
  log_entries d' = log_entries d /\ assignments d' = assignments d /\
  submissions d' = submissions d /\ feedbacks d' = feedbacks d.
Proof.
  intros Hload Hrole d d'. pose proof (serve_write rt lib now w session r) as Hw.
  rewrite Hload in Hw. fold d d' in Hw. clearbody d d'.
  destruct Hw as
    [ | ? ? ? ? ? ? ? ? Ha Hins ? ?
      | ? ? ? ? ? ? ? Ha ? Hr Hins
      | ? ? ? Ha ? Hr ? ?
      | ? ? ? ? ? ? ? Ha ? Hr ? Hins
      | ? ? ? ? ? ? ? ? Ha ? Hr ? ? Hins
      | ? ? ? ? Ha ? Hr ? ? ?
      | ? ? ? ? ? Ha ? Hr ? ? ? ? ?
      | ? ? ? ? Ha ? Hr ? ?
      | ? ? ? ? ? ? Ha ? Hins ]; try clash_roles.
  - repeat split.
  - inserted Hins. repeat split.
Qed.

(** X12: a request of a visitor who is not logged in leaves the database
    and the files as they are, unless it is a registration; a registration
    changes no table but that of the users, which it leaves as it is or
    adds one row to, at the end. *)
Theorem visitor_can_only_register (rt : Runtime) (lib : Library) (now : Py.datetime)
    (w : world) (session : option nat) (r : route) :
  load_user (db w) session = None ->
  let w' := state (fst (serve rt lib now w session r)) in
  ((forall req, r <> route_register req) -> w' = w) /\
  groups (db w') = groups (db w) /\ group_members (db w') = group_members (db w) /\
  log_entries (db w') = log_entries (db w) /\ assignments (db w') = assignments (db w) /\
  submissions (db w') = submissions (db w) /\ feedbacks (db w') = feedbacks (db w) /\
  (users (db w') = users (db w) \/ exists u, users (db w') = (users (db w) ++ [u])%list).
Proof.
  intros Hload w'. split.
  - intros Hr. subst w'.
    destruct r; try (exfalso; eapply Hr; reflexivity);
      try apply serve_login_state;
      unfold serve; rewrite Hload; cbn [fst]; unfold post_only, index;
      try break; reflexivity.
  - pose proof (serve_write rt lib now w session r) as Hw.
    rewrite Hload in Hw. fold w' in Hw. clearbody w'.
    destruct Hw as
      [ | ? ? ? ? ? ? ? ? Ha Hins ? ?
        | ? ? ? ? ? ? ? Ha ? Hr Hins
        | ? ? ? Ha ? Hr ? ?
        | ? ? ? ? ? ? ? Ha ? Hr ? Hins
        | ? ? ? ? ? ? ? ? Ha ? Hr ? ? Hins
        | ? ? ? ? Ha ? Hr ? ? ?
        | ? ? ? ? ? Ha ? Hr ? ? ? ? ?
        | ? ? ? ? Ha ? Hr ? ?
        | ? ? ? ? ? ? Ha ? Hins ]; try discriminate Ha.
    + repeat split. now left.
    + inserted Hins. cbn. repeat split. right. eexists. reflexivity.
Qed.

Lemma visitor_can_only_register_witness :
  load_user (db Session.final) None = None /\
  state (fst (serve sample_runtime sample_library (Session.t 20) Session.final None
                (route_create_group Session.new_group))) = Session.final.
Proof.
  split; [reflexivity |].
  apply (visitor_can_only_register sample_runtime sample_library (Session.t 20)
           Session.final None (route_create_group Session.new_group)).
  - reflexivity.
  - discriminate.
Defined.

Lemma admin_writes_no_table_witness :
  (exists cu, load_user (db Session.office) (Some 3) = Some cu /\
              User.role cu = role_admin) /\
  groups (db (state (fst (serve sample_runtime sample_library (Session.t 20)
                            Session.office (Some 3)
                            (route_create_group Session.new_group)))))
    = groups (db Session.office).
Proof.
  split; [eexists; split; reflexivity |].
  eapply (admin_writes_no_table sample_runtime sample_library (Session.t 20)
            Session.office (Some 3) (route_create_group Session.new_group));
    reflexivity.
Defined.

(** X13: a request changes the session in two ways only: a logout ends it,
    and a login of a visitor who is not logged in starts one, for the first
    user with the username of the form, when the password of the form
    checks against the stored hash of that user. *)
Theorem session_changes_by_login_and_logout (rt : Runtime) (lib : Library)
    (now : Py.datetime) (w : world) (session : option nat) (r : route) :
  let session' := snd (serve rt lib now w session r) in
  session' = session \/
  (r = route_logout /\ session' = None) \/
  (exists req next_page user,
     r = route_login req next_page /\ load_user (db w) session = None /\
     Query.first (fun u => col_eq (form_get req "username") (User.username u))
       (users (db w)) = Some user /\
     check_password_hash lib (User.password_hash user) (form_get req "password")
       = Some true /\
     session' = Some (User.id user)).
Proof.
  destruct r; cbn; try (now left).
  - unfold login. destruct (load_user (db w) session) eqn:Hload; [now left |].
    destruct (String.eqb (method req) "POST"); [| now left].
    destruct (Query.first _ (users (db w))) as [user|] eqn:Hfirst; [| now left].
    destruct (check_password_hash lib _ _) as [[|]|] eqn:Hcheck; try (now left).
    right. right. exists req, next_page, user. repeat split; assumption.
  - destruct (load_user (db w) session); [right; left; now split | now left].
Qed.

(** ** Accounts *)

Lemma find_app_none {A : Type} (p : A -> bool) (l : list A) (x : A) :
  find p l = None -> p x = true -> find p (l ++ [x]) = Some x.
Proof.
  intros Hl Hx. induction l as [|y r IH]; simpl in *.
  - now rewrite Hx.
  - destruct (p y); [discriminate | now apply IH].
Qed.

Lemma find_app_some {A : Type} (p : A -> bool) (l more : list A) (x : A) :
  find p l = Some x -> find p (l ++ more) = Some x.
Proof.
  induction l as [|y r IH]; simpl; [discriminate |].
  destruct (p y); [trivial | exact IH].
Qed.

(** What a registration that ends in the redirect to the login page has
    read and written. *)
Lemma register_done (rt : Runtime) (now : Py.datetime) (w : world) (req : request) :
  resp (register rt now w None req) = redirect ep_login ->
  exists u e n r p row,
    form_get req "username" = Some u /\ form_get req "email" = Some e /\
    form_get req "full_name" = Some n /\ form_get req "password" = Some p /\
    role_of_string (form_get_default req "role" "student") = Some r /\
    Query.first (fun x => String.eqb u (User.username x)) (users (db w)) = None /\
    Query.first (fun x => String.eqb e (User.email x)) (users (db w)) = None /\
    User.id row = Query.next_id User.id (users (db w)) /\
    User.username row = u /\ User.email row = e /\ User.full_name row = n /\
    User.role row = r /\ User.password_hash row = generate_password_hash rt p /\
    db (after (register rt now w None req))
      = mk_database (users (db w) ++ [row])%list (groups (db w)) (group_members (db w))
          (log_entries (db w)) (assignments (db w)) (submissions (db w))
          (feedbacks (db w)).
Proof.
  unfold register.
  destruct (String.eqb (method req) "POST"); [| discriminate].
  destruct (negb _); [discriminate |].
  destruct (Query.first _ (users (db w))) eqn:Hu; [discriminate |].
  destruct (Query.first (fun u => col_eq (form_get req "email") _) (users (db w))) eqn:He;
    [discriminate |].
  destruct (register_picture rt now req (fs w)) as [[pic f1] fl].
  destruct (form_get req "password") as [p|]; [| discriminate].
  unfold insert_user.
  destruct (form_get req "username") as [u|]; [| discriminate].
  destruct (form_get req "email") as [e|]; [| discriminate].
  destruct (form_get req "full_name") as [n|]; [| discriminate].
  destruct (role_of_string _) as [r|]; [| discriminate].
  intros _. eexists u, e, n, r, p, _. cbn [after db].
  repeat split; try reflexivity; assumption.
Qed.

(** X14: after a registration that succeeded, a login with the username and
    the password of the registration opens a session for the new user,
    provided the password checks against the hash made of it. *)
Theorem register_then_login (rt : Runtime) (lib : Library) (now later : Py.datetime)
    (w : world) (req login_req : request) (next_page : option string)
    (username password : string) :
  resp (register rt now w None req) = redirect ep_login ->
  form_get req "username" = Some username ->
  form_get req "password" = Some password ->
  check_password_hash lib (generate_password_hash rt password) (Some password)
    = Some true ->
  method login_req = "POST" ->
  form_get login_req "username" = Some username ->
  form_get login_req "password" = Some password ->
  snd (run rt lib [(now, route_register req); (later, route_login login_req next_page)]
         w None)
    = Some (Query.next_id User.id (users (db w))).
Proof.
  intros Hok Hu Hp Hcheck Hm Hlu Hlp.
  destruct (register_done rt now w req Hok)
    as (u & e & n & r & p & row & Hu' & _ & _ & Hp' & _ & Hfree & _ & Hid & Hname & _ & _
        & _ & Hhash & Hdb).
  rewrite Hu in Hu'. injection Hu' as <-. rewrite Hp in Hp'. injection Hp' as <-.
  cbn [run serve load_user lift state].
  unfold login. cbn [load_user]. rewrite Hm, Hlu, Hlp, Hdb. cbn [users].
  rewrite String.eqb_refl.
  unfold Query.first. rewrite (find_app_none _ _ row).
  - rewrite Hhash, Hcheck. cbn. now rewrite Hid.
  - exact Hfree.
  - cbn. rewrite Hname. apply String.eqb_refl.
Qed.

Lemma register_then_login_witness :
  snd (run sample_runtime sample_library
         [(Session.t 1, route_register Session.register_teacher);
          (Session.t 2, route_login Session.login_teacher None)] empty_world None)
    = Some 1.
Proof.
  apply (register_then_login sample_runtime sample_library (Session.t 1) (Session.t 2)
           empty_world Session.register_teacher Session.login_teacher None
           "tina" "t-pw"); reflexivity.
Defined.

(** X15: after a registration that succeeded, a registration with the same
    username or with the same email is answered with the form again and
    leaves the database and the files as they are. *)
Theorem register_again_refused (rt : Runtime) (now later : Py.datetime) (w : world)
    (req again : request) :
  resp (register rt now w None req) = redirect ep_login ->
  method again = "POST" ->
  form_get again "username" = form_get req "username" \/
  form_get again "email" = form_get req "email" ->
  let w1 := after (register rt now w None req) in
  resp (register rt later w1 None again) = render_template "auth/register.html" ctx_none /\
  after (register rt later w1 None again) = w1.
Proof.
  intros Hok Hm Hsame w1.
  destruct (register_done rt now w req Hok)
    as (u & e & n & r & p & row & Hu & He & _ & _ & _ & _ & _ & _ & Hname & Hmail & _
        & _ & _ & Hdb).
  fold w1 in Hdb. unfold register. rewrite Hm, String.eqb_refl.
  destruct (negb _); [split; reflexivity |].
  destruct (Query.first _ (users (db w1))) eqn:Hfu; [split; reflexivity |].
  destruct (Query.first (fun x => col_eq (form_get again "email") _) (users (db w1)))
    eqn:Hfe; [split; reflexivity |].
  exfalso. rewrite Hdb in Hfu, Hfe. cbn [users] in Hfu, Hfe.
  destruct Hsame as [Hs | Hs]; rewrite Hs in *.
  - apply (find_app_last _ (users (db w)) row) in Hfu; [exact Hfu |].
    rewrite Hu. cbn. rewrite Hname. apply String.eqb_refl.
  - apply (find_app_last _ (users (db w)) row) in Hfe; [exact Hfe |].
    rewrite He. cbn. rewrite Hmail. apply String.eqb_refl.
Qed.

Lemma register_again_refused_witness :
  resp (register sample_runtime (Session.t 2)
          (after (register sample_runtime (Session.t 1) empty_world None
                    Session.register_teacher))
          None Session.register_teacher)
    = render_template "auth/register.html" ctx_none.
Proof.
  apply (register_again_refused sample_runtime (Session.t 1) (Session.t 2) empty_world
           Session.register_teacher Session.register_teacher);
    [reflexivity | reflexivity | left; reflexivity].
Defined.

(** ** Uploaded files *)

Lemma rsplit1_tail_none (c : ascii) (s : string) :
  Py.rsplit1_tail c s = None <-> Py.contains_char c s = false.
Proof.
  induction s as [|d r IH]; simpl; [tauto |].
  destruct (Py.rsplit1_tail c r) as [t|].
  - split; [discriminate |]. intros H. apply orb_false_iff in H.
    destruct H as [_ H]. apply IH in H. discriminate.
  - destruct (Ascii.eqb c d); simpl; [split; discriminate |].
    split; intros _; [now apply IH | reflexivity].
Qed.

Lemma rsplit1_tail_some (c : ascii) (s t : string) :
  Py.rsplit1_tail c s = Some t <->
  exists stem, s = stem ++ String c t /\ Py.contains_char c t = false.
Proof.
  split.
  - revert t. induction s as [|d r IH]; simpl; [discriminate |]. intros t.
    destruct (Py.rsplit1_tail c r) as [t'|] eqn:Hr.
    + intros H. injection H as ->. destruct (IH t eq_refl) as (stem & -> & Hc).
      exists (String d stem). split; [reflexivity | exact Hc].
    + destruct (Ascii.eqb_spec c d) as [<- | _]; [| discriminate].
      intros H. injection H as ->. exists "". split; [reflexivity |].
      now apply rsplit1_tail_none.
  - intros (stem & -> & Hc). induction stem as [|d stem IH]; simpl.
    + apply rsplit1_tail_none in Hc. rewrite Hc, Ascii.eqb_refl. reflexivity.
    + rewrite IH. reflexivity.
Qed.

Lemma contains_char_app (c : ascii) (a b : string) :
  Py.contains_char c (a ++ b) = Py.contains_char c a || Py.contains_char c b.
Proof.
  induction a as [|d a IH]; simpl; [reflexivity |]. rewrite IH. apply orb_assoc.
Qed.

Lemma str_in_In (x : string) (xs : list string) : Py.str_in x xs = true <-> In x xs.
Proof.
  unfold Py.str_in. rewrite existsb_exists. split.
  - intros (y & Hy & He). apply String.eqb_eq in He. now subst.
  - intros H. exists x. split; [exact H | apply String.eqb_refl].
Qed.

(** X16: [allowed_file] accepts exactly the names that end in a dot and
    an extension without a dot which is, in lower case, one of the eight
    extensions of the list. *)
Theorem allowed_file_iff (filename : string) :
  allowed_file filename = true <->
  exists stem ext,
    filename = stem ++ "." ++ ext /\ Py.contains_char "." ext = false /\
    In (Py.lower ext) ALLOWED_EXTENSIONS.
Proof.
  unfold allowed_file. split.
  - intros H. apply andb_true_iff in H. destruct H as [_ H].
    destruct (Py.rsplit1_tail "." filename) as [ext|] eqn:Ht; [| discriminate].
    apply rsplit1_tail_some in Ht. destruct Ht as (stem & -> & Hc).
    exists stem, ext. split; [reflexivity |]. split; [exact Hc | now apply str_in_In].
  - intros (stem & ext & -> & Hc & Hin).
    assert (Ht : Py.rsplit1_tail "." (stem ++ "." ++ ext) = Some ext).
    { apply rsplit1_tail_some. exists stem. split; [reflexivity | exact Hc]. }
    rewrite Ht, contains_char_app. cbn [append Py.contains_char].
    rewrite Ascii.eqb_refl, orb_true_r. cbn [andb orb]. now apply str_in_In.
Qed.

(** *** Files are kept *)

Lemma makedirs_files (dir : string) (f : filesystem) :
  fs_files (makedirs dir f) = fs_files f.
Proof. unfold makedirs. destruct (Py.str_in dir (fs_dirs f)); reflexivity. Qed.











(** ** Grading again, and what the student sees *)

Lemma find_map_first {A : Type} (p : A -> bool) (pk : A -> nat) (l : list A)
    (x row : A) :
  find p l = Some x -> p row = true ->
  find p (map (fun s => if pk s =? pk x then row else s) l) = Some row.
Proof.
  intros Hf Hrow. induction l as [|y r IH]; simpl in *; [discriminate |].
  destruct (p y) eqn:Hy.
  - injection Hf as ->. now rewrite Nat.eqb_refl, Hrow.
  - destruct (pk y =? pk x); [now rewrite Hrow | rewrite Hy; now apply IH].
Qed.

Lemma submission_for_updated (d : database) (aid : nat) (student_id : Py.json)
    (sub : Submission.t) (grade_value : option Py.float) (feedback : Py.json) :
  submission_for d aid student_id = Some sub ->
  submission_for (update_submission d sub grade_value feedback) aid student_id
  = Some (Submission.mk (Submission.id sub) (Submission.assignment_id sub)
            (Submission.student_id sub) (Submission.file_path sub)
            (Submission.submitted_at sub) grade_value feedback).
Proof.
  intros H. unfold submission_for, update_submission, Query.first in *.
  cbn [submissions]. apply (find_map_first _ Submission.id); [exact H |].
  apply find_some in H. destruct H as [_ H]. exact H.
Qed.

Lemma update_submission_again (d : database) (sub : Submission.t)
    (grade_value : option Py.float) (feedback : Py.json) :
  update_submission (update_submission d sub grade_value feedback)
    (Submission.mk (Submission.id sub) (Submission.assignment_id sub)
       (Submission.student_id sub) (Submission.file_path sub)
       (Submission.submitted_at sub) grade_value feedback)
    grade_value feedback
  = update_submission d sub grade_value feedback.
Proof.
  unfold update_submission. cbn. f_equal. rewrite map_map. apply map_ext. intros s.
  destruct (Submission.id s =? Submission.id sub) eqn:He; cbn.
  - now rewrite Nat.eqb_refl.
  - now rewrite He.
Qed.

(** X18: grading is idempotent: the same grading request sent a second
    time gets the same answer and leaves the state that the first one
    left. *)
Theorem grade_again_same (rt : Runtime) (w : world) (cu : User.t) (aid : nat)
    (req : request) :
  let w1 := after (grade_assignment rt w cu aid req) in
  resp (grade_assignment rt w1 cu aid req) = resp (grade_assignment rt w cu aid req) /\
  after (grade_assignment rt w1 cu aid req) = w1.
Proof.
  cbv zeta. unfold grade_assignment at 2 4 5.
  destruct (negb (role_eqb (User.role cu) role_teacher)) eqn:Hrole;
    [cbn [after resp]; unfold grade_assignment; rewrite Hrole; split; reflexivity |].
  destruct (Query.get Assignment.id aid (assignments (db w))) as [a|] eqn:Ha;
    [| cbn [after resp]; unfold grade_assignment; rewrite Hrole, Ha; split; reflexivity].
  destruct (Query.get Group.id (Assignment.group_id a) (groups (db w))) as [g|] eqn:Hg;
    [| cbn [after resp]; unfold grade_assignment; rewrite Hrole, Ha, Hg; split; reflexivity].
  destruct (negb (Group.teacher_id g =? User.id cu)) eqn:Hown;
    [cbn [after resp]; unfold grade_assignment; rewrite Hrole, Ha, Hg, Hown; split; reflexivity |].
  destruct (get_json req) as [ | | | | | |data] eqn:Hj;
    try (cbn [after resp]; unfold grade_assignment; rewrite Hrole, Ha, Hg, Hown, Hj; split; reflexivity).
  destruct (validate_grade rt (Py.dict_get data "grade")) as [gv|r] eqn:Hv;
    [| cbn [after resp]; unfold grade_assignment; rewrite Hrole, Ha, Hg, Hown, Hj, Hv; split; reflexivity].
  destruct (negb (bindable (Py.dict_get data "student_id"))) eqn:Hb;
    [cbn [after resp]; unfold grade_assignment; rewrite Hrole, Ha, Hg, Hown, Hj, Hv, Hb; split; reflexivity |].
  destruct (submission_for (db w) aid (Py.dict_get data "student_id")) as [sub|] eqn:Hs;
    [| cbn [after resp]; unfold grade_assignment; rewrite Hrole, Ha, Hg, Hown, Hj, Hv, Hb, Hs;
       split; reflexivity].
  destruct (bindable (Py.dict_get_default data "feedback" (Py.JStr ""))) eqn:Hf;
    [| cbn [after resp]; unfold grade_assignment; rewrite Hrole, Ha, Hg, Hown, Hj, Hv, Hb, Hs, Hf;
       split; reflexivity].
  cbn [after resp].
  set (fb := Py.dict_get_default data "feedback" (Py.JStr "")) in *.
  pose proof (submission_for_updated _ _ _ _ gv fb Hs) as Hs1.
  pose proof (update_submission_again (db w) sub gv fb) as Hagain.
  set (d1 := update_submission (db w) sub gv fb) in *.
  unfold grade_assignment. rewrite Hrole. cbn [db set_db].
  change (assignments d1) with (assignments (db w)).
  change (groups d1) with (groups (db w)).
  rewrite Ha, Hg, Hown, Hj, Hv, Hb. fold fb. rewrite Hs1, ?Hs, Hf. cbn [after resp fs].
  split; [reflexivity |]. now rewrite Hagain.
Qed.







(** ** Pages of a consistent database *)
















(** ** The report of a group *)

Lemma NoDup_of_counts {A : Type} (f : A -> nat) (l : list A) :
  (forall x, List.length (filter (fun y => f y =? x) l) <= 1) -> NoDup (map f l).
Proof.
  induction l as [|y r IH]; simpl; intros H; [constructor |].
  constructor.
  - intros Hin. apply in_map_iff in Hin. destruct Hin as (z & Hz & Hin).
    specialize (H (f y)). rewrite Nat.eqb_refl in H. simpl in H.
    assert (Hpos : 0 < List.length (filter (fun y0 => f y0 =? f y) r)).
    { destruct (filter (fun y0 => f y0 =? f y) r) eqn:Hf; [| simpl; lia].
      assert (Hzin : In z (filter (fun y0 => f y0 =? f y) r)).
      { apply filter_In. split; [exact Hin | now apply Nat.eqb_eq]. }
      rewrite Hf in Hzin. destruct Hzin. }
    lia.
  - apply IH. intros x. specialize (H x). destruct (f y =? x); simpl in H; lia.
Qed.

(** X21: on a consistent database the status that the report gives for an
    assignment of the group never counts more submissions than members. *)
Theorem report_status_within (d : database) (a : Assignment.t) :
  consistent d -> In a (assignments d) ->
  exists k n,
    assignment_row d (Assignment.group_id a) a
      = [Assignment.title a; Py.strftime_date (Assignment.due_date a);
         Py.str_of_nat k ++ "/" ++ Py.str_of_nat n ++ " submitted"] /\
    k <= n.
Proof.
  intros Hc Ha. unfold assignment_row.
  set (subs := filter (fun s => Submission.assignment_id s =? Assignment.id a)
                 (submissions d)).
  set (members := filter (fun m => GroupMember.group_id m =? Assignment.group_id a)
                    (group_members d)).
  exists (List.length subs), (List.length members). split; [reflexivity |].
  destruct Hc as (Hk & _ & _ & Hsingle & _ & Hrefs).
  rewrite <- (length_map Submission.student_id subs).
  rewrite <- (length_map GroupMember.student_id members).
  apply NoDup_incl_length.
  - apply NoDup_of_counts. intros x. subst subs. rewrite filter_filter_and.
    specialize (Hsingle (Assignment.id a) x). unfold count_submissions in Hsingle.
    exact Hsingle.
  - intros x Hx. apply in_map_iff in Hx. destruct Hx as (s & <- & Hs).
    apply filter_In in Hs. destruct Hs as [Hs Hid]. apply Nat.eqb_eq in Hid.
    destruct Hrefs as (_ & _ & _ & _ & Hsubs & _).
    destruct (Hsubs s Hs) as (a' & Ha' & Hid' & (m & Hm & Hg & Hst)).
    assert (a' = a).
    { destruct Hk as (_ & _ & _ & _ & Hka & _).
      apply (unique_key Assignment.id (assignments d)); try assumption. congruence. }
    subst a'. apply in_map_iff. exists m. split; [exact Hst |].
    apply filter_In. split; [exact Hm | now apply Nat.eqb_eq].
Qed.

Lemma report_status_within_witness :
  exists k n,
    assignment_row (db Session.final) 1
      (Assignment.mk 1 1 1 "Essay" "Write an essay" None
         (Py.mk_datetime 2024 6 1 12 0 0 0) (Session.t 4))
      = ["Essay"; "2024-06-01"; Py.str_of_nat k ++ "/" ++ Py.str_of_nat n ++ " submitted"]
    /\ k <= n.
Proof.
  apply (report_status_within (db Session.final)
           (Assignment.mk 1 1 1 "Essay" "Write an essay" None
              (Py.mk_datetime 2024 6 1 12 0 0 0) (Session.t 4))).
  - exact (run_consistent sample_runtime sample_library Session.term empty_world None
             empty_consistent).
  - left. reflexivity.
Defined.

Lemma paragraphs_of_app (style : string) (a b : list flowable) :
  paragraphs_of style (a ++ b) = (paragraphs_of style a ++ paragraphs_of style b)%list.
Proof.
  induction a as [|x a IH]; simpl; [reflexivity |].
  destruct x as [text s| |]; try exact IH.
  destruct (String.eqb s style); simpl; now rewrite IH.
Qed.

Lemma traverse_length {A B : Type} (f : A -> option B) (l : list A) (ys : list B) :
  traverse f l = Some ys -> List.length ys = List.length l.
Proof.
  revert ys. induction l as [|x r IH]; simpl; intros ys H.
  - injection H as <-. reflexivity.
  - destruct (f x); [| discriminate]. destruct (traverse f r); [| discriminate].
    injection H as <-. simpl. f_equal. now apply IH.
Qed.

Lemma log_parts_headings (d : database) (logs : list LogEntry.t)
    (parts : list (list flowable)) :
  traverse (log_flowables d) logs = Some parts ->
  paragraphs_of "Heading3" (List.concat parts)
  = map (fun log => LogEntry.title log ++ " - by "
                    ++ match Query.get User.id (LogEntry.student_id log) (users d) with
                       | Some student => User.full_name student
                       | None => ""
                       end
                    ++ " on " ++ Py.strftime_date (LogEntry.created_at log)) logs.
Proof.
  revert parts. induction logs as [|log rest IH]; simpl; intros parts H.
  - injection H as <-. reflexivity.
  - unfold log_flowables at 1 in H.
    destruct (Query.get User.id (LogEntry.student_id log) (users d)); [| discriminate].
    destruct (traverse (log_flowables d) rest) as [ps|]; [| discriminate].
    injection H as <-. simpl. f_equal. now apply IH.
Qed.

(** X22: the report of a group has one heading for each of the log entries
    it shows, and it shows ten of the entries of the group, or all of them
    when they are fewer. *)
Theorem report_shows_ten_entries (d : database) (group : Group.t) (group_id : nat)
    (story : list flowable) :
  report_story d group group_id = Some story ->
  List.length (paragraphs_of "Heading3" story)
  = Nat.min 10 (List.length (group_logs d group_id)).
Proof.
  unfold report_story.
  destruct (Query.get User.id (Group.teacher_id group) (users d)); [| discriminate].
  destruct (traverse (member_row d) _) as [member_rows|]; [| discriminate].
  destruct (traverse (log_flowables d) _) as [log_parts|] eqn:Hl; [| discriminate].
  intros H. injection H as <-.
  change (paragraphs_of "Heading3" ?l) with (paragraphs_of "Heading3" l).
  repeat (rewrite paragraphs_of_app || cbn [app paragraphs_of String.eqb Ascii.eqb Bool.eqb]).
  rewrite (log_parts_headings _ _ _ Hl), app_nil_r, length_map.
  unfold limit. rewrite length_firstn. f_equal.
  apply Permutation_length, sort_by_perm.
Qed.

Lemma report_shows_ten_entries_witness :
  exists story,
    report_story (db Session.final)
      (Group.mk 1 "CS101" (Some "Intro") 1 "abc123" None (Session.t 3)) 1 = Some story /\
    List.length (paragraphs_of "Heading3" story) = 1.
Proof.
  eexists. split; [reflexivity |].
  apply (report_shows_ten_entries (db Session.final)
           (Group.mk 1 "CS101" (Some "Intro") 1 "abc123" None (Session.t 3)) 1).
  reflexivity.
Defined.

(** ** One request after another *)

Lemma get_fresh {A : Type} (pk : A -> nat) (l : list A) :
  Query.get pk (Query.next_id pk l) l = None.
Proof.
  unfold Query.get. destruct (find _ l) as [x|] eqn:H; [| reflexivity].
  apply find_some in H. destruct H as [Hin Hk]. apply Nat.eqb_eq in Hk.
  exfalso. apply (next_id_fresh pk l). rewrite <- Hk. now apply in_map.
Qed.

Lemma get_snoc {A : Type} (pk : A -> nat) (l : list A) (row : A) :
  pk row = Query.next_id pk l -> Query.get pk (Query.next_id pk l) (l ++ [row]) = Some row.
Proof.
  intros Hk. unfold Query.get. apply find_app_none.
  - apply get_fresh.
  - rewrite Hk. apply Nat.eqb_refl.
Qed.

(** What a [create_log] that ends in the redirect to a group has written. *)
Lemma create_log_done (rt : Runtime) (now : Py.datetime) (w : world) (cu : User.t)
    (req : request) (g : nat) :
  resp (create_log rt now w cu req) = redirect (ep_view_group g) ->
  exists row,
    User.role cu = role_student /\
    LogEntry.id row = Query.next_id LogEntry.id (log_entries (db w)) /\
    LogEntry.group_id row = g /\ LogEntry.student_id row = User.id cu /\
    form_get req "title" = Some (LogEntry.title row) /\
    form_get req "content" = Some (LogEntry.content row) /\
    log_entries (db (after (create_log rt now w cu req)))
      = (log_entries (db w) ++ [row])%list /\
    groups (db (after (create_log rt now w cu req))) = groups (db w).
Proof.
  unfold create_log.
  destruct (negb _) eqn:Hrole; [discriminate |]. apply role_checked in Hrole.
  destruct (String.eqb _ _); [| discriminate].
  destruct (membership_of_form _ _ _) as [[g' m]|]; [| discriminate].
  destruct (match Py.dict_find "media" (files req) with
            | Some file => save_file rt now file "media" (fs w)
            | None => (None, fs w)
            end) as [media f1].
  unfold insert_log_entry.
  destruct (form_get req "title") as [t|]; [| discriminate].
  destruct (form_get req "content") as [c|]; [| discriminate].
  cbn [resp after db log_entries groups]. intros H. injection H as ->.
  eexists (LogEntry.mk _ _ _ _ _ _ _). cbn. repeat split; try reflexivity; assumption.
Qed.

(** X23: after a student has created a log entry, the page of the entry
    with the next key shows to that student the entry with the title and
    the content of the form, in the group of the form. *)
Theorem new_log_entry_readable (rt : Runtime) (now later : Py.datetime) (w : world)
    (cu : User.t) (req : request) (g : nat) :
  resp (create_log rt now w cu req) = redirect (ep_view_group g) ->
  let w1 := after (create_log rt now w cu req) in
  exists l,
    answer_of (view_log later w1 cu (Query.next_id LogEntry.id (log_entries (db w))))
      = rendered (page_log l later) /\
    form_get req "title" = Some (LogEntry.title l) /\
    form_get req "content" = Some (LogEntry.content l) /\
    LogEntry.group_id l = g /\ LogEntry.student_id l = User.id cu.
Proof.
  intros Hok w1.
  destruct (create_log_done rt now w cu req g Hok)
    as (row & Hrole & Hid & Hg & Hs & Ht & Hc & Hlogs & _).
  exists row. fold w1 in Hlogs. unfold view_log. rewrite Hlogs.
  rewrite (get_snoc LogEntry.id _ row Hid), Hrole, Hs, Nat.eqb_refl. cbn.
  repeat split; assumption.
Qed.

Lemma new_log_entry_readable_witness :
  exists l,
    answer_of (view_log (Session.t 20)
                 (after (create_log sample_runtime (Session.t 15) Session.final
                           Session.sam Session.new_log))
                 Session.sam 2)
      = rendered (page_log l (Session.t 20)) /\
    LogEntry.title l = "Week1".
Proof.
  destruct (new_log_entry_readable sample_runtime (Session.t 15) (Session.t 20)
              Session.final Session.sam Session.new_log 1 eq_refl)
    as (l & Hpage & Ht & _).
  exists l. split; [exact Hpage |]. cbn in Ht. congruence.
Defined.

(** What a [create_group] that ends in the redirect to a group has
    written. *)
Lemma create_group_done (now : Py.datetime) (w : world) (cu : User.t) (req : request)
    (gid : nat) :
  answer_of (create_group now w cu req) = answered (redirect (ep_view_group gid)) ->
  exists row,
    gid = Query.next_id Group.id (groups (db w)) /\ Group.id row = gid /\
    form_get req "join_password" = Some (Group.join_password row) /\
    Group.teacher_id row = User.id cu /\
    groups (db (state (create_group now w cu req))) = (groups (db w) ++ [row])%list /\
    group_members (db (state (create_group now w cu req))) = group_members (db w).
Proof.
  unfold create_group.
  destruct (negb _); [discriminate |].
  destruct (String.eqb _ _); [| discriminate].
  unfold insert_group.
  destruct (form_get req "name") as [n|]; [| discriminate].
  destruct (form_get req "join_password") as [p|]; [| discriminate].
  cbn [answer_of state db set_db groups group_members]. intros H. injection H as <-.
  eexists (Group.mk _ _ _ _ _ _ _). cbn. repeat split; reflexivity.
Qed.

(** X24: after a teacher has created a group with a join password that no
    group had before, a student who sends that password to [join_group] is
    sent to the new group and is a member of it. *)
Theorem created_group_joinable (now later : Py.datetime) (w : world)
    (teacher student : User.t) (req join_req : request) (gid : nat) (password : string) :
  answer_of (create_group now w teacher req) = answered (redirect (ep_view_group gid)) ->
  form_get req "join_password" = Some password -> password <> "" ->
  (forall g, In g (groups (db w)) -> Group.join_password g <> password) ->
  User.role student = role_student ->
  method join_req = "POST" -> form_get join_req "password" = Some password ->
  let w1 := state (create_group now w teacher req) in
  resp (join_group later w1 student join_req) = redirect (ep_view_group gid) /\
  is_member (db (after (join_group later w1 student join_req))) gid (User.id student).
Proof.
  intros Hok Hp Hne Hfree Hrole Hm Hjp w1.
  destruct (create_group_done now w teacher req gid Hok)
    as (row & _ & Hid & Hpw & _ & Hgroups & _).
  rewrite Hp in Hpw. injection Hpw as Hpw. fold w1 in Hgroups.
  assert (Hfirst : Query.first (fun g => String.eqb (Group.join_password g) password)
                     (groups (db w1)) = Some row).
  { rewrite Hgroups. unfold Query.first. apply find_app_none.
    - destruct (find _ (groups (db w))) as [g|] eqn:Hf; [| reflexivity].
      apply find_some in Hf. destruct Hf as [Hin He]. apply String.eqb_eq in He.
      now apply Hfree in Hin.
    - rewrite <- Hpw. apply String.eqb_refl. }
  unfold join_group. rewrite Hrole, Hm, Hjp. cbn [role_eqb negb].
  rewrite String.eqb_refl.
  destruct password as [|c rest]; [contradiction |]. rewrite Hfirst, Hid.
  destruct (membership (db w1) gid (User.id student)) as [m|] eqn:Hmem;
    cbn [resp after]; (split; [reflexivity |]).
  - eapply membership_is_member, Hmem.
  - eexists. cbn. split; [apply in_or_app; right; left; reflexivity |].
    split; reflexivity.
Qed.

Lemma created_group_joinable_witness :
  is_member
    (db (after (join_group (Session.t 8)
                  (state (create_group (Session.t 3) Session.office Session.tina
                            (Session.post [("name", "CS102"); ("join_password", "xyz")])))
                  Session.sam (Session.post [("password", "xyz")]))))
    2 2.
Proof.
  apply (created_group_joinable (Session.t 3) (Session.t 8) Session.office Session.tina
           Session.sam (Session.post [("name", "CS102"); ("join_password", "xyz")])
           (Session.post [("password", "xyz")]) 2 "xyz");
    try reflexivity; try discriminate.
  intros g [<- | []]. discriminate.
Defined.

(** X25: a group created with a join password that an earlier group has
    gets no member through [join_group] with that password: the password
    leads to the earlier group. *)
Theorem group_with_used_password_gets_no_member (now later : Py.datetime) (w : world)
    (teacher student : User.t) (req join_req : request) (gid : nat) (password : string)
    (earlier : Group.t) :
  answer_of (create_group now w teacher req) = answered (redirect (ep_view_group gid)) ->
  form_get req "join_password" = Some password ->
  In earlier (groups (db w)) -> Group.join_password earlier = password ->
  form_get join_req "password" = Some password ->
  let w1 := state (create_group now w teacher req) in
  forall m,
    In m (group_members (db (after (join_group later w1 student join_req)))) ->
    GroupMember.group_id m = gid ->
    In m (group_members (db w1)).
Proof.
  intros Hok Hp Hearlier Hpw Hjp w1 m Hm Hg.
  destruct (create_group_done now w teacher req gid Hok)
    as (row & Hgid & _ & _ & _ & Hgroups & _).
  fold w1 in Hgroups. revert Hm. unfold join_group.
  destruct (negb _); [trivial |].
  destruct (String.eqb _ _); [| trivial].
  rewrite Hjp. destruct password as [|c rest] eqn:Hpass; [trivial |]. rewrite <- Hpass in *.
  destruct (find (fun g => String.eqb (Group.join_password g) password) (groups (db w)))
    as [g0|] eqn:Hf.
  - unfold Query.first. rewrite Hgroups, (find_app_some _ _ _ _ Hf).
    destruct (membership (db w1) (Group.id g0) (User.id student)); [trivial |].
    cbn [after db set_db insert_membership group_members]. intros Hin.
    apply in_snoc in Hin. destruct Hin as [Hin | ->]; [exact Hin |]. exfalso.
    cbn in Hg. apply find_some in Hf. destruct Hf as [Hin0 _].
    apply (next_id_fresh Group.id (groups (db w))). rewrite <- Hgid, <- Hg.
    now apply in_map.
  - exfalso. apply find_none with (x := earlier) in Hf; [| exact Hearlier].
    rewrite Hpw, String.eqb_refl in Hf. discriminate.
Qed.

Lemma group_with_used_password_gets_no_member_witness :
  In (Group.mk 1 "CS101" (Some "Intro") 1 "abc123" None (Session.t 3))
    (groups (db Session.office)) /\
  forall m,
    In m (group_members
            (db (after (join_group (Session.t 8)
                          (state (create_group (Session.t 3) Session.office Session.tina
                                    (Session.post [("name", "CS102");
                                                   ("join_password", "abc123")])))
                          Session.sam
                          (Session.post [("password", "abc123")]))))) ->
    GroupMember.group_id m = 2 ->
    In m (group_members (db Session.office)).
Proof.
  split; [left; reflexivity |].
  apply (group_with_used_password_gets_no_member (Session.t 3) (Session.t 8)
           Session.office Session.tina
           Session.sam
           (Session.post [("name", "CS102"); ("join_password", "abc123")])
           (Session.post [("password", "abc123")]) 2 "abc123"
           (Group.mk 1 "CS101" (Some "Intro") 1 "abc123" None (Session.t 3)));
    try reflexivity.
  left. reflexivity.
Defined.

(** ** What the pages list, and to whom *)

Lemma order_by_desc_sorted {A : Type} (key : A -> Py.datetime) (rows : list A) :
  Sorted (fun a b => Py.dt_leb (key b) (key a) = true) (Query.order_by_desc key rows).
Proof.
  unfold Query.order_by_desc.
  apply (sort_by_sorted (fun a b => Py.dt_leb (key b) (key a))).
  intros a b. apply dt_leb_total.
Qed.

(** X26: the page of a group lists the log entries of the group, each one
    once, from the newest to the oldest, and the assignments of the group,
    each one once, from the earliest due date to the latest. *)
Theorem group_page_lists (now shown_at : Py.datetime) (w : world) (cu : User.t)
    (gid : nat) (g : Group.t) (logs : list LogEntry.t) (asgs : list Assignment.t)
    (members : list GroupMember.t) :
  resp (view_group now w cu gid)
    = render_template "groups/view.html" (ctx_group g logs asgs members shown_at) ->
  Permutation logs (group_logs (db w) gid) /\
  Sorted (fun a b => Py.dt_leb (LogEntry.created_at b) (LogEntry.created_at a) = true)
    logs /\
  Permutation asgs (group_assignments (db w) gid) /\
  Sorted (fun a b => Py.dt_leb (Assignment.due_date a) (Assignment.due_date b) = true)
    asgs.
Proof.
  unfold view_group.
  destruct (Query.get Group.id gid (groups (db w))); [| discriminate].
  match goal with |- context [match ?x with Some msg => _ | None => _ end] =>
    destruct x; [discriminate |]
  end.
  cbn [resp]. intros H. injection H as _ <- <- _ _.
  split; [apply sort_by_perm |]. split; [apply order_by_desc_sorted |].
  split; [apply sort_by_perm | apply order_by_asc_sorted].
Qed.

Lemma group_page_lists_witness :
  exists g logs asgs members,
    resp (view_group (Session.t 20) Session.final Session.sam 1)
      = render_template "groups/view.html" (ctx_group g logs asgs members (Session.t 20)) /\
    Permutation logs (group_logs (db Session.final) 1).
Proof.
  eexists _, _, _, _. split; [reflexivity |].
  eapply (group_page_lists (Session.t 20) (Session.t 20) Session.final Session.sam 1).
  reflexivity.
Defined.

(** X27: a teacher who is not the teacher of a group is turned away from
    all of it: from its page, its report and its timeline, from the pages
    of its assignments and of its log entries, and from grading and
    feedback in it; the state stays as it was. *)
Theorem other_teacher_denied (rt : Runtime) (lib : Library) (now : Py.datetime)
    (w : world) (cu : User.t) (gid : nat) (group : Group.t) :
  User.role cu = role_teacher ->
  Query.get Group.id gid (groups (db w)) = Some group ->
  Group.teacher_id group <> User.id cu ->
  let turned_away :=
    mk_outcome (answered (redirect ep_dashboard))
      [("You are not the teacher of this group", "danger")] w in
  let forbidden :=
    jsonify 403 (error_body "You are not the teacher of this group") in
  lift (view_group now w cu gid) = turned_away /\
  generate_report w cu gid = turned_away /\
  get_timeline_data w cu gid = mk_result (jsonify 403 (error_body "Access denied")) [] w /\
  (forall aid a req,
     Query.get Assignment.id aid (assignments (db w)) = Some a ->
     Assignment.group_id a = gid ->
     view_assignment now w cu aid = turned_away /\
     grade_assignment rt w cu aid req = mk_result forbidden [] w) /\
  (forall lid l req,
     Query.get LogEntry.id lid (log_entries (db w)) = Some l ->
     LogEntry.group_id l = gid ->
     view_log now w cu lid = turned_away /\
     add_feedback lib now w cu lid req = mk_outcome (answered forbidden) [] w).
Proof.
  intros Hrole Hg Hother turned_away forbidden.
  assert (Hneq : negb (Group.teacher_id group =? User.id cu) = true).
  { apply negb_true_iff. now apply Nat.eqb_neq. }
  split; [| split; [| split; [| split]]].
  - unfold view_group. now rewrite Hg, Hrole, Hneq.
  - unfold generate_report. now rewrite Hg, Hrole, Hneq.
  - unfold get_timeline_data, timeline_access. rewrite Hrole, Hg.
    apply negb_true_iff in Hneq. now rewrite Hneq.
  - intros aid a req Ha Hin. split.
    + unfold view_assignment. rewrite Ha, Hrole, Hin, Hg, Hneq. reflexivity.
    + unfold grade_assignment. rewrite Hrole, Ha, Hin, Hg, Hneq. reflexivity.
  - intros lid l req Hl Hin. split.
    + unfold view_log. rewrite Hl, Hrole, Hin, Hg, Hneq. reflexivity.
    + unfold add_feedback. rewrite Hrole, Hl, Hin, Hg, Hneq. reflexivity.
Qed.

Lemma other_teacher_denied_witness :
  generate_report Session.final
    (User.mk 3 "tom" "tom@example.org" "hash:x" role_teacher "Tom T" None None
       (Session.t 16)) 1
  = mk_outcome (answered (redirect ep_dashboard))
      [("You are not the teacher of this group", "danger")] Session.final.
Proof.
  eapply (other_teacher_denied sample_runtime sample_library (Session.t 20) Session.final
            (User.mk 3 "tom" "tom@example.org" "hash:x" role_teacher "Tom T" None None
               (Session.t 16)) 1);
    [reflexivity | reflexivity | discriminate].
Defined.



(** ** Uploads that go wrong *)

Lemma allowed_file_name (filename : string) :
  allowed_file filename = true -> String.eqb filename "" = false.
Proof. destruct filename; [discriminate | reflexivity]. Qed.

Lemma In_str_in (x : string) (xs : list string) : In x xs -> Py.str_in x xs = true.
Proof. apply str_in_In. Qed.

Lemma save_file_accepts (rt : Runtime) (now : Py.datetime) (file : FileStorage)
    (subfolder : string) (f : filesystem) :
  allowed_file (filename file) = true ->
  save_file rt now file subfolder f
  = (Some ("uploads/" ++ subfolder ++ "/" ++ Py.strftime_stamp now ++ "_"
           ++ secure_filename rt (filename file)),
     file_save
       (Py.path_join (Py.path_join (UPLOAD_FOLDER rt) subfolder)
          (Py.strftime_stamp now ++ "_" ++ secure_filename rt (filename file)))
       (makedirs (Py.path_join (UPLOAD_FOLDER rt) subfolder) f)).
Proof.
  intros Ha. unfold save_file, file_truthy.
  rewrite (allowed_file_name _ Ha), Ha. reflexivity.
Qed.

(** X29: an update of the profile that brings a new picture and fails at
    the commit, because the email of the form is that of another user,
    leaves the user row as it was, with the old picture in it, while the
    file of the old picture is gone and the new file is written. *)
Theorem failed_profile_update_loses_picture (rt : Runtime) (now : Py.datetime)
    (w : world) (cu : User.t) (req : request) (file : FileStorage) (old email : string) :
  method req = "POST" ->
  form_get req "email" = Some email ->
  (exists u, In u (users (db w)) /\ User.id u <> User.id cu /\ User.email u = email) ->
  Py.dict_find "profile_picture" (files req) = Some file ->
  allowed_file (filename file) = true ->
  User.profile_picture cu = Some old -> old <> "" ->
  In (Py.path_join "static" old) (fs_files (fs w)) ->
  let new_path :=
    Py.path_join (Py.path_join (UPLOAD_FOLDER rt) "profiles")
      (Py.strftime_stamp now ++ "_" ++ secure_filename rt (filename file)) in
  Py.path_join "static" old <> new_path ->
  let w1 := after (update_profile rt now w cu req) in
  db w1 = db w /\
  ~ In (Py.path_join "static" old) (fs_files (fs w1)) /\
  In new_path (fs_files (fs w1)).
Proof.
  intros Hm He (u & Hu & Hid & Hmail) Hfile Ha Hold Hne Hin new_path Hnew w1.
  assert (Hfail : forall n c p, update_user (db w) cu n (Some email) c p = None).
  { intros n c p. unfold update_user. destruct n; [| reflexivity].
    destruct (existsb _ (users (db w))) eqn:Hex; [reflexivity |].
    exfalso. assert (Hex' : existsb (fun x => negb (User.id x =? User.id cu)
                                           && String.eqb (User.email x) email)
                              (users (db w)) = true).
    { apply existsb_exists. exists u. split; [exact Hu |].
      rewrite Hmail, String.eqb_refl, andb_true_r.
      apply negb_true_iff. now apply Nat.eqb_neq. }
    congruence. }
  subst w1. unfold update_profile. rewrite Hm, String.eqb_refl, He.
  unfold update_picture. rewrite Hfile. unfold file_truthy.
  rewrite (allowed_file_name _ Ha), Ha, Hold. cbn [negb andb].
  destruct old as [|c rest]; [contradiction |].
  unfold path_exists. rewrite (In_str_in _ _ Hin). cbn [orb].
  rewrite (save_file_accepts rt now file "profiles" _ Ha), Hfail.
  cbn [after db fs set_fs]. fold new_path.
  split; [reflexivity |]. split.
  - unfold file_save. rewrite makedirs_files.
    destruct (Py.str_in new_path _); cbn [fs_files]; rewrite ?makedirs_files;
      cbn [fs_files os_remove]; intros H.
    + apply filter_In in H. destruct H as [_ H]. now rewrite String.eqb_refl in H.
    + apply in_snoc in H. destruct H as [H | H]; [| contradiction].
      apply filter_In in H. destruct H as [_ H]. now rewrite String.eqb_refl in H.
  - apply str_in_In, file_save_in.
Qed.

Lemma failed_profile_update_loses_picture_witness :
  load_user (db Session.gallery) (Some 4) = Some Session.pia /\
  In "static/uploads/profiles/20240517_100000_me.png" (fs_files (fs Session.gallery)) /\
  let w1 := after (update_profile sample_runtime (Session.t 18) Session.gallery
                     Session.pia Session.change_picture) in
  db w1 = db Session.gallery /\
  ~ In "static/uploads/profiles/20240517_100000_me.png" (fs_files (fs w1)) /\
  In "/srv/journal/static/uploads/profiles/20240518_100000_new.png" (fs_files (fs w1)).
Proof.
  split; [reflexivity |]. split; [cbn; tauto |].
  apply (failed_profile_update_loses_picture sample_runtime (Session.t 18)
           Session.gallery Session.pia Session.change_picture (mk_file "new.png")
           "uploads/profiles/20240517_100000_me.png" "tina@example.org");
    try reflexivity; try discriminate.
  - exists Session.tina. split; [left; reflexivity |]. split; [discriminate | reflexivity].
  - cbn. tauto.
Defined.

Lemma makedirs_again (dir : string) (f : filesystem) :
  Py.str_in dir (fs_dirs f) = true -> makedirs dir f = f.
Proof. intros H. unfold makedirs. now rewrite H. Qed.

Lemma file_save_again (path : string) (f : filesystem) :
  Py.str_in path (fs_files f) = true -> file_save path f = f.
Proof. intros H. unfold file_save. now rewrite H. Qed.

Lemma makedirs_in (dir : string) (f : filesystem) :
  Py.str_in dir (fs_dirs (makedirs dir f)) = true.
Proof.
  unfold makedirs. destruct (Py.str_in dir (fs_dirs f)) eqn:H; [exact H |].
  cbn [fs_dirs]. rewrite str_in_app. simpl. rewrite String.eqb_refl.
  now rewrite orb_true_r.
Qed.

Lemma file_save_dirs (path : string) (f : filesystem) :
  fs_dirs (file_save path f) = fs_dirs f.
Proof. unfold file_save. destruct (Py.str_in path (fs_files f)); reflexivity. Qed.

(** What a [submit_assignment] that flashes its success has written. *)
Lemma submit_done (rt : Runtime) (now : Py.datetime) (w : world) (cu : User.t)
    (aid : nat) (req : request) :
  flashed (submit_assignment rt now w cu aid req)
    = [("Assignment submitted successfully", "success")] ->
  exists file,
    Py.dict_find "file" (files req) = Some file /\
    allowed_file (filename file) = true /\
    after (submit_assignment rt now w cu aid req)
    = mk_world
        (insert_submission now (db w) aid (User.id cu)
           ("uploads/submissions/" ++ Py.strftime_stamp now ++ "_"
            ++ secure_filename rt (filename file)))
        (file_save
           (Py.path_join (Py.path_join (UPLOAD_FOLDER rt) "submissions")
              (Py.strftime_stamp now ++ "_" ++ secure_filename rt (filename file)))
           (makedirs (Py.path_join (UPLOAD_FOLDER rt) "submissions") (fs w))).
Proof.
  unfold submit_assignment.
  destruct (negb _); [discriminate |].
  destruct (Query.get _ _ _); [| discriminate].
  destruct (membership _ _ _); [| discriminate].
  destruct (String.eqb (method req) "POST"); [| discriminate].
  destruct (submission_of _ _ _); [discriminate |].
  destruct (Py.dict_find "file" (files req)) as [file|]; [| discriminate].
  destruct (String.eqb (filename file) ""); [discriminate |].
  destruct (allowed_file (filename file)) eqn:Ha.
  - rewrite (save_file_accepts rt now file "submissions" (fs w) Ha). cbn [flashed after].
    intros _. exists file. repeat split. exact Ha.
  - destruct (save_file_rejects_iff rt now file "submissions" (fs w)) as [[_ Hr] _].
    destruct (save_file rt now file "submissions" (fs w)) as [[path|] f1];
      [| discriminate].
    cbn [fst] in Hr. discriminate Hr. now right.
Qed.

(** X30: the name under which an upload is stored is made of the second of
    the upload and of the secured file name only: when two students hand in
    files with the same secured name within one second, both submissions
    name the same stored path, and the second upload adds no file. *)
Theorem submissions_can_share_a_file (rt : Runtime) (now1 now2 : Py.datetime)
    (w : world) (u1 u2 : User.t) (aid1 aid2 : nat) (req1 req2 : request)
    (file1 file2 : FileStorage) :
  Py.dict_find "file" (files req1) = Some file1 ->
  Py.dict_find "file" (files req2) = Some file2 ->
  secure_filename rt (filename file1) = secure_filename rt (filename file2) ->
  Py.strftime_stamp now1 = Py.strftime_stamp now2 ->
  let w1 := after (submit_assignment rt now1 w u1 aid1 req1) in
  let w2 := after (submit_assignment rt now2 w1 u2 aid2 req2) in
  flashed (submit_assignment rt now1 w u1 aid1 req1)
    = [("Assignment submitted successfully", "success")] ->
  flashed (submit_assignment rt now2 w1 u2 aid2 req2)
    = [("Assignment submitted successfully", "success")] ->
  exists s1 s2,
    submissions (db w2) = (submissions (db w) ++ [s1; s2])%list /\
    Submission.student_id s1 = User.id u1 /\ Submission.student_id s2 = User.id u2 /\
    Submission.file_path s1 = Submission.file_path s2 /\
    fs w2 = fs w1.
Proof.
  intros Hf1 Hf2 Hname Hstamp w1 w2 Hok1 Hok2.
  destruct (submit_done rt now1 w u1 aid1 req1 Hok1) as (f1 & Hf1' & Ha1 & Hw1).
  destruct (submit_done rt now2 w1 u2 aid2 req2 Hok2) as (f2 & Hf2' & Ha2 & Hw2).
  rewrite Hf1 in Hf1'. injection Hf1' as <-. rewrite Hf2 in Hf2'. injection Hf2' as <-.
  fold w1 in Hw1. fold w2 in Hw2. rewrite Hw2, Hw1. cbn [db fs].
  unfold insert_submission. cbn [submissions]. eexists _, _. split.
  - rewrite <- app_assoc. reflexivity.
  - cbn [Submission.student_id Submission.file_path]. repeat split.
    + now rewrite Hname, Hstamp.
    + rewrite <- Hname, <- Hstamp. rewrite makedirs_again, file_save_again; try reflexivity.
      * apply file_save_in.
      * rewrite file_save_dirs. apply makedirs_in.
Qed.

Lemma submissions_can_share_a_file_witness :
  let w1 := after (submit_assignment sample_runtime (Session.t 14) Session.classroom
                     Session.sam 1 Session.hand_in) in
  let w2 := after (submit_assignment sample_runtime (Py.mk_datetime 2024 5 14 10 0 0 500)
                     w1 Session.sue 1 Session.hand_in) in
  exists s1 s2,
    submissions (db w2) = (submissions (db Session.classroom) ++ [s1; s2])%list /\
    Submission.student_id s1 = 2 /\ Submission.student_id s2 = 3 /\
    Submission.file_path s1 = Submission.file_path s2 /\
    fs w2 = fs w1.
Proof.
  apply (submissions_can_share_a_file sample_runtime (Session.t 14)
           (Py.mk_datetime 2024 5 14 10 0 0 500) Session.classroom Session.sam
           Session.sue 1 1 Session.hand_in Session.hand_in (mk_file "essay.pdf")
           (mk_file "essay.pdf")); reflexivity.
Defined.
